(** * AI Listing Writer: the generation-and-repair pipeline of [app1.py]

    A shallow embedding of the keyword and bullets builders, the
    defensive JSON extraction, the validate-and-repair loop, the
    length-enforcement pass, the access gate and the generation step of
    the page, together with the properties the specification states
    about them and properties the code shows besides.

    Conventions of the embedding.
    - A Python [str] is the list of its code points ([list N]); [len] is
      the length of that list. [str.lower], [str.strip], [str.split] and
      the whitespace they know follow CPython 3.11 (Unicode 14.0).
    - A Python [float] is an IEEE binary64 value, written with the
      Standard Library's [spec_float] and computed with its [SFmul],
      [SFdiv] and [binary_normalize] at precision 53.
    - A Python [dict] with string keys is a [gmap (list N) _]; a dict
      whose iteration order is observable (the selection map) is the list
      of its items.
    - A function that may raise returns an [outcome]; a function that
      talks to the model endpoint is a state transformer over the log of
      the requests issued so far. *)

From Stdlib Require Import ZArith List Bool Ascii String SpecFloat Lia.
From stdpp Require Import gmap list fin_maps.

#[local] Set Warnings "-register-all".
#[local] Open Scope Z_scope.

(** ** Exceptions and fallible results *)

Inductive exn :=
| JSONDecodeError
| ValueError
| OverflowError
| AttributeError
| TransportError.

Inductive outcome (A : Type) :=
| Ok (a : A)
| Raise (e : exn).
Arguments Ok {A} a.
Arguments Raise {A} e.

Definition obind {A B} (m : outcome A) (k : A -> outcome B) : outcome B :=
  match m with
  | Ok a => k a
  | Raise e => Raise e
  end.

Declare Scope py_scope.
Delimit Scope py_scope with py.
Notation "'try' x <- m ; k" := (obind m (fun x => k))
  (at level 10, x name, m at level 100, k at level 200) : py_scope.
Notation "'try' ' p <- m ; k" := (obind m (fun p => k))
  (at level 10, p strict pattern, m at level 100, k at level 200) : py_scope.
#[local] Open Scope py_scope.

(** ** Strings *)

Abbreviation pystr := (list N).

(** An ASCII literal of the development as a Python string. *)
Definition py (s : string) : pystr := map N_of_ascii (list_ascii_of_string s).

(** The same, reading every apostrophe of the literal as a double quote
    (code point 34), for JSON texts. *)
Definition jtext (s : string) : pystr :=
  map (fun c => if N.eqb c 39 then 34%N else c) (py s).

Definition len (s : pystr) : Z := Z.of_nat (length s).

Definition str_eqb (a b : pystr) : bool := bool_decide (a = b).

(** [str.isspace] of one character: the code points [str.strip()] and
    [str.split()] treat as whitespace. *)
Definition is_space (c : N) : bool :=
  ((9 <=? c) && (c <=? 13) || (28 <=? c) && (c <=? 32) ||
   (c =? 133) || (c =? 160) || (c =? 5760) ||
   (8192 <=? c) && (c <=? 8202) || (c =? 8232) || (c =? 8233) ||
   (c =? 8239) || (c =? 8287) || (c =? 12288))%N.

Fixpoint drop_while (p : N -> bool) (s : pystr) : pystr :=
  match s with
  | [] => []
  | c :: s' => if p c then drop_while p s' else s
  end.

Definition strip_by (p : N -> bool) (s : pystr) : pystr :=
  rev (drop_while p (rev (drop_while p s))).

(** [s.strip()] *)
Definition str_strip (s : pystr) : pystr := strip_by is_space s.

Definition char_in (chars : pystr) (c : N) : bool := existsb (N.eqb c) chars.

(** [s.strip(chars)] *)
Definition str_strip_chars (chars s : pystr) : pystr := strip_by (char_in chars) s.

(** [s.split()]: the maximal runs of non-whitespace characters. The
    accumulator [cur] holds the current run, reversed. *)
Fixpoint split_from (cur s : pystr) : list pystr :=
  match s with
  | [] => match cur with [] => [] | _ => [rev cur] end
  | c :: s' =>
      if is_space c
      then match cur with
           | [] => split_from [] s'
           | _ => rev cur :: split_from [] s'
           end
      else split_from (c :: cur) s'
  end.

Definition str_split (s : pystr) : list pystr := split_from [] s.

(** [sep.join(parts)] *)
Fixpoint str_join (sep : pystr) (parts : list pystr) : pystr :=
  match parts with
  | [] => []
  | [p] => p
  | p :: ps => p ++ sep ++ str_join sep ps
  end.

(** [s.lower()], as CPython 3.11 computes it, on the tables of Unicode
    14.0. Every code point has a lowercase mapping: one code point, but
    for U+0130, which gives two; a code point that [lower_pairs] does not
    list maps to itself. *)
Definition lower_pairs : list (N * N) :=
  [(65, 97); (66, 98); (67, 99); (68, 100); (69, 101); (70, 102); (71, 103);
   (72, 104); (73, 105); (74, 106); (75, 107); (76, 108); (77, 109);
   (78, 110); (79, 111); (80, 112); (81, 113); (82, 114); (83, 115);
   (84, 116); (85, 117); (86, 118); (87, 119); (88, 120); (89, 121);
   (90, 122); (192, 224); (193, 225); (194, 226); (195, 227); (196, 228);
   (197, 229); (198, 230); (199, 231); (200, 232); (201, 233); (202, 234);
   (203, 235); (204, 236); (205, 237); (206, 238); (207, 239); (208, 240);
   (209, 241); (210, 242); (211, 243); (212, 244); (213, 245); (214, 246);
   (216, 248); (217, 249); (218, 250); (219, 251); (220, 252); (221, 253);
   (222, 254); (256, 257); (258, 259); (260, 261); (262, 263); (264, 265);
   (266, 267); (268, 269); (270, 271); (272, 273); (274, 275); (276, 277);
   (278, 279); (280, 281); (282, 283); (284, 285); (286, 287); (288, 289);
   (290, 291); (292, 293); (294, 295); (296, 297); (298, 299); (300, 301);
   (302, 303); (306, 307); (308, 309); (310, 311); (313, 314); (315, 316);
   (317, 318); (319, 320); (321, 322); (323, 324); (325, 326); (327, 328);
   (330, 331); (332, 333); (334, 335); (336, 337); (338, 339); (340, 341);
   (342, 343); (344, 345); (346, 347); (348, 349); (350, 351); (352, 353);
   (354, 355); (356, 357); (358, 359); (360, 361); (362, 363); (364, 365);
   (366, 367); (368, 369); (370, 371); (372, 373); (374, 375); (376, 255);
   (377, 378); (379, 380); (381, 382); (385, 595); (386, 387); (388, 389);
   (390, 596); (391, 392); (393, 598); (394, 599); (395, 396); (398, 477);
   (399, 601); (400, 603); (401, 402); (403, 608); (404, 611); (406, 617);
   (407, 616); (408, 409); (412, 623); (413, 626); (415, 629); (416, 417);
   (418, 419); (420, 421); (422, 640); (423, 424); (425, 643); (428, 429);
   (430, 648); (431, 432); (433, 650); (434, 651); (435, 436); (437, 438);
   (439, 658); (440, 441); (444, 445); (452, 454); (453, 454); (455, 457);
   (456, 457); (458, 460); (459, 460); (461, 462); (463, 464); (465, 466);
   (467, 468); (469, 470); (471, 472); (473, 474); (475, 476); (478, 479);
   (480, 481); (482, 483); (484, 485); (486, 487); (488, 489); (490, 491);
   (492, 493); (494, 495); (497, 499); (498, 499); (500, 501); (502, 405);
   (503, 447); (504, 505); (506, 507); (508, 509); (510, 511); (512, 513);
   (514, 515); (516, 517); (518, 519); (520, 521); (522, 523); (524, 525);
   (526, 527); (528, 529); (530, 531); (532, 533); (534, 535); (536, 537);
   (538, 539); (540, 541); (542, 543); (544, 414); (546, 547); (548, 549);
   (550, 551); (552, 553); (554, 555); (556, 557); (558, 559); (560, 561);
   (562, 563); (570, 11365); (571, 572); (573, 410); (574, 11366); (577, 578);
   (579, 384); (580, 649); (581, 652); (582, 583); (584, 585); (586, 587);
   (588, 589); (590, 591); (880, 881); (882, 883); (886, 887); (895, 1011);
   (902, 940); (904, 941); (905, 942); (906, 943); (908, 972); (910, 973);
   (911, 974); (913, 945); (914, 946); (915, 947); (916, 948); (917, 949);
   (918, 950); (919, 951); (920, 952); (921, 953); (922, 954); (923, 955);
   (924, 956); (925, 957); (926, 958); (927, 959); (928, 960); (929, 961);
   (931, 963); (932, 964); (933, 965); (934, 966); (935, 967); (936, 968);
   (937, 969); (938, 970); (939, 971); (975, 983); (984, 985); (986, 987);
   (988, 989); (990, 991); (992, 993); (994, 995); (996, 997); (998, 999);
   (1000, 1001); (1002, 1003); (1004, 1005); (1006, 1007); (1012, 952);
   (1015, 1016); (1017, 1010); (1018, 1019); (1021, 891); (1022, 892);
   (1023, 893); (1024, 1104); (1025, 1105); (1026, 1106); (1027, 1107);
   (1028, 1108); (1029, 1109); (1030, 1110); (1031, 1111); (1032, 1112);
   (1033, 1113); (1034, 1114); (1035, 1115); (1036, 1116); (1037, 1117);
   (1038, 1118); (1039, 1119); (1040, 1072); (1041, 1073); (1042, 1074);
   (1043, 1075); (1044, 1076); (1045, 1077); (1046, 1078); (1047, 1079);
   (1048, 1080); (1049, 1081); (1050, 1082); (1051, 1083); (1052, 1084);
   (1053, 1085); (1054, 1086); (1055, 1087); (1056, 1088); (1057, 1089);
   (1058, 1090); (1059, 1091); (1060, 1092); (1061, 1093); (1062, 1094);
   (1063, 1095); (1064, 1096); (1065, 1097); (1066, 1098); (1067, 1099);
   (1068, 1100); (1069, 1101); (1070, 1102); (1071, 1103); (1120, 1121);
   (1122, 1123); (1124, 1125); (1126, 1127); (1128, 1129); (1130, 1131);
   (1132, 1133); (1134, 1135); (1136, 1137); (1138, 1139); (1140, 1141);
   (1142, 1143); (1144, 1145); (1146, 1147); (1148, 1149); (1150, 1151);
   (1152, 1153); (1162, 1163); (1164, 1165); (1166, 1167); (1168, 1169);
   (1170, 1171); (1172, 1173); (1174, 1175); (1176, 1177); (1178, 1179);
   (1180, 1181); (1182, 1183); (1184, 1185); (1186, 1187); (1188, 1189);
   (1190, 1191); (1192, 1193); (1194, 1195); (1196, 1197); (1198, 1199);
   (1200, 1201); (1202, 1203); (1204, 1205); (1206, 1207); (1208, 1209);
   (1210, 1211); (1212, 1213); (1214, 1215); (1216, 1231); (1217, 1218);
   (1219, 1220); (1221, 1222); (1223, 1224); (1225, 1226); (1227, 1228);
   (1229, 1230); (1232, 1233); (1234, 1235); (1236, 1237); (1238, 1239);
   (1240, 1241); (1242, 1243); (1244, 1245); (1246, 1247); (1248, 1249);
   (1250, 1251); (1252, 1253); (1254, 1255); (1256, 1257); (1258, 1259);
   (1260, 1261); (1262, 1263); (1264, 1265); (1266, 1267); (1268, 1269);
   (1270, 1271); (1272, 1273); (1274, 1275); (1276, 1277); (1278, 1279);
   (1280, 1281); (1282, 1283); (1284, 1285); (1286, 1287); (1288, 1289);
   (1290, 1291); (1292, 1293); (1294, 1295); (1296, 1297); (1298, 1299);
   (1300, 1301); (1302, 1303); (1304, 1305); (1306, 1307); (1308, 1309);
   (1310, 1311); (1312, 1313); (1314, 1315); (1316, 1317); (1318, 1319);
   (1320, 1321); (1322, 1323); (1324, 1325); (1326, 1327); (1329, 1377);
   (1330, 1378); (1331, 1379); (1332, 1380); (1333, 1381); (1334, 1382);
   (1335, 1383); (1336, 1384); (1337, 1385); (1338, 1386); (1339, 1387);
   (1340, 1388); (1341, 1389); (1342, 1390); (1343, 1391); (1344, 1392);
   (1345, 1393); (1346, 1394); (1347, 1395); (1348, 1396); (1349, 1397);
   (1350, 1398); (1351, 1399); (1352, 1400); (1353, 1401); (1354, 1402);
   (1355, 1403); (1356, 1404); (1357, 1405); (1358, 1406); (1359, 1407);
   (1360, 1408); (1361, 1409); (1362, 1410); (1363, 1411); (1364, 1412);
   (1365, 1413); (1366, 1414); (4256, 11520); (4257, 11521); (4258, 11522);
   (4259, 11523); (4260, 11524); (4261, 11525); (4262, 11526); (4263, 11527);
   (4264, 11528); (4265, 11529); (4266, 11530); (4267, 11531); (4268, 11532);
   (4269, 11533); (4270, 11534); (4271, 11535); (4272, 11536); (4273, 11537);
   (4274, 11538); (4275, 11539); (4276, 11540); (4277, 11541); (4278, 11542);
   (4279, 11543); (4280, 11544); (4281, 11545); (4282, 11546); (4283, 11547);
   (4284, 11548); (4285, 11549); (4286, 11550); (4287, 11551); (4288, 11552);
   (4289, 11553); (4290, 11554); (4291, 11555); (4292, 11556); (4293, 11557);
   (4295, 11559); (4301, 11565); (5024, 43888); (5025, 43889); (5026, 43890);
   (5027, 43891); (5028, 43892); (5029, 43893); (5030, 43894); (5031, 43895);
   (5032, 43896); (5033, 43897); (5034, 43898); (5035, 43899); (5036, 43900);
   (5037, 43901); (5038, 43902); (5039, 43903); (5040, 43904); (5041, 43905);
   (5042, 43906); (5043, 43907); (5044, 43908); (5045, 43909); (5046, 43910);
   (5047, 43911); (5048, 43912); (5049, 43913); (5050, 43914); (5051, 43915);
   (5052, 43916); (5053, 43917); (5054, 43918); (5055, 43919); (5056, 43920);
   (5057, 43921); (5058, 43922); (5059, 43923); (5060, 43924); (5061, 43925);
   (5062, 43926); (5063, 43927); (5064, 43928); (5065, 43929); (5066, 43930);
   (5067, 43931); (5068, 43932); (5069, 43933); (5070, 43934); (5071, 43935);
   (5072, 43936); (5073, 43937); (5074, 43938); (5075, 43939); (5076, 43940);
   (5077, 43941); (5078, 43942); (5079, 43943); (5080, 43944); (5081, 43945);
   (5082, 43946); (5083, 43947); (5084, 43948); (5085, 43949); (5086, 43950);
   (5087, 43951); (5088, 43952); (5089, 43953); (5090, 43954); (5091, 43955);
   (5092, 43956); (5093, 43957); (5094, 43958); (5095, 43959); (5096, 43960);
   (5097, 43961); (5098, 43962); (5099, 43963); (5100, 43964); (5101, 43965);
   (5102, 43966); (5103, 43967); (5104, 5112); (5105, 5113); (5106, 5114);
   (5107, 5115); (5108, 5116); (5109, 5117); (7312, 4304); (7313, 4305);
   (7314, 4306); (7315, 4307); (7316, 4308); (7317, 4309); (7318, 4310);
   (7319, 4311); (7320, 4312); (7321, 4313); (7322, 4314); (7323, 4315);
   (7324, 4316); (7325, 4317); (7326, 4318); (7327, 4319); (7328, 4320);
   (7329, 4321); (7330, 4322); (7331, 4323); (7332, 4324); (7333, 4325);
   (7334, 4326); (7335, 4327); (7336, 4328); (7337, 4329); (7338, 4330);
   (7339, 4331); (7340, 4332); (7341, 4333); (7342, 4334); (7343, 4335);
   (7344, 4336); (7345, 4337); (7346, 4338); (7347, 4339); (7348, 4340);
   (7349, 4341); (7350, 4342); (7351, 4343); (7352, 4344); (7353, 4345);
   (7354, 4346); (7357, 4349); (7358, 4350); (7359, 4351); (7680, 7681);
   (7682, 7683); (7684, 7685); (7686, 7687); (7688, 7689); (7690, 7691);
   (7692, 7693); (7694, 7695); (7696, 7697); (7698, 7699); (7700, 7701);
   (7702, 7703); (7704, 7705); (7706, 7707); (7708, 7709); (7710, 7711);
   (7712, 7713); (7714, 7715); (7716, 7717); (7718, 7719); (7720, 7721);
   (7722, 7723); (7724, 7725); (7726, 7727); (7728, 7729); (7730, 7731);
   (7732, 7733); (7734, 7735); (7736, 7737); (7738, 7739); (7740, 7741);
   (7742, 7743); (7744, 7745); (7746, 7747); (7748, 7749); (7750, 7751);
   (7752, 7753); (7754, 7755); (7756, 7757); (7758, 7759); (7760, 7761);
   (7762, 7763); (7764, 7765); (7766, 7767); (7768, 7769); (7770, 7771);
   (7772, 7773); (7774, 7775); (7776, 7777); (7778, 7779); (7780, 7781);
   (7782, 7783); (7784, 7785); (7786, 7787); (7788, 7789); (7790, 7791);
   (7792, 7793); (7794, 7795); (7796, 7797); (7798, 7799); (7800, 7801);
   (7802, 7803); (7804, 7805); (7806, 7807); (7808, 7809); (7810, 7811);
   (7812, 7813); (7814, 7815); (7816, 7817); (7818, 7819); (7820, 7821);
   (7822, 7823); (7824, 7825); (7826, 7827); (7828, 7829); (7838, 223);
   (7840, 7841); (7842, 7843); (7844, 7845); (7846, 7847); (7848, 7849);
   (7850, 7851); (7852, 7853); (7854, 7855); (7856, 7857); (7858, 7859);
   (7860, 7861); (7862, 7863); (7864, 7865); (7866, 7867); (7868, 7869);
   (7870, 7871); (7872, 7873); (7874, 7875); (7876, 7877); (7878, 7879);
   (7880, 7881); (7882, 7883); (7884, 7885); (7886, 7887); (7888, 7889);
   (7890, 7891); (7892, 7893); (7894, 7895); (7896, 7897); (7898, 7899);
   (7900, 7901); (7902, 7903); (7904, 7905); (7906, 7907); (7908, 7909);
   (7910, 7911); (7912, 7913); (7914, 7915); (7916, 7917); (7918, 7919);
   (7920, 7921); (7922, 7923); (7924, 7925); (7926, 7927); (7928, 7929);
   (7930, 7931); (7932, 7933); (7934, 7935); (7944, 7936); (7945, 7937);
   (7946, 7938); (7947, 7939); (7948, 7940); (7949, 7941); (7950, 7942);
   (7951, 7943); (7960, 7952); (7961, 7953); (7962, 7954); (7963, 7955);
   (7964, 7956); (7965, 7957); (7976, 7968); (7977, 7969); (7978, 7970);
   (7979, 7971); (7980, 7972); (7981, 7973); (7982, 7974); (7983, 7975);
   (7992, 7984); (7993, 7985); (7994, 7986); (7995, 7987); (7996, 7988);
   (7997, 7989); (7998, 7990); (7999, 7991); (8008, 8000); (8009, 8001);
   (8010, 8002); (8011, 8003); (8012, 8004); (8013, 8005); (8025, 8017);
   (8027, 8019); (8029, 8021); (8031, 8023); (8040, 8032); (8041, 8033);
   (8042, 8034); (8043, 8035); (8044, 8036); (8045, 8037); (8046, 8038);
   (8047, 8039); (8072, 8064); (8073, 8065); (8074, 8066); (8075, 8067);
   (8076, 8068); (8077, 8069); (8078, 8070); (8079, 8071); (8088, 8080);
   (8089, 8081); (8090, 8082); (8091, 8083); (8092, 8084); (8093, 8085);
   (8094, 8086); (8095, 8087); (8104, 8096); (8105, 8097); (8106, 8098);
   (8107, 8099); (8108, 8100); (8109, 8101); (8110, 8102); (8111, 8103);
   (8120, 8112); (8121, 8113); (8122, 8048); (8123, 8049); (8124, 8115);
   (8136, 8050); (8137, 8051); (8138, 8052); (8139, 8053); (8140, 8131);
   (8152, 8144); (8153, 8145); (8154, 8054); (8155, 8055); (8168, 8160);
   (8169, 8161); (8170, 8058); (8171, 8059); (8172, 8165); (8184, 8056);
   (8185, 8057); (8186, 8060); (8187, 8061); (8188, 8179); (8486, 969);
   (8490, 107); (8491, 229); (8498, 8526); (8544, 8560); (8545, 8561);
   (8546, 8562); (8547, 8563); (8548, 8564); (8549, 8565); (8550, 8566);
   (8551, 8567); (8552, 8568); (8553, 8569); (8554, 8570); (8555, 8571);
   (8556, 8572); (8557, 8573); (8558, 8574); (8559, 8575); (8579, 8580);
   (9398, 9424); (9399, 9425); (9400, 9426); (9401, 9427); (9402, 9428);
   (9403, 9429); (9404, 9430); (9405, 9431); (9406, 9432); (9407, 9433);
   (9408, 9434); (9409, 9435); (9410, 9436); (9411, 9437); (9412, 9438);
   (9413, 9439); (9414, 9440); (9415, 9441); (9416, 9442); (9417, 9443);
   (9418, 9444); (9419, 9445); (9420, 9446); (9421, 9447); (9422, 9448);
   (9423, 9449); (11264, 11312); (11265, 11313); (11266, 11314);
   (11267, 11315); (11268, 11316); (11269, 11317); (11270, 11318);
   (11271, 11319); (11272, 11320); (11273, 11321); (11274, 11322);
   (11275, 11323); (11276, 11324); (11277, 11325); (11278, 11326);
   (11279, 11327); (11280, 11328); (11281, 11329); (11282, 11330);
   (11283, 11331); (11284, 11332); (11285, 11333); (11286, 11334);
   (11287, 11335); (11288, 11336); (11289, 11337); (11290, 11338);
   (11291, 11339); (11292, 11340); (11293, 11341); (11294, 11342);
   (11295, 11343); (11296, 11344); (11297, 11345); (11298, 11346);
   (11299, 11347); (11300, 11348); (11301, 11349); (11302, 11350);
   (11303, 11351); (11304, 11352); (11305, 11353); (11306, 11354);
   (11307, 11355); (11308, 11356); (11309, 11357); (11310, 11358);
   (11311, 11359); (11360, 11361); (11362, 619); (11363, 7549); (11364, 637);
   (11367, 11368); (11369, 11370); (11371, 11372); (11373, 593); (11374, 625);
   (11375, 592); (11376, 594); (11378, 11379); (11381, 11382); (11390, 575);
   (11391, 576); (11392, 11393); (11394, 11395); (11396, 11397);
   (11398, 11399); (11400, 11401); (11402, 11403); (11404, 11405);
   (11406, 11407); (11408, 11409); (11410, 11411); (11412, 11413);
   (11414, 11415); (11416, 11417); (11418, 11419); (11420, 11421);
   (11422, 11423); (11424, 11425); (11426, 11427); (11428, 11429);
   (11430, 11431); (11432, 11433); (11434, 11435); (11436, 11437);
   (11438, 11439); (11440, 11441); (11442, 11443); (11444, 11445);
   (11446, 11447); (11448, 11449); (11450, 11451); (11452, 11453);
   (11454, 11455); (11456, 11457); (11458, 11459); (11460, 11461);
   (11462, 11463); (11464, 11465); (11466, 11467); (11468, 11469);
   (11470, 11471); (11472, 11473); (11474, 11475); (11476, 11477);
   (11478, 11479); (11480, 11481); (11482, 11483); (11484, 11485);
   (11486, 11487); (11488, 11489); (11490, 11491); (11499, 11500);
   (11501, 11502); (11506, 11507); (42560, 42561); (42562, 42563);
   (42564, 42565); (42566, 42567); (42568, 42569); (42570, 42571);
   (42572, 42573); (42574, 42575); (42576, 42577); (42578, 42579);
   (42580, 42581); (42582, 42583); (42584, 42585); (42586, 42587);
   (42588, 42589); (42590, 42591); (42592, 42593); (42594, 42595);
   (42596, 42597); (42598, 42599); (42600, 42601); (42602, 42603);
   (42604, 42605); (42624, 42625); (42626, 42627); (42628, 42629);
   (42630, 42631); (42632, 42633); (42634, 42635); (42636, 42637);
   (42638, 42639); (42640, 42641); (42642, 42643); (42644, 42645);
   (42646, 42647); (42648, 42649); (42650, 42651); (42786, 42787);
   (42788, 42789); (42790, 42791); (42792, 42793); (42794, 42795);
   (42796, 42797); (42798, 42799); (42802, 42803); (42804, 42805);
   (42806, 42807); (42808, 42809); (42810, 42811); (42812, 42813);
   (42814, 42815); (42816, 42817); (42818, 42819); (42820, 42821);
   (42822, 42823); (42824, 42825); (42826, 42827); (42828, 42829);
   (42830, 42831); (42832, 42833); (42834, 42835); (42836, 42837);
   (42838, 42839); (42840, 42841); (42842, 42843); (42844, 42845);
   (42846, 42847); (42848, 42849); (42850, 42851); (42852, 42853);
   (42854, 42855); (42856, 42857); (42858, 42859); (42860, 42861);
   (42862, 42863); (42873, 42874); (42875, 42876); (42877, 7545);
   (42878, 42879); (42880, 42881); (42882, 42883); (42884, 42885);
   (42886, 42887); (42891, 42892); (42893, 613); (42896, 42897);
   (42898, 42899); (42902, 42903); (42904, 42905); (42906, 42907);
   (42908, 42909); (42910, 42911); (42912, 42913); (42914, 42915);
   (42916, 42917); (42918, 42919); (42920, 42921); (42922, 614); (42923, 604);
   (42924, 609); (42925, 620); (42926, 618); (42928, 670); (42929, 647);
   (42930, 669); (42931, 43859); (42932, 42933); (42934, 42935);
   (42936, 42937); (42938, 42939); (42940, 42941); (42942, 42943);
   (42944, 42945); (42946, 42947); (42948, 42900); (42949, 642);
   (42950, 7566); (42951, 42952); (42953, 42954); (42960, 42961);
   (42966, 42967); (42968, 42969); (42997, 42998); (65313, 65345);
   (65314, 65346); (65315, 65347); (65316, 65348); (65317, 65349);
   (65318, 65350); (65319, 65351); (65320, 65352); (65321, 65353);
   (65322, 65354); (65323, 65355); (65324, 65356); (65325, 65357);
   (65326, 65358); (65327, 65359); (65328, 65360); (65329, 65361);
   (65330, 65362); (65331, 65363); (65332, 65364); (65333, 65365);
   (65334, 65366); (65335, 65367); (65336, 65368); (65337, 65369);
   (65338, 65370); (66560, 66600); (66561, 66601); (66562, 66602);
   (66563, 66603); (66564, 66604); (66565, 66605); (66566, 66606);
   (66567, 66607); (66568, 66608); (66569, 66609); (66570, 66610);
   (66571, 66611); (66572, 66612); (66573, 66613); (66574, 66614);
   (66575, 66615); (66576, 66616); (66577, 66617); (66578, 66618);
   (66579, 66619); (66580, 66620); (66581, 66621); (66582, 66622);
   (66583, 66623); (66584, 66624); (66585, 66625); (66586, 66626);
   (66587, 66627); (66588, 66628); (66589, 66629); (66590, 66630);
   (66591, 66631); (66592, 66632); (66593, 66633); (66594, 66634);
   (66595, 66635); (66596, 66636); (66597, 66637); (66598, 66638);
   (66599, 66639); (66736, 66776); (66737, 66777); (66738, 66778);
   (66739, 66779); (66740, 66780); (66741, 66781); (66742, 66782);
   (66743, 66783); (66744, 66784); (66745, 66785); (66746, 66786);
   (66747, 66787); (66748, 66788); (66749, 66789); (66750, 66790);
   (66751, 66791); (66752, 66792); (66753, 66793); (66754, 66794);
   (66755, 66795); (66756, 66796); (66757, 66797); (66758, 66798);
   (66759, 66799); (66760, 66800); (66761, 66801); (66762, 66802);
   (66763, 66803); (66764, 66804); (66765, 66805); (66766, 66806);
   (66767, 66807); (66768, 66808); (66769, 66809); (66770, 66810);
   (66771, 66811); (66928, 66967); (66929, 66968); (66930, 66969);
   (66931, 66970); (66932, 66971); (66933, 66972); (66934, 66973);
   (66935, 66974); (66936, 66975); (66937, 66976); (66938, 66977);
   (66940, 66979); (66941, 66980); (66942, 66981); (66943, 66982);
   (66944, 66983); (66945, 66984); (66946, 66985); (66947, 66986);
   (66948, 66987); (66949, 66988); (66950, 66989); (66951, 66990);
   (66952, 66991); (66953, 66992); (66954, 66993); (66956, 66995);
   (66957, 66996); (66958, 66997); (66959, 66998); (66960, 66999);
   (66961, 67000); (66962, 67001); (66964, 67003); (66965, 67004);
   (68736, 68800); (68737, 68801); (68738, 68802); (68739, 68803);
   (68740, 68804); (68741, 68805); (68742, 68806); (68743, 68807);
   (68744, 68808); (68745, 68809); (68746, 68810); (68747, 68811);
   (68748, 68812); (68749, 68813); (68750, 68814); (68751, 68815);
   (68752, 68816); (68753, 68817); (68754, 68818); (68755, 68819);
   (68756, 68820); (68757, 68821); (68758, 68822); (68759, 68823);
   (68760, 68824); (68761, 68825); (68762, 68826); (68763, 68827);
   (68764, 68828); (68765, 68829); (68766, 68830); (68767, 68831);
   (68768, 68832); (68769, 68833); (68770, 68834); (68771, 68835);
   (68772, 68836); (68773, 68837); (68774, 68838); (68775, 68839);
   (68776, 68840); (68777, 68841); (68778, 68842); (68779, 68843);
   (68780, 68844); (68781, 68845); (68782, 68846); (68783, 68847);
   (68784, 68848); (68785, 68849); (68786, 68850); (71840, 71872);
   (71841, 71873); (71842, 71874); (71843, 71875); (71844, 71876);
   (71845, 71877); (71846, 71878); (71847, 71879); (71848, 71880);
   (71849, 71881); (71850, 71882); (71851, 71883); (71852, 71884);
   (71853, 71885); (71854, 71886); (71855, 71887); (71856, 71888);
   (71857, 71889); (71858, 71890); (71859, 71891); (71860, 71892);
   (71861, 71893); (71862, 71894); (71863, 71895); (71864, 71896);
   (71865, 71897); (71866, 71898); (71867, 71899); (71868, 71900);
   (71869, 71901); (71870, 71902); (71871, 71903); (93760, 93792);
   (93761, 93793); (93762, 93794); (93763, 93795); (93764, 93796);
   (93765, 93797); (93766, 93798); (93767, 93799); (93768, 93800);
   (93769, 93801); (93770, 93802); (93771, 93803); (93772, 93804);
   (93773, 93805); (93774, 93806); (93775, 93807); (93776, 93808);
   (93777, 93809); (93778, 93810); (93779, 93811); (93780, 93812);
   (93781, 93813); (93782, 93814); (93783, 93815); (93784, 93816);
   (93785, 93817); (93786, 93818); (93787, 93819); (93788, 93820);
   (93789, 93821); (93790, 93822); (93791, 93823); (125184, 125218);
   (125185, 125219); (125186, 125220); (125187, 125221); (125188, 125222);
   (125189, 125223); (125190, 125224); (125191, 125225); (125192, 125226);
   (125193, 125227); (125194, 125228); (125195, 125229); (125196, 125230);
   (125197, 125231); (125198, 125232); (125199, 125233); (125200, 125234);
   (125201, 125235); (125202, 125236); (125203, 125237); (125204, 125238);
   (125205, 125239); (125206, 125240); (125207, 125241); (125208, 125242);
   (125209, 125243); (125210, 125244); (125211, 125245); (125212, 125246);
   (125213, 125247); (125214, 125248); (125215, 125249); (125216, 125250);
   (125217, 125251)]%N.

Fixpoint assoc (c : N) (l : list (N * N)) : option N :=
  match l with
  | [] => None
  | (k, v) :: l' => if (k =? c)%N then Some v else assoc c l'
  end.

Definition lower_full (c : N) : pystr :=
  if (c =? 304)%N then [105; 775]%N
  else match assoc c lower_pairs with
       | Some d => [d]
       | None => [c]
       end.

(** The capital sigma, U+03A3, is the one code point whose lowering
    depends on its place: it gives the final sigma U+03C2 when a cased
    letter stands before it and none after it, case-ignorable code points
    skipped on both sides, and U+03C3 otherwise. [case_ignorable_ranges]
    holds the case-ignorable code points, [cased_ranges] the cased ones
    that are not case-ignorable. *)
Definition cased_ranges : list (N * N) :=
  [(65, 90); (97, 122); (170, 170); (181, 181); (186, 186); (192, 214);
   (216, 246); (248, 442); (444, 447); (452, 659); (661, 687); (880, 883);
   (886, 887); (891, 893); (895, 895); (902, 902); (904, 906); (908, 908);
   (910, 929); (931, 1013); (1015, 1153); (1162, 1327); (1329, 1366);
   (1376, 1416); (4256, 4293); (4295, 4295); (4301, 4301); (4304, 4346);
   (4349, 4351); (5024, 5109); (5112, 5117); (7296, 7304); (7312, 7354);
   (7357, 7359); (7424, 7467); (7531, 7543); (7545, 7578); (7680, 7957);
   (7960, 7965); (7968, 8005); (8008, 8013); (8016, 8023); (8025, 8025);
   (8027, 8027); (8029, 8029); (8031, 8061); (8064, 8116); (8118, 8124);
   (8126, 8126); (8130, 8132); (8134, 8140); (8144, 8147); (8150, 8155);
   (8160, 8172); (8178, 8180); (8182, 8188); (8450, 8450); (8455, 8455);
   (8458, 8467); (8469, 8469); (8473, 8477); (8484, 8484); (8486, 8486);
   (8488, 8488); (8490, 8493); (8495, 8500); (8505, 8505); (8508, 8511);
   (8517, 8521); (8526, 8526); (8544, 8575); (8579, 8580); (9398, 9449);
   (11264, 11387); (11390, 11492); (11499, 11502); (11506, 11507);
   (11520, 11557); (11559, 11559); (11565, 11565); (42560, 42605);
   (42624, 42651); (42786, 42863); (42865, 42887); (42891, 42894);
   (42896, 42954); (42960, 42961); (42963, 42963); (42965, 42969);
   (42997, 42998); (43002, 43002); (43824, 43866); (43872, 43880);
   (43888, 43967); (64256, 64262); (64275, 64279); (65313, 65338);
   (65345, 65370); (66560, 66639); (66736, 66771); (66776, 66811);
   (66928, 66938); (66940, 66954); (66956, 66962); (66964, 66965);
   (66967, 66977); (66979, 66993); (66995, 67001); (67003, 67004);
   (68736, 68786); (68800, 68850); (71840, 71903); (93760, 93823);
   (119808, 119892); (119894, 119964); (119966, 119967); (119970, 119970);
   (119973, 119974); (119977, 119980); (119982, 119993); (119995, 119995);
   (119997, 120003); (120005, 120069); (120071, 120074); (120077, 120084);
   (120086, 120092); (120094, 120121); (120123, 120126); (120128, 120132);
   (120134, 120134); (120138, 120144); (120146, 120485); (120488, 120512);
   (120514, 120538); (120540, 120570); (120572, 120596); (120598, 120628);
   (120630, 120654); (120656, 120686); (120688, 120712); (120714, 120744);
   (120746, 120770); (120772, 120779); (122624, 122633); (122635, 122654);
   (125184, 125251); (127280, 127305); (127312, 127337); (127344, 127369)]%N.

Definition case_ignorable_ranges : list (N * N) :=
  [(39, 39); (46, 46); (58, 58); (94, 94); (96, 96); (168, 168); (173, 173);
   (175, 175); (180, 180); (183, 184); (688, 879); (884, 885); (890, 890);
   (900, 901); (903, 903); (1155, 1161); (1369, 1369); (1375, 1375);
   (1425, 1469); (1471, 1471); (1473, 1474); (1476, 1477); (1479, 1479);
   (1524, 1524); (1536, 1541); (1552, 1562); (1564, 1564); (1600, 1600);
   (1611, 1631); (1648, 1648); (1750, 1757); (1759, 1768); (1770, 1773);
   (1807, 1807); (1809, 1809); (1840, 1866); (1958, 1968); (2027, 2037);
   (2042, 2042); (2045, 2045); (2070, 2093); (2137, 2139); (2184, 2184);
   (2192, 2193); (2200, 2207); (2249, 2306); (2362, 2362); (2364, 2364);
   (2369, 2376); (2381, 2381); (2385, 2391); (2402, 2403); (2417, 2417);
   (2433, 2433); (2492, 2492); (2497, 2500); (2509, 2509); (2530, 2531);
   (2558, 2558); (2561, 2562); (2620, 2620); (2625, 2626); (2631, 2632);
   (2635, 2637); (2641, 2641); (2672, 2673); (2677, 2677); (2689, 2690);
   (2748, 2748); (2753, 2757); (2759, 2760); (2765, 2765); (2786, 2787);
   (2810, 2815); (2817, 2817); (2876, 2876); (2879, 2879); (2881, 2884);
   (2893, 2893); (2901, 2902); (2914, 2915); (2946, 2946); (3008, 3008);
   (3021, 3021); (3072, 3072); (3076, 3076); (3132, 3132); (3134, 3136);
   (3142, 3144); (3146, 3149); (3157, 3158); (3170, 3171); (3201, 3201);
   (3260, 3260); (3263, 3263); (3270, 3270); (3276, 3277); (3298, 3299);
   (3328, 3329); (3387, 3388); (3393, 3396); (3405, 3405); (3426, 3427);
   (3457, 3457); (3530, 3530); (3538, 3540); (3542, 3542); (3633, 3633);
   (3636, 3642); (3654, 3662); (3761, 3761); (3764, 3772); (3782, 3782);
   (3784, 3789); (3864, 3865); (3893, 3893); (3895, 3895); (3897, 3897);
   (3953, 3966); (3968, 3972); (3974, 3975); (3981, 3991); (3993, 4028);
   (4038, 4038); (4141, 4144); (4146, 4151); (4153, 4154); (4157, 4158);
   (4184, 4185); (4190, 4192); (4209, 4212); (4226, 4226); (4229, 4230);
   (4237, 4237); (4253, 4253); (4348, 4348); (4957, 4959); (5906, 5908);
   (5938, 5939); (5970, 5971); (6002, 6003); (6068, 6069); (6071, 6077);
   (6086, 6086); (6089, 6099); (6103, 6103); (6109, 6109); (6155, 6159);
   (6211, 6211); (6277, 6278); (6313, 6313); (6432, 6434); (6439, 6440);
   (6450, 6450); (6457, 6459); (6679, 6680); (6683, 6683); (6742, 6742);
   (6744, 6750); (6752, 6752); (6754, 6754); (6757, 6764); (6771, 6780);
   (6783, 6783); (6823, 6823); (6832, 6862); (6912, 6915); (6964, 6964);
   (6966, 6970); (6972, 6972); (6978, 6978); (7019, 7027); (7040, 7041);
   (7074, 7077); (7080, 7081); (7083, 7085); (7142, 7142); (7144, 7145);
   (7149, 7149); (7151, 7153); (7212, 7219); (7222, 7223); (7288, 7293);
   (7376, 7378); (7380, 7392); (7394, 7400); (7405, 7405); (7412, 7412);
   (7416, 7417); (7468, 7530); (7544, 7544); (7579, 7679); (8125, 8125);
   (8127, 8129); (8141, 8143); (8157, 8159); (8173, 8175); (8189, 8190);
   (8203, 8207); (8216, 8217); (8228, 8228); (8231, 8231); (8234, 8238);
   (8288, 8292); (8294, 8303); (8305, 8305); (8319, 8319); (8336, 8348);
   (8400, 8432); (11388, 11389); (11503, 11505); (11631, 11631);
   (11647, 11647); (11744, 11775); (11823, 11823); (12293, 12293);
   (12330, 12333); (12337, 12341); (12347, 12347); (12441, 12446);
   (12540, 12542); (40981, 40981); (42232, 42237); (42508, 42508);
   (42607, 42610); (42612, 42621); (42623, 42623); (42652, 42655);
   (42736, 42737); (42752, 42785); (42864, 42864); (42888, 42890);
   (42994, 42996); (43000, 43001); (43010, 43010); (43014, 43014);
   (43019, 43019); (43045, 43046); (43052, 43052); (43204, 43205);
   (43232, 43249); (43263, 43263); (43302, 43309); (43335, 43345);
   (43392, 43394); (43443, 43443); (43446, 43449); (43452, 43453);
   (43471, 43471); (43493, 43494); (43561, 43566); (43569, 43570);
   (43573, 43574); (43587, 43587); (43596, 43596); (43632, 43632);
   (43644, 43644); (43696, 43696); (43698, 43700); (43703, 43704);
   (43710, 43711); (43713, 43713); (43741, 43741); (43756, 43757);
   (43763, 43764); (43766, 43766); (43867, 43871); (43881, 43883);
   (44005, 44005); (44008, 44008); (44013, 44013); (64286, 64286);
   (64434, 64450); (65024, 65039); (65043, 65043); (65056, 65071);
   (65106, 65106); (65109, 65109); (65279, 65279); (65287, 65287);
   (65294, 65294); (65306, 65306); (65342, 65342); (65344, 65344);
   (65392, 65392); (65438, 65439); (65507, 65507); (65529, 65531);
   (66045, 66045); (66272, 66272); (66422, 66426); (67456, 67461);
   (67463, 67504); (67506, 67514); (68097, 68099); (68101, 68102);
   (68108, 68111); (68152, 68154); (68159, 68159); (68325, 68326);
   (68900, 68903); (69291, 69292); (69446, 69456); (69506, 69509);
   (69633, 69633); (69688, 69702); (69744, 69744); (69747, 69748);
   (69759, 69761); (69811, 69814); (69817, 69818); (69821, 69821);
   (69826, 69826); (69837, 69837); (69888, 69890); (69927, 69931);
   (69933, 69940); (70003, 70003); (70016, 70017); (70070, 70078);
   (70089, 70092); (70095, 70095); (70191, 70193); (70196, 70196);
   (70198, 70199); (70206, 70206); (70367, 70367); (70371, 70378);
   (70400, 70401); (70459, 70460); (70464, 70464); (70502, 70508);
   (70512, 70516); (70712, 70719); (70722, 70724); (70726, 70726);
   (70750, 70750); (70835, 70840); (70842, 70842); (70847, 70848);
   (70850, 70851); (71090, 71093); (71100, 71101); (71103, 71104);
   (71132, 71133); (71219, 71226); (71229, 71229); (71231, 71232);
   (71339, 71339); (71341, 71341); (71344, 71349); (71351, 71351);
   (71453, 71455); (71458, 71461); (71463, 71467); (71727, 71735);
   (71737, 71738); (71995, 71996); (71998, 71998); (72003, 72003);
   (72148, 72151); (72154, 72155); (72160, 72160); (72193, 72202);
   (72243, 72248); (72251, 72254); (72263, 72263); (72273, 72278);
   (72281, 72283); (72330, 72342); (72344, 72345); (72752, 72758);
   (72760, 72765); (72767, 72767); (72850, 72871); (72874, 72880);
   (72882, 72883); (72885, 72886); (73009, 73014); (73018, 73018);
   (73020, 73021); (73023, 73029); (73031, 73031); (73104, 73105);
   (73109, 73109); (73111, 73111); (73459, 73460); (78896, 78904);
   (92912, 92916); (92976, 92982); (92992, 92995); (94031, 94031);
   (94095, 94111); (94176, 94177); (94179, 94180); (110576, 110579);
   (110581, 110587); (110589, 110590); (113821, 113822); (113824, 113827);
   (118528, 118573); (118576, 118598); (119143, 119145); (119155, 119170);
   (119173, 119179); (119210, 119213); (119362, 119364); (121344, 121398);
   (121403, 121452); (121461, 121461); (121476, 121476); (121499, 121503);
   (121505, 121519); (122880, 122886); (122888, 122904); (122907, 122913);
   (122915, 122916); (122918, 122922); (123184, 123197); (123566, 123566);
   (123628, 123631); (125136, 125142); (125252, 125259); (127995, 127999);
   (917505, 917505); (917536, 917631); (917760, 917999)]%N.

Definition in_ranges (rs : list (N * N)) (c : N) : bool :=
  existsb (fun r => (fst r <=? c) && (c <=? snd r))%N rs.

(** The first code point of [s] that is not case-ignorable is cased. *)
Fixpoint cased_next (s : pystr) : bool :=
  match s with
  | [] => false
  | c :: s' =>
      if in_ranges case_ignorable_ranges c then cased_next s'
      else in_ranges cased_ranges c
  end.

Definition final_sigma (before after : pystr) : bool :=
  cased_next before && negb (cased_next after).

(** [before] holds the code points already passed, the last one first. *)
Fixpoint lower_from (before s : pystr) : pystr :=
  match s with
  | [] => []
  | c :: s' =>
      (if (c =? 931)%N
       then [if final_sigma before s' then 962 else 963]%N
       else lower_full c)
      ++ lower_from (c :: before) s'
  end.

Definition str_lower (s : pystr) : pystr := lower_from [] s.

(** [s.find(c)] and [s.rfind(c)] for a one-character needle: the index of
    its first (last) occurrence, or -1. *)
Fixpoint find_from (c : N) (s : pystr) (i : Z) : Z :=
  match s with
  | [] => -1
  | d :: s' => if N.eqb d c then i else find_from c s' (i + 1)
  end.

Definition str_find (c : N) (s : pystr) : Z := find_from c s 0.

Fixpoint rfind_from (c : N) (s : pystr) (i best : Z) : Z :=
  match s with
  | [] => best
  | d :: s' => rfind_from c s' (i + 1) (if N.eqb d c then i else best)
  end.

Definition str_rfind (c : N) (s : pystr) : Z := rfind_from c s 0 (-1).

(** [s[a:b]] for indices that are not negative. *)
Definition str_slice (s : pystr) (a b : Z) : pystr :=
  drop (Z.to_nat a) (take (Z.to_nat b) s).

(** Decimal digits of a number, for [str(int)] and f-strings. *)
Fixpoint digits_of_uint (d : Decimal.uint) : pystr :=
  match d with
  | Decimal.Nil => []
  | Decimal.D0 d => 48%N :: digits_of_uint d
  | Decimal.D1 d => 49%N :: digits_of_uint d
  | Decimal.D2 d => 50%N :: digits_of_uint d
  | Decimal.D3 d => 51%N :: digits_of_uint d
  | Decimal.D4 d => 52%N :: digits_of_uint d
  | Decimal.D5 d => 53%N :: digits_of_uint d
  | Decimal.D6 d => 54%N :: digits_of_uint d
  | Decimal.D7 d => 55%N :: digits_of_uint d
  | Decimal.D8 d => 56%N :: digits_of_uint d
  | Decimal.D9 d => 57%N :: digits_of_uint d
  end.

(** [str(z)] for an [int] *)
Definition str_of_int (z : Z) : pystr :=
  match Z.to_int z with
  | Decimal.Pos d => digits_of_uint d
  | Decimal.Neg d => 45%N :: digits_of_uint d
  end.

(** ** Floats *)

Definition prec : Z := 53.
Definition emax : Z := 1024.

(** [float(z)] for an [int]: the nearest double, ties to even;
    [OverflowError] when it is out of range. *)
Definition float_of_int (z : Z) : outcome spec_float :=
  match binary_normalize prec emax z 0 false with
  | S754_infinity _ => Raise OverflowError
  | f => Ok f
  end.

(** [int(f)]: truncation toward zero. *)
Definition int_of_float (f : spec_float) : outcome Z :=
  match f with
  | S754_zero _ => Ok 0
  | S754_finite s m e =>
      Ok (cond_Zopp s (match e with
                       | Zneg p => Z.shiftr (Zpos m) (Zpos p)
                       | _ => Z.shiftl (Zpos m) e
                       end))
  | S754_infinity _ => Raise OverflowError
  | S754_nan => Raise ValueError
  end.

(** [bool(f)] *)
Definition float_truthy (f : spec_float) : bool :=
  match f with
  | S754_zero _ => false
  | _ => true
  end.

(** The double a decimal numeral denotes: the one nearest to
    [(-1)^s * m * 10^e], ties to even. *)
Definition float_of_decimal (s : bool) (m : N) (e : Z) : spec_float :=
  match m with
  | N0 => S754_zero s
  | Npos p =>
      if 0 <=? e
      then binary_normalize prec emax (cond_Zopp s (Zpos p * 10 ^ e)) 0 s
      else SFdiv prec emax (S754_finite s p 0)
                           (S754_finite false (Z.to_pos (10 ^ (- e))) 0)
  end.

(** The literal [0.9] of the source. *)
Definition float_0_9 : spec_float := float_of_decimal false 9 (-1).

(** *** [repr] of a float

    [repr(f)], which is also what an f-string field [{f}] renders: the
    shortest decimal numeral that reads back as [f], the closest to [f]
    among those, in positional notation when the decimal point falls
    within 16 digits and in exponent notation otherwise. *)

(** [|f| * 10^(-k)] as a fraction, for [|f| = m * 2^e]. *)
Definition scaled_ratio (m : positive) (e k : Z) : Z * Z :=
  let n := match e with Zneg _ => Zpos m | _ => Zpos m * 2 ^ e end in
  let d := match e with Zneg p => 2 ^ Zpos p | _ => 1 end in
  if 0 <=? k then (n, d * 10 ^ k) else (n * 10 ^ (- k), d).

(** The largest [k] with [10^k <= m * 2^e], searched around the estimate
    the binary exponent gives. *)
Fixpoint adjust_exp10 (fuel : nat) (m : positive) (e k : Z) : Z :=
  match fuel with
  | O => k
  | S fuel' =>
      let '(n, d) := scaled_ratio m e k in
      if n <? d then adjust_exp10 fuel' m e (k - 1)
      else if 10 * d <=? n then adjust_exp10 fuel' m e (k + 1)
      else k
  end.

Definition exp10_of (m : positive) (e : Z) : Z :=
  let bits := Zpos (digits2_pos m) + e in
  adjust_exp10 8 m e ((bits - 1) * 30103 / 100000).

Definition sf_same (a b : spec_float) : bool :=
  match a, b with
  | S754_finite s m e, S754_finite t n f => Bool.eqb s t && Pos.eqb m n && Z.eqb e f
  | _, _ => false
  end.

(** The shortest digits: for 1, 2, ... significant digits, the two
    numerals around [|f|] are read back; [(c, k)] stands for [c * 10^k]. *)
Fixpoint shortest_digits (fuel : nat) (x : spec_float) (m : positive) (e k : Z)
  : Z * Z :=
  let '(n, d) := scaled_ratio m e k in
  let lo := n / d in
  let hi := lo + 1 in
  let lo_ok := sf_same (float_of_decimal false (Z.to_N lo) k) x in
  let hi_ok := sf_same (float_of_decimal false (Z.to_N hi) k) x in
  let pick :=
    if lo_ok && hi_ok
    then match 2 * n ?= (2 * lo + 1) * d with
         | Lt => Some lo
         | Gt => Some hi
         | Eq => Some (if Z.even lo then lo else hi)
         end
    else if lo_ok then Some lo
    else if hi_ok then Some hi
    else None in
  match pick, fuel with
  | Some c, _ => (c, k)
  | None, O => (lo, k)
  | None, S fuel' => shortest_digits fuel' x m e (k - 1)
  end.

Fixpoint strip_zeros (fuel : nat) (c k : Z) : Z * Z :=
  match fuel with
  | O => (c, k)
  | S fuel' => if (c mod 10 =? 0) && negb (c =? 0)
               then strip_zeros fuel' (c / 10) (k + 1) else (c, k)
  end.

Definition zeros (n : Z) : pystr := repeat 48%N (Z.to_nat n).

(** The numeral of the digits [ds] with the decimal point after [decpt]
    of them. *)
Definition format_short (ds : pystr) (decpt : Z) : pystr :=
  let nd := len ds in
  if (decpt <=? -4) || (16 <? decpt) then
    let ex := decpt - 1 in
    let exd := str_of_int (Z.abs ex) in
    take 1 ds
      ++ (if 1 <? nd then 46%N :: drop 1 ds else [])
      ++ [101%N; if ex <? 0 then 45%N else 43%N]
      ++ (if len exd <? 2 then 48%N :: exd else exd)
  else if decpt <=? 0 then [48%N; 46%N] ++ zeros (- decpt) ++ ds
  else if nd <=? decpt then ds ++ zeros (decpt - nd) ++ [46%N; 48%N]
  else take (Z.to_nat decpt) ds ++ 46%N :: drop (Z.to_nat decpt) ds.

Definition float_repr (f : spec_float) : pystr :=
  match f with
  | S754_nan => py "nan"
  | S754_infinity s => py (if s then "-inf" else "inf")
  | S754_zero s => py (if s then "-0.0" else "0.0")
  | S754_finite s m e =>
      let x := binary_round prec emax false m e in
      let '(c, k) := shortest_digits 17 x m e (exp10_of m e) in
      let '(c, k) := strip_zeros 20 c k in
      let ds := str_of_int c in
      (if s then [45%N] else []) ++ format_short ds (k + len ds)
  end.

(** ** JSON values and [json.loads] *)

(** What [json.loads] returns: [None], [bool], [int], [float], [str],
    [list] and [dict] values. *)
Inductive json :=
| JNull
| JBool (b : bool)
| JInt (z : Z)
| JFloat (f : spec_float)
| JStr (s : pystr)
| JArr (l : list json)
| JObj (m : gmap pystr json).

(** [bool(v)], which decides [v or default]. *)
Definition truthy (v : json) : bool :=
  match v with
  | JNull => false
  | JBool b => b
  | JInt z => negb (z =? 0)
  | JFloat f => float_truthy f
  | JStr s => match s with [] => false | _ => true end
  | JArr l => match l with [] => false | _ => true end
  | JObj m => negb (bool_decide (m = ∅))
  end.

Definition is_json_ws (c : N) : bool :=
  ((c =? 32) || (c =? 9) || (c =? 10) || (c =? 13))%N.

Fixpoint skip_ws (s : pystr) : pystr :=
  match s with
  | [] => []
  | c :: s' => if is_json_ws c then skip_ws s' else s
  end.

Definition is_digit (c : N) : bool := ((48 <=? c) && (c <=? 57))%N.

Definition hex_val (c : N) : option N :=
  (if is_digit c then Some (c - 48)
   else if (97 <=? c) && (c <=? 102) then Some (c - 87)
   else if (65 <=? c) && (c <=? 70) then Some (c - 55)
   else None)%N.

Definition hex4 (s : pystr) : option (N * pystr) :=
  match s with
  | a :: b :: c :: d :: rest =>
      match hex_val a, hex_val b, hex_val c, hex_val d with
      | Some a, Some b, Some c, Some d =>
          Some ((((a * 16 + b) * 16 + c) * 16 + d)%N, rest)
      | _, _, _, _ => None
      end
  | _ => None
  end.

Definition simple_escape (c : N) : option N :=
  (if c =? 34 then Some 34 else if c =? 92 then Some 92
   else if c =? 47 then Some 47 else if c =? 98 then Some 8
   else if c =? 102 then Some 12 else if c =? 110 then Some 10
   else if c =? 114 then Some 13 else if c =? 116 then Some 9
   else None)%N.

(** The body of a string literal, after its opening quote, up to the
    closing one. Control characters are refused (strict mode); a high
    surrogate escape followed by a low surrogate escape is one character. *)
Fixpoint scan_string (fuel : nat) (s acc : pystr) : outcome (pystr * pystr) :=
  match fuel, s with
  | O, _ | _, [] => Raise JSONDecodeError
  | S fuel', c :: rest =>
      if (c =? 34)%N then Ok (rev acc, rest)
      else if (c =? 92)%N then
        match rest with
        | [] => Raise JSONDecodeError
        | e :: rest' =>
            if (e =? 117)%N then
              match hex4 rest' with
              | None => Raise JSONDecodeError
              | Some (u, after) =>
                  if ((55296 <=? u) && (u <=? 56319))%N then
                    match after with
                    | 92%N :: 117%N :: low =>
                        match hex4 low with
                        | None => Raise JSONDecodeError
                        | Some (u2, after2) =>
                            if ((56320 <=? u2) && (u2 <=? 57343))%N
                            then scan_string fuel' after2
                                   ((65536 + (u - 55296) * 1024 + (u2 - 56320))%N :: acc)
                            else scan_string fuel' after (u :: acc)
                        end
                    | _ => scan_string fuel' after (u :: acc)
                    end
                  else scan_string fuel' after (u :: acc)
              end
            else match simple_escape e with
                 | Some d => scan_string fuel' rest' (d :: acc)
                 | None => Raise JSONDecodeError
                 end
        end
      else if (c <? 32)%N then Raise JSONDecodeError
      else scan_string fuel' rest (c :: acc)
  end.

Fixpoint take_digits (s : pystr) : pystr * pystr :=
  match s with
  | [] => ([], [])
  | c :: s' => if is_digit c
               then let '(ds, r) := take_digits s' in (c :: ds, r)
               else ([], s)
  end.

Definition digits_val (ds : pystr) : N :=
  fold_left (fun a c => (a * 10 + (c - 48))%N) ds 0%N.

(** [sys.get_int_max_str_digits()]: [int] refuses longer numerals with a
    [ValueError]. *)
Definition int_max_str_digits : Z := 4300.

(** A number at the head of [s]: an optional minus sign, then a single
    zero or a run of digits that does not start with zero, then
    optionally a point with at least one digit, then optionally [e] or
    [E], an optional sign and at least one digit. An optional part that
    is not complete is left unread. [None] when no number starts here. A
    numeral with a fraction or an exponent is a [float], any other an
    [int]. *)
Definition parse_number (s : pystr) : option (outcome json * pystr) :=
  let '(neg, s1) := match s with
                    | c :: r => if (c =? 45)%N then (true, r) else (false, s)
                    | [] => (false, s)
                    end in
  let int_part := match s1 with
                  | c :: r => if (c =? 48)%N then Some ([c], r)
                              else if is_digit c then Some (take_digits s1)
                              else None
                  | [] => None
                  end in
  match int_part with
  | None => None
  | Some (ids, r1) =>
      let '(fds, r2) := match r1 with
                        | c :: r => if (c =? 46)%N
                                    then match take_digits r with
                                         | ([], _) => ([], r1)
                                         | (fs, r') => (fs, r')
                                         end
                                    else ([], r1)
                        | [] => ([], r1)
                        end in
      let '(ex, r3) := match r2 with
                       | c :: r =>
                           if ((c =? 101) || (c =? 69))%N then
                             let '(eneg, r') :=
                               match r with
                               | d :: r'' => if (d =? 45)%N then (true, r'')
                                             else if (d =? 43)%N then (false, r'')
                                             else (false, r)
                               | [] => (false, r)
                               end in
                             match take_digits r' with
                             | ([], _) => (None, r2)
                             | (es, r'') =>
                                 (Some (cond_Zopp eneg (Z.of_N (digits_val es))), r'')
                             end
                           else (None, r2)
                       | [] => (None, r2)
                       end in
      match fds, ex with
      | [], None =>
          Some (if int_max_str_digits <? len ids then Raise ValueError
                else Ok (JInt (cond_Zopp neg (Z.of_N (digits_val ids)))), r3)
      | _, _ =>
          Some (Ok (JFloat (float_of_decimal neg (digits_val (ids ++ fds))
                              (match ex with Some e => e | None => 0 end - len fds))),
                r3)
      end
  end.

Fixpoint strip_prefix (p s : pystr) : option pystr :=
  match p, s with
  | [], _ => Some s
  | a :: p', b :: s' => if N.eqb a b then strip_prefix p' s' else None
  | _ :: _, [] => None
  end.

(** The literals the scanner knows, tried in its order. *)
Definition parse_literal (s : pystr) : option (json * pystr) :=
  match strip_prefix (py "null") s with Some r => Some (JNull, r) | None =>
  match strip_prefix (py "true") s with Some r => Some (JBool true, r) | None =>
  match strip_prefix (py "false") s with Some r => Some (JBool false, r) | None =>
  match strip_prefix (py "NaN") s with Some r => Some (JFloat S754_nan, r) | None =>
  match strip_prefix (py "Infinity") s with
  | Some r => Some (JFloat (S754_infinity false), r) | None =>
  match strip_prefix (py "-Infinity") s with
  | Some r => Some (JFloat (S754_infinity true), r) | None => None
  end end end end end end.

(** One JSON term at the head of [s] (the scanner's [scan_once]), with
    the members of an object and the elements of an array. An object
    keeps the last value given for a key. *)
Fixpoint parse_value (fuel : nat) (s : pystr) : outcome (json * pystr) :=
  match fuel, s with
  | O, _ | _, [] => Raise JSONDecodeError
  | S fuel', c :: rest =>
      if (c =? 34)%N then
        try '(str, r) <- scan_string (length rest) rest [];
        Ok (JStr str, r)
      else if (c =? 123)%N then
        match skip_ws rest with
        | [] => Raise JSONDecodeError
        | d :: r => if (d =? 125)%N then Ok (JObj ∅, r)
                    else try '(m, r') <- parse_members fuel' (d :: r) ∅;
                         Ok (JObj m, r')
        end
      else if (c =? 91)%N then
        match skip_ws rest with
        | [] => Raise JSONDecodeError
        | d :: r => if (d =? 93)%N then Ok (JArr [], r)
                    else try '(l, r') <- parse_elems fuel' (d :: r) [];
                         Ok (JArr l, r')
        end
      else match parse_literal s with
           | Some vr => Ok vr
           | None => match parse_number s with
                     | Some (Ok v, r) => Ok (v, r)
                     | Some (Raise e, _) => Raise e
                     | None => Raise JSONDecodeError
                     end
           end
  end
with parse_members (fuel : nat) (s : pystr) (acc : gmap pystr json)
  : outcome (gmap pystr json * pystr) :=
  match fuel, s with
  | O, _ | _, [] => Raise JSONDecodeError
  | S fuel', c :: rest =>
      if negb (c =? 34)%N then Raise JSONDecodeError else
      try '(key, r1) <- scan_string (length rest) rest [];
      match skip_ws r1 with
      | [] => Raise JSONDecodeError
      | d :: r2 =>
          if negb (d =? 58)%N then Raise JSONDecodeError else
          try '(v, r3) <- parse_value fuel' (skip_ws r2);
          match skip_ws r3 with
          | [] => Raise JSONDecodeError
          | e :: r4 =>
              if (e =? 125)%N then Ok (<[key := v]> acc, r4)
              else if (e =? 44)%N
                   then parse_members fuel' (skip_ws r4) (<[key := v]> acc)
                   else Raise JSONDecodeError
          end
      end
  end
with parse_elems (fuel : nat) (s : pystr) (acc : list json)
  : outcome (list json * pystr) :=
  match fuel with
  | O => Raise JSONDecodeError
  | S fuel' =>
      try '(v, r1) <- parse_value fuel' s;
      match skip_ws r1 with
      | [] => Raise JSONDecodeError
      | e :: r2 =>
          if (e =? 93)%N then Ok (rev (v :: acc), r2)
          else if (e =? 44)%N then parse_elems fuel' (skip_ws r2) (v :: acc)
          else Raise JSONDecodeError
      end
  end.

(** [json.loads(s)]: one term, whitespace allowed around it, nothing
    else after it. Of two nested calls of the scanner at least one has
    consumed a character, so the fuel given here is never used up. Out of
    this model: CPython's [RecursionError] on very deep nesting. *)
Definition json_loads (s : pystr) : outcome json :=
  try '(v, rest) <- parse_value (2 * length s + 2) (skip_ws s);
  match skip_ws rest with
  | [] => Ok v
  | _ => Raise JSONDecodeError
  end.

(** ** Feature taxonomy *)

(** The table [feature_taxonomy()] returns: per group, the labels with
    their keyword phrases. In the literals of this table an apostrophe
    stands for the double quote of the source (the inch mark of the two
    range labels); the source's table has no apostrophe. *)
Definition taxonomy_table : list (string * list (string * list string)) :=
  [
    ("Exterior & Lot",
     [
      ("Corner lot", ["corner lot"]);
      ("Cul-de-sac", ["cul-de-sac"]);
      ("Large backyard", ["large backyard"; "spacious yard"; "big yard"]);
      ("Usable yard", ["usable yard"; "flat yard"]);
      ("Drought-tolerant landscaping", ["drought tolerant"; "low maintenance landscaping"]);
      ("Mature trees", ["mature trees"]);
      ("Fruit trees", ["fruit trees"]);
      ("Garden beds", ["garden beds"]);
      ("RV/Boat parking", ["rv parking"; "boat parking"]);
      ("Gated driveway", ["gated driveway"]);
      ("Circular driveway", ["circular driveway"]);
      ("Motor court", ["motor court"]);
      ("Privacy fencing", ["privacy fencing"]);
      ("Privacy hedges", ["privacy hedges"]);
      ("1-car garage", ["1-car garage"; "single car garage"]);
      ("2-car garage", ["2-car garage"; "two car garage"]);
      ("3-car garage", ["3-car garage"; "three car garage"]);
      ("4-car garage", ["4-car garage"; "four car garage"]);
      ("5-car+ garage", ["5-car garage"; "five car garage"]);
      ("Tandem garage", ["tandem garage"]);
      ("Detached garage", ["detached garage"]);
      ("Workshop area", ["garage workshop"; "workbench"]);
      ("Built-in garage storage", ["garage storage"; "built-in garage cabinets"]);
      ("EV charger (Level 2)", ["ev charger"; "240v outlet"])
     ]);
    ("Outdoor Living",
     [
      ("Covered patio", ["covered patio"]);
      ("Pergola", ["pergola"]);
      ("Gazebo", ["gazebo"]);
      ("Retractable awning", ["retractable awning"]);
      ("Deck (wood)", ["wood deck"]);
      ("Deck (composite)", ["composite deck"]);
      ("Rooftop deck", ["rooftop deck"]);
      ("Wraparound porch", ["wraparound porch"]);
      ("Balcony", ["balcony"]);
      ("Built-in BBQ", ["built-in bbq"]);
      ("Outdoor kitchen (sink/fridge)", ["outdoor kitchen"; "outdoor sink"; "outdoor fridge"]);
      ("Bar seating", ["bar seating"]);
      ("Fire pit", ["fire pit"]);
      ("Outdoor fireplace", ["outdoor fireplace"]);
      ("Water feature (fountain/pond/waterfall)", ["water feature"; "fountain"; "pond"; "waterfall"]);
      ("Putting green", ["putting green"]);
      ("Sport court", ["sport court"]);
      ("Pickleball", ["pickleball"]);
      ("Play structure", ["play structure"]);
      ("Dog run", ["dog run"]);
      ("Pool (in-ground)", ["pool"; "in-ground pool"]);
      ("Pool (saltwater)", ["saltwater pool"]);
      ("Pool (heated)", ["heated pool"]);
      ("Lap pool", ["lap pool"]);
      ("Spa/Hot tub", ["spa"; "hot tub"]);
      ("Sauna (dry)", ["dry sauna"]);
      ("Sauna (infrared)", ["infrared sauna"])
     ]);
    ("Views & Orientation",
     [
      ("Ocean view", ["ocean view"]);
      ("Bay view", ["bay view"]);
      ("City lights view", ["city lights view"]);
      ("Mountain view", ["mountain view"]);
      ("Canyon/Greenbelt view", ["canyon view"; "greenbelt view"]);
      ("Golf course view", ["golf course view"]);
      ("Park view", ["park view"]);
      ("East-facing (morning light)", ["east-facing"]);
      ("West-facing (sunsets)", ["west-facing"]);
      ("South-facing yard", ["south-facing yard"]);
      ("Picture windows", ["picture windows"]);
      ("Bay window", ["bay window"])
     ]);
    ("Property Type & Layout",
     [
      ("Single-story (step-free)", ["single story"; "single level"; "step-free"]);
      ("Two-story", ["two story"]);
      ("Split-level", ["split level"]);
      ("Open-concept", ["open concept"; "open floor plan"]);
      ("Great room", ["great room"]);
      ("Vaulted ceilings", ["vaulted ceilings"]);
      ("Double-height ceilings", ["double-height ceilings"]);
      ("Skylights", ["skylights"]);
      ("Formal dining", ["formal dining"]);
      ("Den/Home office", ["den"; "home office"]);
      ("Loft", ["loft"]);
      ("Media room/Home theater", ["media room"; "home theater"]);
      ("Game room", ["game room"]);
      ("Gym", ["home gym"]);
      ("Mudroom", ["mudroom"]);
      ("ADU (permitted)", ["adu"]);
      ("Guest house/Casita (permitted)", ["guest house"; "casita"]);
      ("Primary suite on main", ["primary on main"]);
      ("Dual primary suites", ["dual primary"]);
      ("Jack-and-Jill bath", ["jack and jill"]);
      ("En-suite secondaries", ["en-suite bedrooms"]);
      ("Built-ins", ["built-ins"]);
      ("Window seats", ["window seats"]);
      ("Wainscoting/Trim/Crown", ["wainscoting"; "crown molding"; "trim work"]);
      ("Recessed lighting", ["recessed lighting"]);
      ("Statement lighting", ["statement lighting"]);
      ("Fireplace(s)", ["fireplace"])
     ]);
    ("Kitchen",
     [
      ("Newly updated kitchen", ["updated kitchen"; "renovated kitchen"]);
      ("Quartz countertops", ["quartz countertops"]);
      ("Granite countertops", ["granite countertops"]);
      ("Quartzite countertops", ["quartzite"]);
      ("Marble countertops", ["marble"]);
      ("Butcher block counters", ["butcher block"]);
      ("Soft-close cabinets", ["soft close cabinets"]);
      ("Walk-in pantry", ["walk-in pantry"]);
      ("Glass uppers", ["glass uppers"]);
      ("Custom millwork", ["custom cabinets"]);
      ("Island with seating", ["kitchen island with seating"]);
      ("Waterfall edge", ["waterfall island"]);
      ("Prep sink", ["prep sink"]);
      ("Stainless appliances", ["stainless steel appliances"]);
      ("Panel-ready/built-in fridge", ["panel ready appliances"; "built-in fridge"]);
      ("Gas range", ["gas range"]);
      ("Professional range (36')", ["36-inch range"; "professional range"]);
      ("Professional range (48')", ["48-inch range"; "professional range"]);
      ("Double oven", ["double oven"]);
      ("Convection/steam oven", ["convection oven"; "steam oven"]);
      ("Pot filler", ["pot filler"]);
      ("Vented hood", ["vented hood"]);
      ("Farmhouse sink", ["farmhouse sink"]);
      ("Touch faucet", ["touch faucet"]);
      ("Water filtration/RO", ["water filtration"; "reverse osmosis"]);
      ("Beverage center/coffee bar", ["beverage center"; "coffee bar"]);
      ("Wine fridge", ["wine fridge"]);
      ("Microwave drawer", ["microwave drawer"]);
      ("Designer backsplash", ["designer backsplash"])
     ]);
    ("Bathrooms",
     [
      ("Double vanity", ["double vanity"]);
      ("Soaking tub", ["soaking tub"]);
      ("Separate shower", ["separate shower"]);
      ("Walk-in/curbless shower", ["walk-in shower"; "curbless shower"]);
      ("Rain shower", ["rain shower"]);
      ("Body sprays", ["body sprays"]);
      ("Frameless glass", ["frameless glass"]);
      ("Heated floors", ["heated floors"]);
      ("Towel warmer", ["towel warmer"]);
      ("Bidet/bidet seat", ["bidet"; "bidet seat"]);
      ("Smart mirror", ["smart mirror"; "backlit mirror"]);
      ("Smart lighting (bath)", ["smart bath lighting"]);
      ("Linen closet", ["linen closet"]);
      ("Updated powder room", ["updated powder room"]);
      ("Skylight in bath", ["bath skylight"])
     ]);
    ("Bedrooms & Storage",
     [
      ("Primary walk-in closet", ["walk-in closet"]);
      ("Custom closet system", ["custom closets"]);
      ("Primary balcony", ["primary balcony"]);
      ("Primary retreat/sitting area", ["primary retreat"]);
      ("Fireplace in primary", ["primary fireplace"]);
      ("Large secondary bedrooms", ["large secondary bedrooms"]);
      ("Guest suite", ["guest suite"]);
      ("Nursery", ["nursery"]);
      ("Coat closet", ["coat closet"]);
      ("Linen storage", ["linen storage"]);
      ("Attic storage", ["attic storage"]);
      ("Shed/Outbuilding", ["storage shed"; "outbuilding"]);
      ("Overhead garage racks", ["garage racks"])
     ]);
    ("Laundry & Utility",
     [
      ("Inside laundry room", ["laundry room"]);
      ("Garage laundry", ["garage laundry"]);
      ("Closet laundry", ["closet laundry"]);
      ("Laundry sink", ["laundry sink"]);
      ("Folding counter", ["folding counter"]);
      ("Laundry cabinetry", ["laundry cabinets"]);
      ("Hanging rack", ["hanging rack"]);
      ("Gas hookups", ["gas hookups"]);
      ("Electric hookups (220V)", ["electric hookups"; "220v laundry"])
     ]);
    ("Flooring & Surfaces",
     [
      ("Hardwood/Wood floors", ["hardwood floors"; "wood floors"]);
      ("Luxury vinyl plank (LVP)", ["lvp flooring"]);
      ("Tile (porcelain/ceramic)", ["tile floors"]);
      ("Stone (travertine/marble/slate)", ["stone floors"; "travertine"; "marble"; "slate"]);
      ("Polished concrete", ["polished concrete"]);
      ("New carpet", ["new carpet"]);
      ("Hypoallergenic flooring", ["hypoallergenic flooring"])
     ]);
    ("Systems, Energy & Smart Home",
     [
      ("Solar (owned)", ["owned solar"]);
      ("Solar (leased)", ["leased solar"]);
      ("Battery backup", ["battery backup"]);
      ("Generator transfer switch", ["generator transfer switch"]);
      ("Dual-pane windows", ["dual pane windows"]);
      ("Energy-efficient glazing", ["energy efficient windows"]);
      ("Upgraded insulation (attic/crawl)", ["attic insulation"; "crawlspace insulation"]);
      ("Tankless water heater", ["tankless water heater"]);
      ("Newer HVAC", ["newer hvac"]);
      ("Multi-zone HVAC", ["multi-zone hvac"]);
      ("Whole-house fan", ["whole house fan"]);
      ("Smart thermostat", ["smart thermostat"]);
      ("Video doorbell", ["video doorbell"]);
      ("Security cameras", ["security cameras"]);
      ("Smart locks", ["smart locks"]);
      ("Smart lighting", ["smart lighting"]);
      ("Wired Ethernet (CAT6)", ["cat6 wiring"; "ethernet wiring"]);
      ("Speaker pre-wire", ["speaker prewire"]);
      ("Security system", ["security system"]);
      ("Interior fire sprinklers", ["fire sprinklers"]);
      ("Smart smoke detectors", ["smart smoke detectors"]);
      ("Smart CO detectors", ["smart co detectors"]);
      ("Fresh-air system/ERV", ["erv"; "fresh air system"]);
      ("Air purifier", ["air purifier"]);
      ("Low-VOC finishes", ["low voc finishes"])
     ]);
    ("Community & HOA",
     [
      ("Gated community", ["gated community"]);
      ("Guard-gated community", ["guard gated"]);
      ("Community pool", ["community pool"]);
      ("Community spa", ["community spa"]);
      ("Clubhouse", ["clubhouse"]);
      ("Gym/Fitness center", ["fitness center"]);
      ("Pickleball courts", ["pickleball"]);
      ("Tennis courts", ["tennis courts"]);
      ("Playground", ["playground"]);
      ("Dog park", ["dog park"]);
      ("Walking trails", ["walking trails"]);
      ("Community garden", ["community garden"]);
      ("Package lockers", ["package lockers"]);
      ("Community RV lot", ["community rv lot"])
     ]);
    ("Location & Access",
     [
      ("Near parks", ["near parks"]);
      ("Near trails", ["near trails"]);
      ("Near shopping", ["near shopping"]);
      ("Near dining", ["near dining"]);
      ("Near hospitals/medical", ["near hospitals"; "near medical"]);
      ("Easy freeway access", ["easy freeway access"]);
      ("Near I-5", ["near i-5"]);
      ("Near I-15", ["near i-15"]);
      ("Near local schools (proximity)", ["near local schools"]);
      ("Transit nearby", ["near transit"])
     ]);
    ("Specialty / Market Segments",
     [
      ("Accessibility: zero-step entry", ["zero step entry"; "step-free"]);
      ("Accessibility: wide halls/doors", ["wide hallways"; "wide doors"]);
      ("Roll-in/curbless shower", ["roll-in shower"; "curbless shower"]);
      ("New construction/recent build", ["new construction"; "recent build"]);
      ("Craftsman style", ["craftsman"]);
      ("Spanish/Mediterranean style", ["spanish"; "mediterranean"]);
      ("Mid-Century style", ["mid-century"]);
      ("Modern/Contemporary", ["modern"; "contemporary"]);
      ("Farmhouse/Tudor", ["farmhouse"; "tudor"]);
      ("Income/ADU/lock-off", ["adu potential"; "separate entrance"; "lock off"]);
      ("Well", ["well"]);
      ("Septic (updated)", ["septic updated"]);
      ("Workshop/Barn/Studio", ["workshop"; "barn"; "artist studio"])
     ])
  ]%string.

Definition feature_taxonomy : list (pystr * list (pystr * list pystr)) :=
  map (fun g => (jtext (fst g),
                 map (fun it => (jtext (fst it), map jtext (snd it))) (snd g)))
      taxonomy_table.

(** ** Keyword builder *)

(** The dict comprehension over the taxonomy: a later item with the same
    label replaces an earlier one. *)
Definition label_to_variants : gmap pystr (list pystr) :=
  fold_left (fun d it => <[fst it := snd it]> d)
            (concat (map snd feature_taxonomy)) ∅.

(** What one selected label contributes: its variants, or the label
    itself when it has none. *)
Definition label_tokens (label : pystr) : list pystr :=
  match label_to_variants !! label with
  | Some (v :: vs) => v :: vs
  | _ => [label]
  end.

Definition selection_tokens (selected : list (pystr * list pystr)) : list pystr :=
  concat (map (fun gl => concat (map label_tokens (snd gl))) selected).

(** [if beds: tokens.append(f"{int(beds)} bedrooms")] *)
Definition beds_tokens (beds : option spec_float) : outcome (list pystr) :=
  match beds with
  | Some b => if float_truthy b
              then try n <- int_of_float b; Ok [str_of_int n ++ py " bedrooms"]
              else Ok []
  | None => Ok []
  end.

(** [if baths is not None: tokens.append(f"{baths} bathrooms")] *)
Definition baths_tokens (baths : option spec_float) : list pystr :=
  match baths with
  | Some b => [float_repr b ++ py " bathrooms"]
  | None => []
  end.

(** [if n: tokens.append(f"{pre}{int(n)}{post}")] for an optional [int]. *)
Definition int_tokens (pre : string) (n : option Z) (post : string) : list pystr :=
  match n with
  | Some z => if negb (z =? 0) then [py pre ++ str_of_int z ++ py post] else []
  | None => []
  end.

Definition property_type_tokens (property_type : pystr) : list pystr :=
  match property_type with
  | [] => []
  | _ => [str_lower property_type]
  end.

Definition nonempty (s : pystr) : bool :=
  match s with [] => false | _ => true end.

(** [" ".join(str(t).split()).strip(",; ").lower()] *)
Definition normalize_token (t : pystr) : pystr :=
  str_lower (str_strip_chars (py ",; ") (str_join (py " ") (str_split t))).

(** The loop that fills [cleaned], with the set [seen]. *)
Fixpoint clean_tokens (tokens : list pystr) (seen : gset pystr)
  (cleaned : list pystr) : list pystr :=
  match tokens with
  | [] => cleaned
  | t :: ts =>
      let t2 := normalize_token t in
      if nonempty t2 && negb (bool_decide (t2 ∈ seen))
      then clean_tokens ts ({[t2]} ∪ seen) (cleaned ++ [t2])
      else clean_tokens ts seen cleaned
  end.

(** The list [tokens] as it stands before the cleaning loop. *)
Definition keyword_tokens
  (selected : list (pystr * list pystr))
  (beds baths : option spec_float)
  (sqft lot_size year_built : option Z)
  (property_type : pystr)
  (extra_keywords : list pystr) : outcome (list pystr) :=
  let tokens := selection_tokens selected in
  try bt <- beds_tokens beds;
  let tokens := tokens ++ bt in
  let tokens := tokens ++ baths_tokens baths in
  let tokens := tokens ++ int_tokens "" sqft " sqft" in
  let tokens := tokens ++ int_tokens "" lot_size " sf lot" in
  let tokens := tokens ++ int_tokens "built " year_built "" in
  let tokens := tokens ++ property_type_tokens property_type in
  Ok (tokens ++ filter (fun k => nonempty k) (map str_strip extra_keywords)).

Definition build_keywords_from_selections
  (selected : list (pystr * list pystr))
  (beds baths : option spec_float)
  (sqft lot_size year_built : option Z)
  (property_type : pystr)
  (extra_keywords : list pystr) : outcome (list pystr) :=
  try tokens <- keyword_tokens selected beds baths sqft lot_size year_built
                  property_type extra_keywords;
  Ok (take 60 (clean_tokens tokens ∅ [])).

(** *** The caller: keywords of a generation request *)

Definition is_sep (c : N) : bool := ((c =? 44) || (c =? 10) || (c =? 59))%N.

(** [re.split(r"[,\n;]+", s)]: the pieces between maximal runs of
    separators, the empty pieces at both ends included. *)
Fixpoint re_split_from (cur : pystr) (in_sep : bool) (s : pystr) : list pystr :=
  match s with
  | [] => [rev cur]
  | c :: s' =>
      if is_sep c
      then if in_sep then re_split_from [] true s'
           else rev cur :: re_split_from [] true s'
      else re_split_from (c :: cur) false s'
  end.

Definition re_split_seps (s : pystr) : list pystr := re_split_from [] false s.

(** [[k.strip() for k in re.split(r"[,\n;]+", extra_kw_raw) if k.strip()]] *)
Definition extra_keywords_of (extra_kw_raw : pystr) : list pystr :=
  filter (fun k => nonempty k) (map str_strip (re_split_seps extra_kw_raw)).

(** [int(n) if n else None] *)
Definition none_if_zero (n : Z) : option Z := if n =? 0 then None else Some n.

(** The keyword list a generation request is built with: the builder is
    called with no extra keywords, and the user's extras are appended to
    what it returns. The numeric fields come from the form, where beds
    and baths are floats and the others ints. *)
Definition auto_keywords
  (selections : list (pystr * list pystr))
  (beds baths : spec_float)
  (sqft lot_size year_built : Z)
  (property_type : pystr)
  (extra_kw_raw : pystr) : outcome (list pystr) :=
  try kws <- build_keywords_from_selections selections (Some beds) (Some baths)
               (none_if_zero sqft) (none_if_zero lot_size) (none_if_zero year_built)
               property_type [];
  Ok (kws ++ map str_lower (extra_keywords_of extra_kw_raw)).

(** ** Listing input and prompts *)

Record ListingInput := {
  address : pystr;
  city : pystr;
  state : pystr;
  zip_code : pystr;
  beds : option spec_float;
  baths : option spec_float;
  sqft : option Z;
  lot_size : option Z;
  year_built : option Z;
  property_type : pystr;
  price : option Z;
  keywords : list pystr;
  upgrades_bullets : pystr;
  neighborhood_notes : pystr;
  target_buyer_profile : pystr;
  tone : pystr;
  mls_char_limit : Z;
  detail_level : pystr;
  highlight_features : list pystr
}.

Definition MLS : pystr := py "mls_description".

Definition REQUIRED_KEYS : list pystr :=
  [MLS; py "social_caption"; py "instagram_hashtags"; py "video_script_60s"].

(** [int(li.mls_char_limit * 0.9)]: the limit as a float, the binary64
    product with the literal [0.9], truncated. *)
Definition min_chars_of (limit : Z) : outcome Z :=
  try f <- float_of_int limit;
  int_of_float (SFmul prec emax f float_0_9).

(** A prompt is kept as its template and the values the template
    interpolates; the text the f-string renders is a function of these. *)
Inductive prompt :=
| PrimaryPrompt (li : ListingInput) (min_chars : Z)
| SocialCaptionPrompt (li : ListingInput)
| HashtagsPrompt (li : ListingInput)
| VideoScriptPrompt (li : ListingInput)
| MlsDescriptionPrompt (li : ListingInput) (min_chars : Z)
| RevisionPrompt (min_chars max_chars : Z) (current_len : Z) (current : pystr).

Definition build_primary_prompt (li : ListingInput) : outcome prompt :=
  try min_chars <- min_chars_of (mls_char_limit li);
  Ok (PrimaryPrompt li min_chars).

(** The [if]/[elif] chain of the repair loop; [None] is its [continue]. *)
Definition repair_prompt (li : ListingInput) (min_chars : Z) (key : pystr)
  : option prompt :=
  if str_eqb key (py "social_caption") then Some (SocialCaptionPrompt li)
  else if str_eqb key (py "instagram_hashtags") then Some (HashtagsPrompt li)
  else if str_eqb key (py "video_script_60s") then Some (VideoScriptPrompt li)
  else if str_eqb key MLS then Some (MlsDescriptionPrompt li min_chars)
  else None.

(** ** Response parser *)

(** [text or ""] *)
Definition or_empty (text : option pystr) : pystr :=
  match text with
  | Some t => t
  | None => []
  end.

Definition lbrace : N := 123.
Definition rbrace : N := 125.

Definition safe_json_extract (text : option pystr) : outcome json :=
  let text := or_empty text in
  match json_loads text with
  | Raise JSONDecodeError =>
      let start := str_find lbrace text in
      let end_ := str_rfind rbrace text in
      if negb (start =? -1) && negb (end_ =? -1) && (start <? end_)
      then json_loads (str_slice text start (end_ + 1))
      else Raise JSONDecodeError
  | r => r
  end.

(** ** Model endpoint *)

(** One request to the endpoint. The temperature is in hundredths. *)
Record request := {
  system_prompt : pystr;
  user_prompt : prompt;
  temperature : Z
}.

(** What the endpoint does with a request: a completion whose content
    may be [None], or a failure of the transport. *)
Inductive reply :=
| Content (c : option pystr)
| Failure.

(** A computation that talks to the endpoint: from the log of the
    requests issued so far to its outcome and the new log. *)
Definition M (A : Type) : Type := list request -> outcome A * list request.

Definition ret {A} (a : A) : M A := fun log => (Ok a, log).

Definition bind {A B} (m : M A) (k : A -> M B) : M B :=
  fun log => match m log with
             | (Ok a, log') => k a log'
             | (Raise e, log') => (Raise e, log')
             end.

Definition lift {A} (o : outcome A) : M A := fun log => (o, log).

Notation "'do' x <- m ; k" := (bind m (fun x => k))
  (at level 10, x name, m at level 100, k at level 200) : py_scope.
Notation "'do' ' p <- m ; k" := (bind m (fun p => k))
  (at level 10, p strict pattern, m at level 100, k at level 200) : py_scope.

Definition SYSTEM : pystr :=
  py "You are a meticulous, compliant real estate listing copywriter.".

Section Pipeline.

(** The endpoint: its reply may depend on the requests it has seen. *)
Variable complete : list request -> request -> reply.

Definition chat_raw (system : pystr) (user : prompt) (temp : Z) : M pystr :=
  fun log =>
    let rq := {| system_prompt := system; user_prompt := user;
                 temperature := temp |} in
    (match complete log rq with
     | Content c => Ok (or_empty c)
     | Failure => Raise TransportError
     end, log ++ [rq]).

Definition chat_json (system : pystr) (user : prompt) (temp : Z)
  : M (json * pystr) :=
  do raw <- chat_raw system user temp;
  do v <- lift (safe_json_extract (Some raw));
  ret (v, raw).

(** [merge_preserving(original, updates)]. [updates] is whatever the
    parser returned: [(updates or {}).items()] raises on a truthy value
    that is not a dict. *)
Definition merge_preserving (original : gmap pystr json) (updates : json)
  : outcome (gmap pystr json) :=
  match updates with
  | JObj u => Ok (map_fold (fun k v out => <[k := v]> out) original u)
  | _ => if truthy updates then Raise AttributeError else Ok original
  end.

(** [isinstance(data.get(k), str) and data.get(k).strip()] *)
Definition present (data : gmap pystr json) (k : pystr) : bool :=
  match data !! k with
  | Some (JStr s) => nonempty (str_strip s)
  | _ => false
  end.

Definition missing_keys (data : gmap pystr json) : list pystr :=
  filter (fun k => negb (present data k)) REQUIRED_KEYS.

(** The [for key in missing] loop. *)
Fixpoint repair_loop (li : ListingInput) (min_chars : Z) (missing : list pystr)
  (data : gmap pystr json) : M (gmap pystr json) :=
  match missing with
  | [] => ret data
  | key :: rest =>
      match repair_prompt li min_chars key with
      | None => repair_loop li min_chars rest data
      | Some p =>
          do '(partial, _) <- chat_json SYSTEM p 45;
          do data' <- lift (merge_preserving data partial);
          repair_loop li min_chars rest data'
      end
  end.

Definition validate_and_repair (li : ListingInput) (data : gmap pystr json)
  : M (gmap pystr json) :=
  do min_chars <- lift (min_chars_of (mls_char_limit li));
  match missing_keys data with
  | [] => ret data
  | missing => repair_loop li min_chars missing data
  end.

(** [(v or "").strip()] for the result [v] of a [dict.get]: [strip]
    exists on strings only. *)
Definition or_empty_strip (v : option json) : outcome pystr :=
  match v with
  | None => Ok []
  | Some (JStr s) => Ok (str_strip s)
  | Some j => if truthy j then Raise AttributeError else Ok []
  end.

(** [j.get(k)] for a parsed value [j]: only a dict has [get]. *)
Definition json_get (j : json) (k : pystr) : outcome (option json) :=
  match j with
  | JObj m => Ok (m !! k)
  | _ => Raise AttributeError
  end.

Definition revision_temperature (li : ListingInput) : Z :=
  if negb (str_eqb (detail_level li) (py "Concise")) then 50 else 35.

(** [ensure_length] writes the revised text into [data] and returns
    it; here it returns the updated map. *)
Definition ensure_length (li : ListingInput) (data : gmap pystr json)
  : M (gmap pystr json) :=
  do min_chars <- lift (min_chars_of (mls_char_limit li));
  let max_chars := mls_char_limit li in
  do current <- lift (or_empty_strip (data !! MLS));
  if (min_chars <=? len current) && (len current <=? max_chars) then ret data
  else
    do '(revision_json, _) <-
      chat_json SYSTEM (RevisionPrompt min_chars max_chars (len current) current)
                (revision_temperature li);
    do v <- lift (json_get revision_json MLS);
    do revised_desc <- lift (or_empty_strip v);
    if nonempty revised_desc
    then ret (<[MLS := JStr revised_desc]> data)
    else ret data.

Definition primary_temperature (li : ListingInput) : Z :=
  if str_eqb (detail_level li) (py "Standard") then 50
  else if str_eqb (detail_level li) (py "Descriptive") then 65 else 35.

(** The generation step of the page: primary call, repair, length
    enforcement. [validate_and_repair] starts with [data.get], which a
    parsed value that is not a dict does not have. *)
Definition generate (li : ListingInput) : M (gmap pystr json) :=
  do p <- lift (build_primary_prompt li);
  do '(data, _) <- chat_json SYSTEM p (primary_temperature li);
  match data with
  | JObj d =>
      do d' <- validate_and_repair li d;
      ensure_length li d'
  | _ => lift (Raise AttributeError)
  end.

End Pipeline.

(** ** Sample inputs *)

Definition float_3 : spec_float := float_of_decimal false 3 0.
Definition float_2 : spec_float := float_of_decimal false 2 0.

(** A listing with the form's default values and the given limit. *)
Definition sample_listing (limit : Z) : ListingInput := {|
  address := py "12 Harbor Lane";
  city := py "San Diego";
  state := py "CA";
  zip_code := py "92101";
  beds := Some float_3;
  baths := Some float_2;
  sqft := Some 1600;
  lot_size := Some 5000;
  year_built := Some 1995;
  property_type := py "Single Family";
  price := Some 799000;
  keywords := [py "3 bedrooms"; py "2.0 bathrooms"];
  upgrades_bullets := [];
  neighborhood_notes := py "Near parks and local schools";
  target_buyer_profile := py "Move-up buyers";
  tone := py "Professional";
  mls_char_limit := limit;
  detail_level := py "Standard";
  highlight_features := []
|}.

(** An endpoint that answers the n-th request with the n-th text of a
    script, and fails when the script is over. *)
Definition scripted (replies : list pystr) (log : list request) (_ : request)
  : reply :=
  match replies !! length log with
  | Some t => Content (Some t)
  | None => Failure
  end.

Definition repair_request (li : ListingInput) (p : prompt) : request :=
  {| system_prompt := SYSTEM; user_prompt := p; temperature := 45 |}.

(** A result holding one field. *)
Definition one_field (k v : string) : gmap pystr json := {[ py k := JStr (py v) ]}.

(** A description of [n] characters. *)
Definition description_of_length (n : nat) : gmap pystr json :=
  {[ MLS := JStr (repeat 97%N n) ]}.

Definition min_chars_is_floor (n : Z) : bool :=
  match min_chars_of n with
  | Ok m => m =? 9 * n / 10
  | Raise _ => false
  end.

(** The request of the length-enforcement pass. *)
Definition revision_request (li : ListingInput) (min_chars : Z) (current : pystr)
  : request :=
  {| system_prompt := SYSTEM;
     user_prompt := RevisionPrompt min_chars (mls_char_limit li) (len current) current;
     temperature := revision_temperature li |}.

(** The requests the repair loop issues for a list of keys when no call
    fails, in order. *)
Definition repair_requests (li : ListingInput) (min_chars : Z) (keys : list pystr)
  : list request :=
  omap (fun k => repair_request li <$> repair_prompt li min_chars k) keys.

(** A string that does not start with a character of [p]. *)
Definition headed (p : N -> bool) (s : pystr) : Prop :=
  match s with
  | [] => True
  | c :: _ => p c = false
  end.

(** Replies of the endpoint for the sample runs: a revision with text
    around the JSON object, and one repair per missing field. *)
Definition revised_reply : pystr := jtext "Here you go: {'mls_description': '  Revised text.  '}".

Definition repair_replies : list pystr :=
  [jtext "{'social_caption': 'Come and see.'}";
   jtext "{'instagram_hashtags': '#home #pool'}";
   jtext "{'video_script_60s': 'Welcome in.'}"].

(** A result with all four fields, its description of [n] characters. *)
Definition draft_of_length (n : nat) : gmap pystr json :=
  <[MLS := JStr (repeat 97%N n)]>
    (<[py "social_caption" := JStr (py "Come and see.")]>
       (<[py "instagram_hashtags" := JStr (py "#home #pool")]>
          {[ py "video_script_60s" := JStr (py "Welcome in.") ]})).

(** Replies where the first repair goes through and the second reply is
    not JSON. *)
Definition caption_then_noise : list pystr :=
  [jtext "{'social_caption': 'Come and see.'}"; py "oops"].

(** A primary result that holds a description only. *)
Definition only_description : gmap pystr json := one_field "mls_description" "A bright home.".

(** Sixty-one extra keywords, [k0,k1,...,k60]. *)
Definition many_keywords : pystr :=
  str_join (py ",") (map (fun n => 107%N :: str_of_int (Z.of_nat n)) (seq 0 61)).

(** A word of [str.split()]: not empty, no whitespace in it. *)
Definition word (w : pystr) : Prop :=
  w <> [] /\ Forall (fun c => is_space c = false) w.

(** A string that is words joined by single spaces. *)
Definition spaced (s : pystr) : Prop :=
  exists W, Forall word W /\ s = str_join (py " ") W.

(** A code point that lowering leaves as it is, wherever it stands. *)
Definition stable (c : N) : Prop := c <> 931%N /\ lower_full c = [c].

Definition stable_b (c : N) : bool :=
  negb (c =? 931)%N && bool_decide (lower_full c = [c]).

(** What a code point [c] gives when a string is lowered: one or more
    code points, stable, whitespace or one of [,; ] only when [c] is; a
    whitespace gives itself. *)
Definition lowers (c : N) (piece : pystr) : Prop :=
  piece <> [] /\
  (is_space c = true -> piece = [c]) /\
  Forall (fun d => is_space d = is_space c /\
                   char_in (py ",; ") d = char_in (py ",; ") c /\
                   stable d) piece.

(** The check of one entry of [lower_pairs]. *)
Definition pair_ok (kv : N * N) : bool :=
  negb (is_space (fst kv)) && negb (is_space (snd kv))
  && negb (char_in (py ",; ") (fst kv)) && negb (char_in (py ",; ") (snd kv))
  && stable_b (snd kv).

(** ** Feature bullets *)

(** The line of one group: nothing for a group with no selected label. *)
Definition group_line (gl : pystr * list pystr) : list pystr :=
  match snd gl with
  | [] => []
  | labels => [py "- " ++ fst gl ++ py ": " ++ str_join (py ", ") labels]
  end.

(** The line of one custom text: nothing when it is blank. *)
Definition custom_line (raw : pystr) : list pystr :=
  let val := str_strip (str_join (py " ") (str_split raw)) in
  if nonempty val then [py "- " ++ val] else [].

(** The list [lines] before it is cut and joined. *)
Definition bullet_lines (selected : list (pystr * list pystr))
  (custom_lines : list pystr) : list pystr :=
  concat (map group_line selected) ++ concat (map custom_line custom_lines).

Definition build_upgrades_bullets (selected : list (pystr * list pystr))
  (custom_lines : list pystr) : pystr :=
  str_join [10%N] (take 30 (bullet_lines selected custom_lines)).

(** The number of newline characters of a text. *)
Definition newlines (s : pystr) : nat :=
  length (filter (fun c => c = 10%N) s).

(** ** Access gate *)

(** How a run of the script ends at a given point: it goes on, it is
    stopped ([st.stop()]), or it is started again ([st.rerun()]). *)
Inductive control :=
| GoOn
| Stopped
| Rerun.

(** What the visitor does in one run of the gate: the two buttons and
    the text of the password box. *)
Record gate_input := {
  logout_clicked : bool;
  password_typed : pystr;
  enter_clicked : bool
}.

(** [check_password()] with the check that follows it, on the flag
    [st.session_state["authed"]] ([None] while it is not set): how the
    run goes on, the flag afterwards, and whether "Incorrect password" is
    shown. The function returns [True] or does not return. *)
Definition check_password (app_password : option pystr) (authed : option bool)
  (inp : gate_input) : control * option bool * bool :=
  match authed with
  | Some true =>
      if logout_clicked inp then (Rerun, Some false, false)
      else (GoOn, authed, false)
  | _ =>
      if enter_clicked inp then
        match app_password with
        | Some (c :: t) =>
            if str_eqb (password_typed inp) (c :: t)
            then (Rerun, Some true, false)
            else (Stopped, authed, true)
        | _ => (Stopped, authed, true)
        end
      else (Stopped, authed, false)
  end.

(** The head of the script, with the values the two settings have once
    they are read ([None] or a string, possibly empty): a missing API key
    stops the run before the gate is shown. *)
Definition script_head (api_key app_password : option pystr)
  (authed : option bool) (inp : gate_input) : control * option bool :=
  match api_key with
  | Some (_ :: _) =>
      let '(c, a, _) := check_password app_password authed inp in (c, a)
  | _ => (Stopped, authed)
  end.

(** A session: the runs of the script in order, each with what the
    visitor does in it. The result is the flag after the last run and,
    for every run, whether it got past the gate. *)
Fixpoint session (api_key app_password : option pystr)
  (authed : option bool) (runs : list gate_input) : option bool * list bool :=
  match runs with
  | [] => (authed, [])
  | inp :: rest =>
      let '(c, a) := script_head api_key app_password authed inp in
      let '(final, passed) := session api_key app_password a rest in
      (final, match c with GoOn => true | _ => false end :: passed)
  end.

(** ** The page's generation step *)

(** What the form holds when "Start Generating" is pressed. *)
Record form := {
  f_address : pystr;
  f_city : pystr;
  f_state : pystr;
  f_zip_code : pystr;
  f_beds : spec_float;
  f_baths : spec_float;
  f_sqft : Z;
  f_lot_size : Z;
  f_year_built : Z;
  f_price : Z;
  f_property_type : pystr;
  f_tone : pystr;
  f_target_buyer_profile : pystr;
  f_neighborhood_notes : pystr;
  f_selections : list (pystr * list pystr);
  f_extra_kw_raw : pystr;
  f_detail_level : pystr;
  f_mls_char_limit : Z
}.

(** The [ListingInput] the page builds from the form and the derived
    keywords. *)
Definition listing_of_form (f : form) (auto_kws : list pystr) : ListingInput := {|
  address := f_address f;
  city := f_city f;
  state := f_state f;
  zip_code := f_zip_code f;
  beds := Some (f_beds f);
  baths := Some (f_baths f);
  sqft := none_if_zero (f_sqft f);
  lot_size := none_if_zero (f_lot_size f);
  year_built := none_if_zero (f_year_built f);
  property_type := f_property_type f;
  price := none_if_zero (f_price f);
  keywords := auto_kws;
  upgrades_bullets := build_upgrades_bullets (f_selections f) [];
  neighborhood_notes := f_neighborhood_notes f;
  target_buyer_profile := f_target_buyer_profile f;
  tone := f_tone f;
  mls_char_limit := f_mls_char_limit f;
  detail_level := f_detail_level f;
  highlight_features := []
|}.

(** How the generation step of a run ends, before anything is shown:
    the address check fails, an exception escapes (nothing guards the
    keyword builder), the pipeline's exception is caught and reported, or
    the data goes on to be shown. *)
Inductive submit_result :=
| MissingAddress
| Escaped (e : exn)
| Reported (e : exn)
| Generated (data : gmap pystr json).

Definition on_submit (complete : list request -> request -> reply) (f : form)
  : list request -> submit_result * list request :=
  fun log =>
    if negb (nonempty (f_address f)) || negb (nonempty (f_city f))
       || negb (nonempty (f_state f)) || negb (nonempty (f_zip_code f))
    then (MissingAddress, log)
    else
      match auto_keywords (f_selections f) (f_beds f) (f_baths f) (f_sqft f)
              (f_lot_size f) (f_year_built f) (f_property_type f)
              (f_extra_kw_raw f) with
      | Raise e => (Escaped e, log)
      | Ok auto_kws =>
          match generate complete (listing_of_form f auto_kws) log with
          | (Ok data, log') => (Generated data, log')
          | (Raise e, log') => (Reported e, log')
          end
      end.



(** ** Vocabulary of the properties *)

Definition not_sep (c : N) : Prop := is_sep c = false.

(** A keyword as the extras box yields them: not empty, trimmed, no
    separator in it. *)
Definition plain_keyword (k : pystr) : Prop :=
  k <> [] /\ str_strip k = k /\ Forall not_sep k.

(** A request of the pipeline: the one system prompt, a temperature
    between 0.35 and 0.65. *)
Definition pipeline_request (rq : request) : Prop :=
  system_prompt rq = SYSTEM /\ 35 <= temperature rq <= 65.

(** An item of the taxonomy that the builder finds under its own label,
    with variants that are non-empty normal forms. *)
Definition item_resolves (it : pystr * list pystr) : bool :=
  bool_decide (label_tokens (fst it) = snd it)
  && forallb (fun v => nonempty v && bool_decide (normalize_token v = v)) (snd it).


(** ** More sample inputs *)

(** Two features of the first group, selected. *)
Definition sample_selections : list (pystr * list pystr) :=
  [(py "Exterior & Lot", [py "Large backyard"; py "Corner lot"])].

(** The keywords of these features and of the form's default numbers. *)
Definition sample_keywords : list pystr :=
  [py "large backyard"; py "spacious yard"; py "big yard"; py "corner lot";
   py "3 bedrooms"; py "2.0 bathrooms"; py "1600 sqft"; py "5000 sf lot";
   py "built 1995"; py "single family"].

(** A primary reply with all four fields, its description of [n]
    characters. *)
Definition full_reply (n : nat) : pystr :=
  jtext "{'mls_description': '" ++ repeat 97%N n
  ++ jtext "', 'social_caption': 'Come and see.', 'instagram_hashtags': '#home #pool', 'video_script_60s': 'Welcome in.'}".

(** An endpoint that answers every request with an empty object. *)
Definition empty_replies (_ : list request) (_ : request) : reply :=
  Content (Some (py "{}")).

(** The form with its default values, an address, the sample features
    and the given text in the extras box. *)
Definition sample_form (extras : string) : form := {|
  f_address := py "12 Harbor Lane";
  f_city := py "San Diego";
  f_state := py "CA";
  f_zip_code := py "92101";
  f_beds := float_3;
  f_baths := float_2;
  f_sqft := 1600;
  f_lot_size := 5000;
  f_year_built := 1995;
  f_price := 799000;
  f_property_type := py "Single Family";
  f_tone := py "Professional";
  f_target_buyer_profile := py "Move-up buyers who value indoor-outdoor living";
  f_neighborhood_notes := py "Near parks and local schools";
  f_selections := sample_selections;
  f_extra_kw_raw := py extras;
  f_detail_level := py "Descriptive";
  f_mls_char_limit := 1000
|}.

(** What a visitor does in one run of the gate. *)
Definition visitor (logout : bool) (typed : string) (enter : bool) : gate_input :=
  {| logout_clicked := logout; password_typed := py typed; enter_clicked := enter |}.

(** * Properties *)

(** ** Minimum length bound *)

(** The double of the literal [0.9]: [0x1.ccccccccccccdp-1], a little
    above nine tenths. *)
Lemma float_0_9_bits : float_0_9 = S754_finite false 8106479329266893 (-53).
Proof. vm_compute. reflexivity. Qed.

(** The bound of every limit from 500 to 1800, one by one. *)
Lemma min_chars_checked :
  forallb min_chars_is_floor (map (fun k => 500 + Z.of_nat k) (seq 0 1301)) = true.
Proof. vm_compute. reflexivity. Qed.

Lemma min_chars_in_range (n : Z) :
  500 <= n <= 1800 -> min_chars_of n = Ok (9 * n / 10).
Proof.
  intros Hn.
  pose proof min_chars_checked as Hall.
  rewrite forallb_forall in Hall.
  assert (Hin : In n (map (fun k => 500 + Z.of_nat k) (seq 0 1301))).
  { apply in_map_iff. exists (Z.to_nat (n - 500)). split; [lia|].
    apply in_seq. lia. }
  specialize (Hall n Hin). unfold min_chars_is_floor in Hall.
  destruct (min_chars_of n) as [m|e]; [|discriminate].
  apply Z.eqb_eq in Hall. now subst.
Qed.

(** ** Merge *)

Lemma merge_fold_union (original u : gmap pystr json) :
  map_fold (fun k v out => <[k := v]> out) original u = u ∪ original.
Proof.
  apply (map_fold_weak_ind (fun r m => r = m ∪ original)).
  - now rewrite (left_id_L ∅ (∪)).
  - intros k v m r _ ->. apply insert_union_l.
Qed.

(** C6. Merging a dict of updates into [original] gives a dict where
    every key of the updates has the updates' value, every other key has
    what [original] has for it, and every key of [original] is still
    there; merging [{"y": "new"}] into [{"x": "old"}] gives both. *)
Theorem merge_preserving_overwrites (original updates : gmap pystr json) :
  exists out,
    merge_preserving original (JObj updates) = Ok out /\
    (forall k v, updates !! k = Some v -> out !! k = Some v) /\
    (forall k, updates !! k = None -> out !! k = original !! k) /\
    (forall k, is_Some (original !! k) -> is_Some (out !! k)) /\
    merge_preserving (one_field "x" "old") (JObj (one_field "y" "new"))
      = Ok (<[py "y" := JStr (py "new")]> (one_field "x" "old")).
Proof.
  exists (updates ∪ original). simpl. rewrite merge_fold_union.
  split; [reflexivity|]. split; [|split; [|split]].
  - intros k v Hk. now apply lookup_union_Some_l.
  - intros k Hk. now apply lookup_union_r.
  - intros k [v Hv]. destruct (updates !! k) as [w|] eqn:Hu.
    + exists w. now apply lookup_union_Some_l.
    + exists v. rewrite lookup_union_r; auto.
  - rewrite merge_fold_union. unfold one_field.
    now rewrite insert_union_singleton_l.
Qed.

(** ** Response parser *)

Lemma find_from_found (c : N) (pre rest : pystr) (i : Z) :
  c ∉ pre -> find_from c (pre ++ c :: rest) i = i + len pre.
Proof.
  revert i. induction pre as [|d pre IH]; intros i Hn; simpl.
  - rewrite N.eqb_refl. unfold len. simpl. lia.
  - apply not_elem_of_cons in Hn as [Hd Hn].
    destruct (N.eqb_spec d c) as [->|_]; [congruence|].
    rewrite IH by assumption. unfold len. simpl length. lia.
Qed.

Lemma find_from_split (c : N) (s : pystr) (i : Z) :
  0 <= i -> find_from c s i <> -1 ->
  exists pre rest, s = pre ++ c :: rest /\ find_from c s i = i + len pre.
Proof.
  revert i. induction s as [|d s IH]; intros i Hi; simpl; [congruence|].
  destruct (N.eqb_spec d c) as [->|Hd]; intros Hf.
  - exists [], s. split; [reflexivity|]. unfold len. simpl. lia.
  - destruct (IH (i + 1) ltac:(lia) Hf) as (pre & rest & -> & Hr).
    exists (d :: pre), rest. split; [reflexivity|].
    rewrite Hr. unfold len. simpl length. lia.
Qed.

Lemma rfind_from_absent (c : N) (s : pystr) (i best : Z) :
  c ∉ s -> rfind_from c s i best = best.
Proof.
  revert i best. induction s as [|d s IH]; intros i best Hn; simpl; [reflexivity|].
  apply not_elem_of_cons in Hn as [Hd Hn].
  destruct (N.eqb_spec d c) as [->|_]; [congruence|]. now apply IH.
Qed.

Lemma rfind_from_found (c : N) (pre post : pystr) (i best : Z) :
  c ∉ post -> rfind_from c (pre ++ c :: post) i best = i + len pre.
Proof.
  intros Hn. revert i best. induction pre as [|d pre IH]; intros i best; simpl.
  - rewrite N.eqb_refl, rfind_from_absent by assumption. unfold len. simpl. lia.
  - rewrite IH. unfold len. simpl length. lia.
Qed.

Lemma rfind_from_split (c : N) (s : pystr) (i best : Z) :
  rfind_from c s i best = best \/
  exists pre post, s = pre ++ c :: post /\ rfind_from c s i best = i + len pre.
Proof.
  revert i best. induction s as [|d s IH]; intros i best; simpl; [now left|].
  destruct (IH (i + 1) (if N.eqb d c then i else best))
    as [Hb | (pre & post & -> & Hr)].
  - rewrite Hb. destruct (N.eqb_spec d c) as [->|_]; [right|now left].
    exists [], s. split; [reflexivity|]. unfold len. simpl. lia.
  - right. exists (d :: pre), post. split; [reflexivity|].
    rewrite Hr. unfold len. simpl length. lia.
Qed.

Lemma slice_between (pre mid post : pystr) :
  str_slice (pre ++ lbrace :: mid ++ rbrace :: post)
            (len pre) (len pre + 1 + len mid + 1)
  = lbrace :: mid ++ [rbrace].
Proof.
  unfold str_slice, len.
  replace (Z.to_nat (Z.of_nat (length pre) + 1 + Z.of_nat (length mid) + 1))
    with (length (pre ++ lbrace :: mid ++ [rbrace]))
    by (rewrite length_app; simpl; rewrite length_app; simpl; lia).
  rewrite Nat2Z.id.
  replace (pre ++ lbrace :: mid ++ rbrace :: post)
    with ((pre ++ lbrace :: mid ++ [rbrace]) ++ post)
    by (rewrite <- !app_assoc; simpl; now rewrite <- app_assoc).
  rewrite take_app_length. now rewrite drop_app_length.
Qed.

(** A brace before a closing brace, read off the two indices. *)
Lemma braces_split (text : pystr) :
  str_find lbrace text <> -1 -> str_rfind rbrace text <> -1 ->
  str_find lbrace text < str_rfind rbrace text ->
  exists pre mid post, text = pre ++ lbrace :: mid ++ rbrace :: post.
Proof.
  unfold str_find, str_rfind. intros Hs He Hlt.
  destruct (find_from_split lbrace text 0 ltac:(lia) Hs) as (p1 & r1 & E1 & F1).
  destruct (rfind_from_split rbrace text 0 (-1)) as [Hb | (p2 & r2 & E2 & F2)];
    [congruence|].
  rewrite F1, F2 in Hlt. unfold len in Hlt.
  exists p1, (take (length p2 - length p1 - 1)%nat r1), r2.
  assert (Hp2 : p2 = take (length p2) text) by (rewrite E2; now rewrite take_app_length).
  rewrite E2 at 1. rewrite Hp2 at 1. rewrite E1.
  rewrite take_app_ge by lia.
  assert (Hn : (length p2 - length p1 = S (length p2 - length p1 - 1))%nat) by lia.
  rewrite Hn at 1. simpl. now rewrite <- app_assoc.
Qed.

(** C3. [safe_json_extract] returns what parsing the whole text
    returns when that succeeds. When it fails with a parse error and the
    text has an opening brace with a closing brace after it, the result
    is that of parsing the substring from the first opening brace to the
    last closing brace, both included, whatever that is: a second parse
    error is the result. When there is no such pair the parse error is
    the result. [chat_json], which calls it, hands the error on to its
    caller. The three examples of the specification follow. *)
Theorem safe_json_extract_fallback :
  (forall text v, json_loads text = Ok v -> safe_json_extract (Some text) = Ok v) /\
  (forall complete system user temp log c e,
      complete log {| system_prompt := system; user_prompt := user;
                      temperature := temp |} = Content c ->
      safe_json_extract (Some (or_empty c)) = Raise e ->
      fst (chat_json complete system user temp log) = Raise e) /\
  (forall pre mid post,
      lbrace ∉ pre -> rbrace ∉ post ->
      json_loads (pre ++ lbrace :: mid ++ rbrace :: post) = Raise JSONDecodeError ->
      safe_json_extract (Some (pre ++ lbrace :: mid ++ rbrace :: post))
      = json_loads (lbrace :: mid ++ [rbrace])) /\
  (forall text,
      json_loads text = Raise JSONDecodeError ->
      (forall pre mid post, text <> pre ++ lbrace :: mid ++ rbrace :: post) ->
      safe_json_extract (Some text) = Raise JSONDecodeError) /\
  safe_json_extract (Some (jtext "{'a':1}")) = Ok (JObj {[ py "a" := JInt 1 ]}) /\
  safe_json_extract (Some (jtext "noise {'a':1} trailing"))
    = Ok (JObj {[ py "a" := JInt 1 ]}) /\
  safe_json_extract (Some (py "not json at all")) = Raise JSONDecodeError.
Proof.
  split; [|split; [|split; [|split; [|split; [|split]]]]].
  - intros text v Hv. unfold safe_json_extract. simpl. now rewrite Hv.
  - intros complete system user temp log c e Hc He.
    unfold chat_json, bind, chat_raw, lift. now rewrite Hc, He.
  - intros pre mid post Hpre Hpost Herr.
    set (text := pre ++ lbrace :: mid ++ rbrace :: post) in *.
    assert (Hf : str_find lbrace text = len pre).
    { unfold str_find, text. rewrite find_from_found by assumption. lia. }
    assert (Hr : str_rfind rbrace text = len pre + 1 + len mid).
    { unfold str_rfind, text.
      replace (pre ++ lbrace :: mid ++ rbrace :: post)
        with ((pre ++ lbrace :: mid) ++ rbrace :: post)
        by (now rewrite <- app_assoc).
      rewrite rfind_from_found by assumption.
      unfold len. rewrite length_app. simpl. lia. }
    unfold safe_json_extract. simpl or_empty. rewrite Herr. cbv zeta.
    rewrite Hf, Hr.
    assert (H0 : 0 <= len pre /\ 0 <= len mid) by (unfold len; lia).
    replace (negb (len pre =? -1)) with true
      by (symmetry; apply negb_true_iff, Z.eqb_neq; lia).
    replace (negb (len pre + 1 + len mid =? -1)) with true
      by (symmetry; apply negb_true_iff, Z.eqb_neq; lia).
    replace (len pre <? len pre + 1 + len mid) with true
      by (symmetry; apply Z.ltb_lt; lia).
    simpl andb. cbv iota. unfold text. now rewrite slice_between.
  - intros text Herr Hno. unfold safe_json_extract. simpl or_empty. rewrite Herr.
    destruct (negb (str_find lbrace text =? -1)) eqn:Hs; [|reflexivity].
    destruct (negb (str_rfind rbrace text =? -1)) eqn:He; [|reflexivity].
    destruct (str_find lbrace text <? str_rfind rbrace text) eqn:Hlt; [|reflexivity].
    exfalso.
    apply negb_true_iff, Z.eqb_neq in Hs. apply negb_true_iff, Z.eqb_neq in He.
    apply Z.ltb_lt in Hlt.
    destruct (braces_split text Hs He Hlt) as (pre & mid & post & E).
    exact (Hno pre mid post E).
  - vm_compute. reflexivity.
  - vm_compute. reflexivity.
  - vm_compute. reflexivity.
Qed.

(** C10. Given [None] or the empty string, [safe_json_extract] raises
    the JSON parse error ([None] is read as the empty string first) and
    returns no value. *)
Theorem safe_json_extract_no_text (text : option pystr) :
  text = None \/ text = Some [] ->
  or_empty text = [] /\
  safe_json_extract text = Raise JSONDecodeError /\
  forall v, safe_json_extract text <> Ok v.
Proof.
  intros [-> | ->]; (split; [reflexivity|]);
    assert (E : safe_json_extract None = Raise JSONDecodeError
                /\ safe_json_extract (Some []) = Raise JSONDecodeError)
      by (split; vm_compute; reflexivity);
    destruct E as [E1 E2]; rewrite ?E1, ?E2; split; congruence.
Qed.

Lemma safe_json_extract_no_text_witness :
  or_empty None = [] /\
  safe_json_extract None = Raise JSONDecodeError /\
  forall v, safe_json_extract None <> Ok v.
Proof. apply (safe_json_extract_no_text None). left. reflexivity. Defined.

(** ** Trimming *)

Lemma drop_while_headed (p : N -> bool) (s : pystr) : headed p (drop_while p s).
Proof.
  induction s as [|c s IH]; simpl; [exact I|].
  destruct (p c) eqn:Hc; [exact IH|]. exact Hc.
Qed.

Lemma drop_while_fixed (p : N -> bool) (s : pystr) :
  headed p s -> drop_while p s = s.
Proof. destruct s as [|c s]; simpl; [reflexivity|]. now intros ->. Qed.

Lemma drop_while_snoc (p : N -> bool) (l : pystr) (c : N) :
  p c = false -> drop_while p (l ++ [c]) = drop_while p l ++ [c].
Proof.
  intros Hc. induction l as [|d l IH]; simpl; [now rewrite Hc|].
  now destruct (p d).
Qed.

Lemma strip_by_headed (p : N -> bool) (s : pystr) :
  headed p (strip_by p s) /\ headed p (rev (strip_by p s)).
Proof.
  unfold strip_by. split.
  - pose proof (drop_while_headed p s) as Ht.
    destruct (drop_while p s) as [|c t]; simpl in *; [exact I|].
    rewrite drop_while_snoc by assumption.
    rewrite rev_app_distr. simpl. exact Ht.
  - rewrite rev_involutive. apply drop_while_headed.
Qed.

Lemma strip_by_fixed (p : N -> bool) (s : pystr) :
  headed p s -> headed p (rev s) -> strip_by p s = s.
Proof.
  intros H1 H2. unfold strip_by.
  rewrite (drop_while_fixed p s H1), (drop_while_fixed p (rev s) H2).
  apply rev_involutive.
Qed.

Lemma strip_by_idem (p : N -> bool) (s : pystr) :
  strip_by p (strip_by p s) = strip_by p s.
Proof. destruct (strip_by_headed p s). now apply strip_by_fixed. Qed.

(** ** Keyword builder *)

(** *** Characters *)

Lemma is_space_true (c : N) :
  is_space c = true ->
  (c <= 32 \/ c = 133 \/ c = 160 \/ 5760 <= c)%N.
Proof.
  unfold is_space.
  rewrite !orb_true_iff, !andb_true_iff, !N.leb_le, !N.eqb_eq. lia.
Qed.

Lemma is_space_false (c : N) :
  (33 <= c < 5760)%N -> c <> 133%N -> c <> 160%N -> is_space c = false.
Proof.
  intros Hc H1 H2. destruct (is_space c) eqn:E; [|reflexivity].
  apply is_space_true in E. lia.
Qed.

(** *** Lowering *)

Lemma lower_pairs_checked : forallb pair_ok lower_pairs = true.
Proof. vm_compute. reflexivity. Qed.

Lemma assoc_In (c d : N) (l : list (N * N)) : assoc c l = Some d -> In (c, d) l.
Proof.
  induction l as [|[k v] l IH]; simpl; [discriminate|].
  destruct (N.eqb_spec k c) as [->|_]; [intros [= ->]; now left|].
  intros H. right. now apply IH.
Qed.

Lemma stable_b_true (c : N) : stable_b c = true -> stable c.
Proof.
  unfold stable_b, stable. intros [Hc Hl]%andb_true_iff.
  apply negb_true_iff, N.eqb_neq in Hc. now apply bool_decide_eq_true in Hl.
Qed.

(** The lowercase mapping of a code point. *)
Lemma lower_full_lowers (c : N) : lowers c (lower_full c).
Proof.
  unfold lower_full. destruct (N.eqb_spec c 304) as [->|Hc].
  { split; [discriminate|]. split; [discriminate|].
    repeat constructor; try discriminate; vm_compute; reflexivity. }
  destruct (assoc c lower_pairs) as [d|] eqn:E.
  - apply assoc_In in E.
    pose proof lower_pairs_checked as Hall. rewrite forallb_forall in Hall.
    specialize (Hall _ E). unfold pair_ok in Hall. cbn [fst snd] in Hall.
    rewrite !andb_true_iff, !negb_true_iff in Hall.
    destruct Hall as ((((H1 & H2) & H3) & H4) & H5).
    split; [discriminate|]. split; [congruence|]. constructor; [|constructor].
    rewrite H1, H2, H3, H4. split; [reflexivity|]. split; [reflexivity|].
    apply (stable_b_true _ H5).
  - split; [discriminate|]. split; [reflexivity|]. constructor; [|constructor].
    split; [reflexivity|]. split; [reflexivity|]. split.
    + intros ->. vm_compute in E. discriminate.
    + unfold lower_full. destruct (N.eqb_spec c 304); [contradiction|]. now rewrite E.
Qed.

(** Lowering a string gives, for each of its code points, what that
    code point lowers to. *)
Lemma lower_from_pieces (s : pystr) :
  forall before,
  exists pieces, Forall2 lowers s pieces /\ lower_from before s = concat pieces.
Proof.
  induction s as [|c s IH]; intros before; simpl.
  - exists []. split; [constructor|reflexivity].
  - destruct (IH (c :: before)) as (pieces & Hp & ->).
    destruct (N.eqb_spec c 931) as [->|Hc].
    + exists ([if final_sigma before s then 962%N else 963%N] :: pieces).
      split; [|reflexivity]. constructor; [|exact Hp].
      split; [discriminate|]. split; [discriminate|].
      destruct (final_sigma before s); repeat constructor;
        try discriminate; vm_compute; reflexivity.
    + exists (lower_full c :: pieces). split; [|reflexivity].
      constructor; [apply lower_full_lowers|exact Hp].
Qed.

Lemma lower_from_stable (s : pystr) :
  forall before, Forall stable s -> lower_from before s = s.
Proof.
  induction s as [|c s IH]; intros before Hs; [reflexivity|].
  inversion Hs as [|? ? [Hc Hl] Hs']; subst. simpl.
  destruct (N.eqb_spec c 931) as [->|_]; [congruence|].
  rewrite Hl, IH by assumption. reflexivity.
Qed.

Lemma pieces_stable (s : pystr) (pieces : list pystr) :
  Forall2 lowers s pieces -> Forall stable (concat pieces).
Proof.
  induction 1 as [|c piece s pieces (_ & _ & Hc) _ IH]; simpl; [constructor|].
  apply Forall_app. split; [|exact IH].
  eapply Forall_impl; [exact Hc|]. now intros d (_ & _ & Hd).
Qed.

Lemma pieces_rev (s : pystr) (pieces : list pystr) :
  Forall2 lowers s pieces ->
  Forall2 lowers (rev s) (rev (map (@rev N) pieces)) /\
  rev (concat pieces) = concat (rev (map (@rev N) pieces)).
Proof.
  induction 1 as [|c piece s pieces (Hne & Hsp & Hc) _ [IH1 IH2]]; simpl.
  - split; [constructor|reflexivity].
  - split.
    + apply Forall2_app; [exact IH1|]. constructor; [|constructor].
      split; [|split; [|now apply Forall_rev]].
      * intros E. apply Hne. rewrite <- (rev_involutive piece), E. reflexivity.
      * intros Hs. now rewrite (Hsp Hs).
    + rewrite rev_app_distr, IH2, concat_app. simpl. now rewrite app_nil_r.
Qed.

Lemma pieces_headed (s : pystr) (pieces : list pystr) :
  Forall2 lowers s pieces ->
  headed (char_in (py ",; ")) s -> headed (char_in (py ",; ")) (concat pieces).
Proof.
  intros [|c piece s' pieces' (Hne & _ & Hc) _]; [auto|].
  destruct piece as [|d l]; [congruence|].
  inversion Hc as [|? ? (_ & Hd & _) _]; subst.
  unfold headed. cbn [concat app]. intros Hh. now rewrite Hd.
Qed.

(** *** Splitting and joining *)

Lemma split_from_words (s cur : pystr) :
  Forall (fun c => is_space c = false) cur -> Forall word (split_from cur s).
Proof.
  revert cur. induction s as [|c s IH]; intros cur Hcur; simpl.
  - destruct cur as [|d cur]; constructor; [|constructor].
    split; [|now apply Forall_rev].
    intros E. apply (f_equal (@length N)) in E. rewrite length_rev in E. discriminate.
  - destruct (is_space c) eqn:Hc.
    + destruct cur as [|d cur]; [now apply IH|].
      constructor; [|now apply IH].
      split; [|now apply Forall_rev].
      intros E. apply (f_equal (@length N)) in E. rewrite length_rev in E. discriminate.
    + apply IH. now constructor.
Qed.

Lemma split_from_word (w cur rest : pystr) :
  Forall (fun c => is_space c = false) w ->
  split_from cur (w ++ rest) = split_from (rev w ++ cur) rest.
Proof.
  revert cur. induction w as [|c w IH]; intros cur Hw; [reflexivity|].
  inversion Hw as [|? ? Hc Hw']; subst. simpl. rewrite Hc, IH by assumption.
  now rewrite <- app_assoc.
Qed.

(** Splitting the join of words gives the words back. *)
Lemma split_join (W : list pystr) :
  Forall word W -> str_split (str_join (py " ") W) = W.
Proof.
  change (py " ") with [32%N].
  induction W as [|w W IH]; intros HW; [reflexivity|].
  inversion HW as [|? ? [Hne Hws] HW']; subst.
  assert (Hrev : rev w <> []).
  { intros E. apply Hne. rewrite <- (rev_involutive w), E. reflexivity. }
  destruct W as [|w' W'].
  - simpl. unfold str_split. rewrite <- (app_nil_r w) at 1.
    rewrite split_from_word by assumption. rewrite app_nil_r. simpl.
    destruct (rev w) as [|d l] eqn:E; [congruence|].
    rewrite <- E, rev_involutive. reflexivity.
  - change (str_join [32%N] (w :: w' :: W'))
      with (w ++ 32%N :: str_join [32%N] (w' :: W')).
    unfold str_split. rewrite split_from_word by assumption. rewrite app_nil_r.
    simpl split_from.
    destruct (rev w) as [|d l] eqn:E; [congruence|].
    rewrite <- E, rev_involutive. f_equal. exact (IH HW').
Qed.

Lemma spaced_split (t : pystr) : spaced (str_join (py " ") (str_split t)).
Proof. exists (str_split t). split; [|reflexivity]. now apply split_from_words. Qed.

Lemma spaced_fixed (s : pystr) :
  spaced s -> str_join (py " ") (str_split s) = s.
Proof. intros (W & HW & ->). now rewrite split_join. Qed.

Lemma join_snoc (sep : pystr) (W : list pystr) (w : pystr) :
  W <> [] -> str_join sep (W ++ [w]) = str_join sep W ++ sep ++ w.
Proof.
  induction W as [|a W IH]; [congruence|]. intros _.
  destruct W as [|b W]; [reflexivity|].
  change (str_join sep ((a :: b :: W) ++ [w]))
    with (a ++ sep ++ str_join sep ((b :: W) ++ [w])).
  rewrite IH by discriminate.
  change (str_join sep (a :: b :: W)) with (a ++ sep ++ str_join sep (b :: W)).
  now rewrite <- !app_assoc.
Qed.

Lemma join_rev (sep : pystr) (W : list pystr) :
  rev (str_join sep W) = str_join (rev sep) (rev (map (@rev N) W)).
Proof.
  induction W as [|a W IH]; [reflexivity|].
  destruct W as [|b W]; [reflexivity|].
  change (str_join sep (a :: b :: W)) with (a ++ sep ++ str_join sep (b :: W)).
  rewrite !rev_app_distr, IH, <- app_assoc.
  change (map (@rev N) (a :: b :: W)) with (rev a :: map (@rev N) (b :: W)).
  change (rev (rev a :: map (@rev N) (b :: W))) with (rev (map (@rev N) (b :: W)) ++ [rev a]).
  rewrite join_snoc; [reflexivity|].
  simpl. intros E. apply (f_equal (@length pystr)) in E.
  rewrite length_app in E. simpl in E. lia.
Qed.

Lemma word_rev (w : pystr) : word w -> word (rev w).
Proof.
  intros [Hne Hws]. split; [|now apply Forall_rev].
  intros E. apply Hne. rewrite <- (rev_involutive w), E. reflexivity.
Qed.

(** Reversal, trimming and lowering keep a string words joined by
    single spaces. *)
Lemma spaced_rev (s : pystr) : spaced s -> spaced (rev s).
Proof.
  intros (W & HW & ->). exists (rev (map (@rev N) W)). split.
  - apply Forall_rev. rewrite Forall_map. eapply Forall_impl; [exact HW|].
    apply word_rev.
  - now rewrite join_rev.
Qed.

Lemma drop_while_app (p : N -> bool) (a b : pystr) :
  drop_while p (a ++ b)
  = match drop_while p a with
    | [] => drop_while p b
    | d => d ++ b
    end.
Proof.
  induction a as [|c a IH]; simpl; [now destruct (drop_while p b)|].
  now destruct (p c).
Qed.

Lemma drop_while_Forall (P : N -> Prop) (p : N -> bool) (s : pystr) :
  Forall P s -> Forall P (drop_while p s).
Proof.
  induction 1 as [|c s Hc Hs IH]; simpl; [constructor|].
  destruct (p c); [exact IH|]. now constructor.
Qed.

Lemma spaced_drop_while (p : N -> bool) (s : pystr) :
  p 32%N = true -> spaced s -> spaced (drop_while p s).
Proof.
  intros Hp (W & HW & ->). change (py " ") with [32%N].
  induction HW as [|w W [Hne Hws] HW IH].
  - exists []. split; [constructor|reflexivity].
  - assert (Hd : Forall (fun c => is_space c = false) (drop_while p w))
      by (now apply drop_while_Forall).
    destruct W as [|w' W'].
    + simpl. destruct (drop_while p w) as [|d l] eqn:E.
      * exists []. split; [constructor|reflexivity].
      * exists [d :: l]. split; [|reflexivity]. constructor; [|constructor].
        split; [discriminate|assumption].
    + change (str_join [32%N] (w :: w' :: W'))
        with (w ++ 32%N :: str_join [32%N] (w' :: W')).
      rewrite drop_while_app. destruct (drop_while p w) as [|d l] eqn:E.
      * simpl. rewrite Hp. exact IH.
      * exists ((d :: l) :: w' :: W'). split; [|reflexivity].
        constructor; [|assumption]. split; [discriminate|assumption].
Qed.

Lemma spaced_strip (p : N -> bool) (s : pystr) :
  p 32%N = true -> spaced s -> spaced (strip_by p s).
Proof.
  intros Hp Hs. unfold strip_by.
  apply spaced_rev, spaced_drop_while, spaced_rev, spaced_drop_while; assumption.
Qed.

Lemma map_join (f : N -> N) (sep : pystr) (W : list pystr) :
  map f (str_join sep W) = str_join (map f sep) (map (map f) W).
Proof.
  induction W as [|a W IH]; [reflexivity|].
  destruct W as [|b W]; [reflexivity|].
  change (str_join sep (a :: b :: W)) with (a ++ sep ++ str_join sep (b :: W)).
  rewrite !map_app, IH. reflexivity.
Qed.

Lemma pieces_word (w : pystr) (pieces : list pystr) :
  word w -> Forall2 lowers w pieces -> word (concat pieces).
Proof.
  intros [Hne Hws] Hp. split.
  - destruct Hp as [|c piece w' pieces' (Hpn & _) _]; [congruence|].
    simpl. destruct piece; [congruence|discriminate].
  - clear Hne. induction Hp as [|c piece w' pieces' (_ & _ & Hc) _ IH]; simpl;
      [constructor|].
    inversion Hws as [|? ? Hcs Hws']; subst.
    apply Forall_app. split; [|now apply IH].
    eapply Forall_impl; [exact Hc|]. intros d (Hd & _). simpl in Hd. congruence.
Qed.

Lemma pieces_spaced (W : list pystr) :
  Forall word W ->
  forall pieces, Forall2 lowers (str_join [32%N] W) pieces ->
  exists W', Forall word W' /\ length W' = length W /\
             concat pieces = str_join [32%N] W'.
Proof.
  induction 1 as [|w W Hw HW IH]; intros pieces Hp.
  - inversion Hp; subst. exists []. repeat split. constructor.
  - destruct W as [|w' W0].
    + exists [concat pieces]. split; [|split; reflexivity].
      constructor; [|constructor]. now apply (pieces_word w).
    + change (str_join [32%N] (w :: w' :: W0))
        with (w ++ 32%N :: str_join [32%N] (w' :: W0)) in Hp.
      apply Forall2_app_inv_l in Hp as (pw & prest & Hpw & Hprest & ->).
      inversion Hprest as [|? p32 ? prest' (_ & H32 & _) Hrest]; subst.
      rewrite (H32 eq_refl).
      destruct (IH prest' Hrest) as (W' & HW' & Hlen & EW').
      exists (concat pw :: W'). split; [|split].
      * constructor; [now apply (pieces_word w)|exact HW'].
      * simpl. now rewrite Hlen.
      * rewrite concat_app. simpl concat. rewrite EW'.
        destruct W' as [|w1 W1]; [discriminate|]. reflexivity.
Qed.

(** Reversal, trimming and lowering keep a string words joined by
    single spaces. *)
Lemma spaced_lower (s : pystr) : spaced s -> spaced (str_lower s).
Proof.
  intros (W & HW & ->). change (py " ") with [32%N].
  destruct (lower_from_pieces (str_join [32%N] W) []) as (pieces & Hp & E).
  unfold str_lower. rewrite E.
  destruct (pieces_spaced W HW pieces Hp) as (W' & HW' & _ & ->).
  now exists W'.
Qed.

(** Lowering keeps both ends of a string clear of [,; ]. *)
Lemma headed_lower (s : pystr) :
  headed (char_in (py ",; ")) s -> headed (char_in (py ",; ")) (rev s) ->
  headed (char_in (py ",; ")) (str_lower s) /\
  headed (char_in (py ",; ")) (rev (str_lower s)).
Proof.
  intros H1 H2.
  destruct (lower_from_pieces s []) as (pieces & Hp & E).
  unfold str_lower. rewrite E. split; [now apply (pieces_headed s)|].
  destruct (pieces_rev s pieces Hp) as [Hr ->].
  now apply (pieces_headed (rev s)).
Qed.

Lemma str_lower_idem (s : pystr) : str_lower (str_lower s) = str_lower s.
Proof.
  destruct (lower_from_pieces s []) as (pieces & Hp & E).
  unfold str_lower. rewrite E. apply lower_from_stable.
  now apply (pieces_stable s).
Qed.

(** *** Normalization

    A normalized token is its own normal form. *)
Lemma normalize_token_idem (t : pystr) :
  normalize_token (normalize_token t) = normalize_token t.
Proof.
  unfold normalize_token.
  set (s := str_strip_chars (py ",; ") (str_join (py " ") (str_split t))).
  assert (Hsp : spaced (str_lower s)).
  { apply spaced_lower, spaced_strip; [reflexivity|apply spaced_split]. }
  rewrite (spaced_fixed _ Hsp).
  destruct (strip_by_headed (char_in (py ",; ")) (str_join (py " ") (str_split t)))
    as [H1 H2]. fold (str_strip_chars (py ",; ")) in H1, H2. fold s in H1, H2.
  destruct (headed_lower s H1 H2) as [H3 H4].
  unfold str_strip_chars at 1. rewrite strip_by_fixed by assumption.
  apply str_lower_idem.
Qed.

(** The cleaning loop keeps [cleaned] free of duplicates and made of
    normal forms, [seen] holding its entries. *)
Lemma clean_tokens_inv (tokens : list pystr) :
  forall (seen : gset pystr) (cleaned : list pystr),
    NoDup cleaned ->
    (forall x, x ∈ cleaned -> x ∈ seen) ->
    (forall x, x ∈ cleaned -> normalize_token x = x) ->
    NoDup (clean_tokens tokens seen cleaned) /\
    (forall x, x ∈ clean_tokens tokens seen cleaned -> normalize_token x = x).
Proof.
  induction tokens as [|t ts IH]; intros seen cleaned Hnd Hseen Hnorm; simpl; [auto|].
  destruct (nonempty (normalize_token t)
            && negb (bool_decide (normalize_token t ∈ seen))) eqn:E; [|now apply IH].
  apply andb_true_iff in E as [_ E]. apply negb_true_iff, bool_decide_eq_false in E.
  apply IH.
  - apply NoDup_app. split; [assumption|]. split; [|apply NoDup_singleton].
    intros x Hx ->%list_elem_of_singleton. apply E. auto.
  - intros x [Hx | Hx%list_elem_of_singleton]%elem_of_app.
    + apply elem_of_union_r. auto.
    + subst x. apply elem_of_union_l. now apply elem_of_singleton.
  - intros x [Hx | ->%list_elem_of_singleton]%elem_of_app; [auto|].
    apply normalize_token_idem.
Qed.

(** What the builder returns has no two entries that are equal, none
    that are equal after normalization, and at most sixty entries. *)
Lemma build_keywords_clean sel beds baths sqft lot yb pt extra (kws : list pystr) :
  build_keywords_from_selections sel beds baths sqft lot yb pt extra = Ok kws ->
  NoDup kws /\ (length kws <= 60)%nat /\ NoDup (map normalize_token kws).
Proof.
  unfold build_keywords_from_selections.
  destruct (keyword_tokens _ _ _ _ _ _ _ _) as [tokens|]; simpl; [|discriminate].
  intros [= <-].
  destruct (clean_tokens_inv tokens ∅ []) as [Hnd Hnorm];
    [constructor | intros x Hx; inversion Hx | intros x Hx; inversion Hx |].
  assert (Hk : NoDup (take 60 (clean_tokens tokens ∅ []))).
  { eapply sublist_NoDup; [exact Hnd|apply sublist_take]. }
  split; [exact Hk|]. split; [rewrite length_take; lia|].
  rewrite (map_ext_in _ id), map_id; [exact Hk|].
  intros x Hx. apply Hnorm. apply list_elem_of_In in Hx.
  now apply (subseteq_take 60).
Qed.


(** C4, at the failing input. With the form's defaults and the extra
    keywords [pool, pool], the keyword list of the request ends with
    [pool] twice; with sixty-one extra keywords it has sixty-seven
    entries. The extras are appended after the builder has removed
    duplicates and cut the list at sixty. *)
Theorem auto_keywords_duplicates :
  auto_keywords [] float_3 float_2 1600 5000 1995 (py "Single Family") (py "pool, pool")
  = Ok [py "3 bedrooms"; py "2.0 bathrooms"; py "1600 sqft"; py "5000 sf lot";
        py "built 1995"; py "single family"; py "pool"; py "pool"] /\
  (exists kws,
     auto_keywords [] float_3 float_2 1600 5000 1995 (py "Single Family")
       (py "pool, pool") = Ok kws /\
     ~ NoDup (map normalize_token kws)) /\
  (exists kws,
     auto_keywords [] float_3 float_2 1600 5000 1995 (py "Single Family") many_keywords
     = Ok kws /\ length kws = 67%nat).
Proof.
  assert (E : auto_keywords [] float_3 float_2 1600 5000 1995 (py "Single Family")
                (py "pool, pool")
              = Ok [py "3 bedrooms"; py "2.0 bathrooms"; py "1600 sqft"; py "5000 sf lot";
                    py "built 1995"; py "single family"; py "pool"; py "pool"])
    by (vm_compute; reflexivity).
  split; [exact E|]. split.
  - eexists. split; [exact E|]. intros Hnd.
    assert (H67 : 6%nat = 7%nat); [|discriminate].
    apply (proj1 (NoDup_alt _) Hnd 6%nat 7%nat (py "pool")); vm_compute; reflexivity.
  - eexists. split; vm_compute; reflexivity.
Qed.

(** ** Validate-and-repair and length enforcement *)

Section PipelineFacts.

(** Everything below holds for every endpoint. *)
Variable complete : list request -> request -> reply.

(** A call of [chat_json] appends its request to the log, whatever the
    endpoint replies. *)
Lemma chat_json_log (sys : pystr) (p : prompt) (t : Z) (log : list request) :
  exists r, chat_json complete sys p t log
            = (r, log ++ [{| system_prompt := sys; user_prompt := p; temperature := t |}]).
Proof.
  unfold chat_json, bind, chat_raw, lift, ret.
  destruct (complete log _) as [c|]; [|eauto].
  destruct (safe_json_extract _); eauto.
Qed.

Lemma chat_json_content (sys : pystr) (p : prompt) (t : Z) (log : list request) c :
  complete log {| system_prompt := sys; user_prompt := p; temperature := t |} = Content c ->
  chat_json complete sys p t log
  = (match safe_json_extract (Some (or_empty c)) with
     | Ok v => Ok (v, or_empty c)
     | Raise e => Raise e
     end, log ++ [{| system_prompt := sys; user_prompt := p; temperature := t |}]).
Proof.
  intros Hc. unfold chat_json, bind, chat_raw, lift, ret. rewrite Hc.
  now destruct (safe_json_extract _).
Qed.

Lemma ensure_length_calls (li : ListingInput) (data : gmap pystr json)
  (log : list request) (mn : Z) (cur : pystr) :
  min_chars_of (mls_char_limit li) = Ok mn ->
  or_empty_strip (data !! MLS) = Ok cur ->
  (mn <= len cur <= mls_char_limit li ->
   ensure_length complete li data log = (Ok data, log)) /\
  (~ (mn <= len cur <= mls_char_limit li) ->
   exists r, ensure_length complete li data log
             = (r, log ++ [revision_request li mn cur])).
Proof.
  intros Hmn Hcur. unfold ensure_length, bind, lift. rewrite Hmn, Hcur.
  split; intros Hr.
  - replace ((mn <=? len cur) && (len cur <=? mls_char_limit li)) with true; [reflexivity|].
    symmetry. apply andb_true_iff. split; apply Z.leb_le; lia.
  - replace ((mn <=? len cur) && (len cur <=? mls_char_limit li)) with false.
    2:{ symmetry. apply andb_false_iff.
        destruct (Z.leb_spec mn (len cur)); [right|now left].
        apply Z.leb_gt. lia. }
    destruct (chat_json_log SYSTEM (RevisionPrompt mn (mls_char_limit li) (len cur) cur)
                (revision_temperature li) log) as [r Hr'].
    rewrite Hr'. fold (revision_request li mn cur).
    destruct r as [[rj raw]|e]; [|eauto].
    destruct (json_get rj MLS) as [v|e]; [|eauto].
    destruct (or_empty_strip v) as [rev|e]; [|eauto].
    unfold ret. destruct (nonempty rev); eauto.
Qed.

(** C8. For every integer limit from 500 to 1800, [int(limit * 0.9)],
    computed in binary64, is the mathematical floor of nine tenths of the
    limit: the [m] with [10 m <= 9 limit < 10 (m + 1)]. It is the bound
    the primary prompt carries, the bound the repair stage runs with and
    puts in its description prompt, and the bound the length-enforcement
    stage compares with and puts in its revision request. *)
Theorem min_chars_floor (li : ListingInput) :
  500 <= mls_char_limit li <= 1800 ->
  exists m,
    10 * m <= 9 * mls_char_limit li < 10 * (m + 1) /\
    min_chars_of (mls_char_limit li) = Ok m /\
    build_primary_prompt li = Ok (PrimaryPrompt li m) /\
    (forall data log,
        validate_and_repair complete li data log
        = match missing_keys data with
          | [] => (Ok data, log)
          | missing => repair_loop complete li m missing data log
          end) /\
    repair_prompt li m MLS = Some (MlsDescriptionPrompt li m) /\
    (forall data log cur,
        or_empty_strip (data !! MLS) = Ok cur ->
        (m <= len cur <= mls_char_limit li ->
         ensure_length complete li data log = (Ok data, log)) /\
        (~ (m <= len cur <= mls_char_limit li) ->
         exists r, ensure_length complete li data log
                   = (r, log ++ [revision_request li m cur]))).
Proof.
  intros Hn. exists (9 * mls_char_limit li / 10).
  pose proof (min_chars_in_range _ Hn) as Hm.
  split; [|split; [exact Hm|split; [|split; [|split]]]].
  - pose proof (Z.div_mod (9 * mls_char_limit li) 10 ltac:(lia)) as Hd.
    pose proof (Z.mod_pos_bound (9 * mls_char_limit li) 10 ltac:(lia)) as Hb.
    lia.
  - unfold build_primary_prompt. now rewrite Hm.
  - intros data log. unfold validate_and_repair, bind, lift. rewrite Hm.
    now destruct (missing_keys data).
  - reflexivity.
  - intros data log cur Hcur. now apply ensure_length_calls.
Qed.

(** C2. When the trimmed description has a length within the bounds,
    [ensure_length] returns the data as it is and issues no request. When
    the length is out of the bounds, the log grows by the revision
    request and by nothing else, whatever the endpoint replies: one
    attempt. With a limit of 1000 the lower bound is 900, a description
    of 850 characters costs that one request, one of 950 none. *)
Theorem ensure_length_one_revision (li : ListingInput) (data : gmap pystr json)
  (log : list request) (mn : Z) (cur : pystr) :
  min_chars_of (mls_char_limit li) = Ok mn ->
  or_empty_strip (data !! MLS) = Ok cur ->
  (mn <= len cur <= mls_char_limit li ->
   ensure_length complete li data log = (Ok data, log)) /\
  (~ (mn <= len cur <= mls_char_limit li) ->
   exists r, ensure_length complete li data log
             = (r, log ++ [revision_request li mn cur])) /\
  min_chars_of 1000 = Ok 900 /\
  (mls_char_limit li = 1000 -> len cur = 850 ->
   exists r, ensure_length complete li data log
             = (r, log ++ [revision_request li 900 cur])) /\
  (mls_char_limit li = 1000 -> len cur = 950 ->
   ensure_length complete li data log = (Ok data, log)).
Proof.
  intros Hmn Hcur.
  destruct (ensure_length_calls li data log mn cur Hmn Hcur) as [Hin Hout].
  assert (H900 : min_chars_of 1000 = Ok 900) by (vm_compute; reflexivity).
  split; [exact Hin|]. split; [exact Hout|]. split; [exact H900|]. split.
  - intros Hl Hc. rewrite Hl, H900 in Hmn. injection Hmn as <-.
    apply Hout. lia.
  - intros Hl Hc. rewrite Hl, H900 in Hmn. injection Hmn as <-.
    apply Hin. lia.
Qed.

(** What [(v or "").strip()] returns is trimmed. *)
Lemma or_empty_strip_stripped (v : option json) (rev : pystr) :
  or_empty_strip v = Ok rev -> str_strip rev = rev.
Proof.
  unfold or_empty_strip. intros H.
  repeat case_match; simplify_eq; try reflexivity; apply strip_by_idem.
Qed.

(** What [ensure_length] returns: the data, or the data with a trimmed,
    non-empty description written over the old one. *)
Lemma ensure_length_result (li : ListingInput) (data data' : gmap pystr json)
  (log log' : list request) :
  ensure_length complete li data log = (Ok data', log') ->
  data' = data \/
  exists s, nonempty s = true /\ str_strip s = s /\ data' = <[MLS := JStr s]> data.
Proof.
  unfold ensure_length, bind, lift, ret.
  destruct (min_chars_of (mls_char_limit li)) as [mn|]; [|discriminate].
  destruct (or_empty_strip (data !! MLS)) as [cur|]; [|discriminate].
  destruct ((mn <=? len cur) && (len cur <=? mls_char_limit li)).
  { intros [= <- _]. now left. }
  destruct (chat_json complete SYSTEM _ _ log) as [[[rj raw]|] l]; [|discriminate].
  destruct (json_get rj MLS) as [v|]; [|discriminate].
  destruct (or_empty_strip v) as [rev|] eqn:Hrev; [|discriminate].
  destruct (nonempty rev) eqn:Hne; intros [= <- _]; [right|now left].
  exists rev. split; [exact Hne|]. split; [|reflexivity].
  exact (or_empty_strip_stripped _ _ Hrev).
Qed.

(** C9. In the mapping [ensure_length] returns, every key other than
    [mls_description] has the value it had in the input, and every key of
    the input is still there. *)
Theorem ensure_length_frame (li : ListingInput) (data data' : gmap pystr json)
  (log log' : list request) :
  ensure_length complete li data log = (Ok data', log') ->
  (forall k, k <> MLS -> data' !! k = data !! k) /\
  (forall k, is_Some (data !! k) -> is_Some (data' !! k)).
Proof.
  intros H. destruct (ensure_length_result _ _ _ _ _ H) as [-> | (s & _ & _ & ->)].
  - split; auto.
  - split.
    + intros k Hk. now rewrite lookup_insert_ne.
    + intros k Hk. destruct (decide (k = MLS)) as [->|Hne].
      * rewrite lookup_insert_eq. eauto.
      * now rewrite lookup_insert_ne.
Qed.

(** C5, as amended. [ensure_length] has no handler: when the reply to
    the revision request does not parse, the error of the parser is the
    outcome. When it parses to an object whose [mls_description] is
    absent, falsy or a string, [ensure_length] returns: the trimmed
    string is written over the description when it is not empty, and the
    data is returned as it is otherwise, so that a description that was
    not empty is not empty afterwards. *)
Theorem ensure_length_revision (li : ListingInput) (data : gmap pystr json)
  (log : list request) (mn : Z) (cur : pystr) (c : option pystr) :
  min_chars_of (mls_char_limit li) = Ok mn ->
  or_empty_strip (data !! MLS) = Ok cur ->
  ~ (mn <= len cur <= mls_char_limit li) ->
  complete log (revision_request li mn cur) = Content c ->
  (forall e, safe_json_extract (Some (or_empty c)) = Raise e ->
     ensure_length complete li data log
     = (Raise e, log ++ [revision_request li mn cur])) /\
  (forall m rev,
     safe_json_extract (Some (or_empty c)) = Ok (JObj m) ->
     or_empty_strip (m !! MLS) = Ok rev ->
     let data' := if nonempty rev then <[MLS := JStr rev]> data else data in
     ensure_length complete li data log
     = (Ok data', log ++ [revision_request li mn cur]) /\
     (nonempty cur = true ->
      exists cur', or_empty_strip (data' !! MLS) = Ok cur' /\ nonempty cur' = true)).
Proof.
  intros Hmn Hcur Hout Hc.
  assert (Hcond : (mn <=? len cur) && (len cur <=? mls_char_limit li) = false).
  { apply andb_false_iff. destruct (Z.leb_spec mn (len cur)); [right|now left].
    apply Z.leb_gt. lia. }
  pose proof (chat_json_content SYSTEM _ _ log c Hc) as Hchat.
  split.
  - intros e He. unfold ensure_length, bind, lift.
    rewrite Hmn, Hcur, Hcond. unfold revision_request in Hchat. rewrite Hchat, He.
    reflexivity.
  - intros m rev Hm Hrev data'. split.
    + unfold ensure_length, bind, lift, ret.
      rewrite Hmn, Hcur, Hcond. unfold revision_request in Hchat. rewrite Hchat, Hm.
      simpl json_get. cbv iota beta. rewrite Hrev. subst data'.
      now destruct (nonempty rev).
    + intros Hne. subst data'. destruct (nonempty rev) eqn:Hr.
      * exists rev. rewrite lookup_insert_eq. simpl. split; [|exact Hr].
        f_equal. exact (or_empty_strip_stripped _ _ Hrev).
      * exists cur. split; assumption.
Qed.

Lemma present_iff (data : gmap pystr json) (k : pystr) :
  present data k = true <->
  exists s, data !! k = Some (JStr s) /\ str_strip s <> [].
Proof.
  unfold present. split.
  - destruct (data !! k) as [[| | | |s| |]|]; try discriminate.
    intros H. exists s. split; [reflexivity|]. now destruct (str_strip s).
  - intros (s & -> & Hs). now destruct (str_strip s).
Qed.

Lemma missing_keys_iff (data : gmap pystr json) (k : pystr) :
  k ∈ missing_keys data <->
  k ∈ REQUIRED_KEYS /\ ~ exists s, data !! k = Some (JStr s) /\ str_strip s <> [].
Proof.
  unfold missing_keys. rewrite list_elem_of_filter, <- present_iff.
  destruct (present data k); simpl; intuition congruence.
Qed.

Lemma repair_requests_length (li : ListingInput) (mn : Z) (data : gmap pystr json) :
  length (repair_requests li mn (missing_keys data)) = length (missing_keys data).
Proof.
  unfold missing_keys, REQUIRED_KEYS.
  rewrite !filter_cons, filter_nil.
  repeat (destruct (decide _)); reflexivity.
Qed.

(** The repair loop issues the requests of its keys in order and stops
    at the first call that raises: the log grows by a prefix of them, by
    all of them when the loop returns. *)
Lemma repair_loop_requests (li : ListingInput) (mn : Z) (missing : list pystr) :
  forall (data : gmap pystr json) (log : list request),
  exists r n,
    repair_loop complete li mn missing data log
    = (r, log ++ take n (repair_requests li mn missing)) /\
    (forall d, r = Ok d -> n = length (repair_requests li mn missing)) /\
    (repair_requests li mn missing <> [] -> (1 <= n)%nat).
Proof.
  induction missing as [|key rest IH]; intros data log.
  - exists (Ok data), 0%nat. simpl. rewrite app_nil_r. repeat split; auto. congruence.
  - unfold repair_requests. simpl. fold (repair_requests li mn rest).
    destruct (repair_prompt li mn key) as [p|]; simpl; [|apply IH].
    unfold bind at 1.
    destruct (chat_json_log SYSTEM p 45 log) as [r1 Hr1]. rewrite Hr1.
    fold (repair_request li p).
    destruct r1 as [[partial raw]|e].
    2:{ exists (Raise e), 1%nat. simpl. repeat split; [discriminate|lia]. }
    unfold bind, lift.
    destruct (merge_preserving data partial) as [data'|e].
    2:{ exists (Raise e), 1%nat. simpl. repeat split; [discriminate|lia]. }
    destruct (IH data' (log ++ [repair_request li p])) as (r & n & Hrun & Hok & _).
    exists r, (S n). rewrite Hrun. simpl. rewrite <- app_assoc. simpl.
    repeat split; [|lia]. intros d Hd. f_equal. now apply (Hok d).
Qed.

Lemma validate_and_repair_complete (li : ListingInput) (mn : Z)
  (data : gmap pystr json) (log : list request) :
  min_chars_of (mls_char_limit li) = Ok mn ->
  missing_keys data = [] ->
  validate_and_repair complete li data log = (Ok data, log).
Proof.
  intros Hmn Hnone. unfold validate_and_repair, bind, lift.
  now rewrite Hmn, Hnone.
Qed.

(** Every required key has a repair prompt. *)
Lemma repair_prompt_required (li : ListingInput) (mn : Z) (k : pystr) :
  k ∈ REQUIRED_KEYS -> exists p, repair_prompt li mn k = Some p.
Proof.
  unfold REQUIRED_KEYS. rewrite !elem_of_cons.
  intros [-> | [-> | [-> | [-> | H]]]]; [| | | |inversion H];
    vm_compute; eauto.
Qed.

(** The loop over a list of keys in two parts: the second part runs from
    where the first one ends, and does not run when the first raises. *)
Lemma repair_loop_app (li : ListingInput) (mn : Z) (a b : list pystr) :
  forall (data : gmap pystr json) (log : list request),
    repair_loop complete li mn (a ++ b) data log
    = match repair_loop complete li mn a data log with
      | (Ok d, l) => repair_loop complete li mn b d l
      | (Raise e, l) => (Raise e, l)
      end.
Proof.
  induction a as [|key a IH]; intros data log; [reflexivity|].
  simpl. destruct (repair_prompt li mn key) as [p|]; [|apply IH].
  unfold bind, lift.
  destruct (chat_json complete SYSTEM p 45 log) as [[[partial raw]|e] l]; [|reflexivity].
  destruct (merge_preserving data partial) as [d'|e]; [apply IH|reflexivity].
Qed.

(** One turn of the loop, after [n] repairs that went through. *)
Lemma repair_loop_turn (li : ListingInput) (mn : Z) (missing : list pystr)
  (data d_n : gmap pystr json) (log log_n : list request) (n : nat) (key : pystr)
  (p : prompt) :
  repair_loop complete li mn (take n missing) data log = (Ok d_n, log_n) ->
  missing !! n = Some key ->
  repair_prompt li mn key = Some p ->
  match chat_json complete SYSTEM p 45 log_n with
  | (Raise e, l) => repair_loop complete li mn missing data log = (Raise e, l)
  | (Ok (partial, _), l) =>
      match merge_preserving d_n partial with
      | Raise e => repair_loop complete li mn missing data log = (Raise e, l)
      | Ok d' =>
          repair_loop complete li mn (take (S n) missing) data log = (Ok d', l)
      end
  end.
Proof.
  intros Hn Hk Hp.
  assert (Hone : repair_loop complete li mn [key] d_n log_n
                 = match chat_json complete SYSTEM p 45 log_n with
                   | (Raise e, l) => (Raise e, l)
                   | (Ok (partial, _), l) =>
                       match merge_preserving d_n partial with
                       | Raise e => (Raise e, l)
                       | Ok d' => (Ok d', l)
                       end
                   end).
  { simpl. rewrite Hp. unfold bind at 1.
    destruct (chat_json complete SYSTEM p 45 log_n) as [[[partial raw]|e] l]; [|reflexivity].
    unfold bind, lift, ret. now destruct (merge_preserving d_n partial). }
  assert (Hs : take (S n) missing = take n missing ++ [key])
    by (now apply take_S_r).
  assert (Hall : missing = take (S n) missing ++ drop (S n) missing)
    by (now rewrite take_drop).
  destruct (chat_json complete SYSTEM p 45 log_n) as [[[partial raw]|e] l].
  - destruct (merge_preserving d_n partial) as [d'|e].
    + now rewrite Hs, repair_loop_app, Hn.
    + rewrite Hall, repair_loop_app, Hs, repair_loop_app, Hn, Hone. reflexivity.
  - rewrite Hall, repair_loop_app, Hs, repair_loop_app, Hn, Hone. reflexivity.
Qed.

Lemma validate_and_repair_loop (li : ListingInput) (mn : Z)
  (data : gmap pystr json) (log : list request) :
  min_chars_of (mls_char_limit li) = Ok mn ->
  validate_and_repair complete li data log
  = repair_loop complete li mn (missing_keys data) data log.
Proof.
  intros Hmn. unfold validate_and_repair, bind, lift. rewrite Hmn.
  now destruct (missing_keys data).
Qed.

(** C1, as amended. The missing keys are the required keys whose value
    is not a string that is non-empty after trimming. With none missing
    the data is returned as it is and nothing is requested. Otherwise the
    requests issued are the first [n] repair requests of the missing
    keys, in the order of [REQUIRED_KEYS]; [n] is at least one, and it is
    the number of missing keys whenever the function returns. For a
    result that holds a valid description only, these are the first [n]
    of the requests for the caption, the hashtags and the video script,
    in that order, and all three whenever the function returns.

    Nothing handles an error in the loop. The function is the loop over
    the missing keys; after [n] repairs that went through, the request
    of the next key is appended to the log, and when that call raises
    (the transport fails, the reply does not parse) or its result cannot
    be merged, the error is the outcome of [validate_and_repair] and the
    log ends with that request: no later key is tried. When the call
    and the merge go through, the loop stands after [n + 1] repairs with
    the merged data. For a result that holds a valid description only, an
    error of the caption call is the outcome after that one request. *)
Theorem validate_and_repair_calls (li : ListingInput) (mn : Z) :
  min_chars_of (mls_char_limit li) = Ok mn ->
  (forall data k,
      k ∈ missing_keys data <->
      k ∈ REQUIRED_KEYS /\
      ~ exists s, data !! k = Some (JStr s) /\ str_strip s <> []) /\
  (forall data log,
      missing_keys data = [] ->
      validate_and_repair complete li data log = (Ok data, log)) /\
  (forall data log,
      exists r n,
        validate_and_repair complete li data log
        = (r, log ++ take n (repair_requests li mn (missing_keys data))) /\
        (forall d, r = Ok d -> n = length (missing_keys data)) /\
        (missing_keys data <> [] -> (1 <= n)%nat)) /\
  (forall s log,
      str_strip s <> [] ->
      exists r n,
        validate_and_repair complete li {[ MLS := JStr s ]} log
        = (r, log ++ take n [repair_request li (SocialCaptionPrompt li);
                             repair_request li (HashtagsPrompt li);
                             repair_request li (VideoScriptPrompt li)]) /\
        (1 <= n)%nat /\
        (forall d, r = Ok d -> n = 3%nat)) /\
  (forall data log,
      validate_and_repair complete li data log
      = repair_loop complete li mn (missing_keys data) data log) /\
  (forall data log n d_n log_n key,
      repair_loop complete li mn (take n (missing_keys data)) data log
      = (Ok d_n, log_n) ->
      missing_keys data !! n = Some key ->
      exists p,
        repair_prompt li mn key = Some p /\
        match chat_json complete SYSTEM p 45 log_n with
        | (Raise e, l) =>
            l = log_n ++ [repair_request li p] /\
            validate_and_repair complete li data log = (Raise e, l)
        | (Ok (partial, _), l) =>
            l = log_n ++ [repair_request li p] /\
            match merge_preserving d_n partial with
            | Raise e => validate_and_repair complete li data log = (Raise e, l)
            | Ok d' =>
                repair_loop complete li mn (take (S n) (missing_keys data)) data log
                = (Ok d', l)
            end
        end) /\
  (forall s log e,
      str_strip s <> [] ->
      fst (chat_json complete SYSTEM (SocialCaptionPrompt li) 45 log) = Raise e ->
      validate_and_repair complete li {[ MLS := JStr s ]} log
      = (Raise e, log ++ [repair_request li (SocialCaptionPrompt li)])).
Proof.
  intros Hmn.
  assert (Hcalls : forall data log,
      exists r n,
        validate_and_repair complete li data log
        = (r, log ++ take n (repair_requests li mn (missing_keys data))) /\
        (forall d, r = Ok d -> n = length (missing_keys data)) /\
        (missing_keys data <> [] -> (1 <= n)%nat)).
  { intros data log. unfold validate_and_repair, bind, lift. rewrite Hmn.
    destruct (repair_loop_requests li mn (missing_keys data) data log)
      as (r & n & Hrun & Hok & Hone).
    rewrite repair_requests_length in Hok.
    destruct (missing_keys data) as [|k ks] eqn:Hm.
    - exists (Ok data), 0%nat. simpl. rewrite app_nil_r. repeat split; auto. congruence.
    - exists r, n. split; [exact Hrun|]. split; [exact Hok|].
      intros _. apply Hone. intros Hnil.
      pose proof (repair_requests_length li mn data) as Hl.
      rewrite Hm, Hnil in Hl. discriminate. }
  assert (Hturn : forall data log n d_n log_n key,
      repair_loop complete li mn (take n (missing_keys data)) data log
      = (Ok d_n, log_n) ->
      missing_keys data !! n = Some key ->
      exists p,
        repair_prompt li mn key = Some p /\
        match chat_json complete SYSTEM p 45 log_n with
        | (Raise e, l) =>
            l = log_n ++ [repair_request li p] /\
            validate_and_repair complete li data log = (Raise e, l)
        | (Ok (partial, _), l) =>
            l = log_n ++ [repair_request li p] /\
            match merge_preserving d_n partial with
            | Raise e => validate_and_repair complete li data log = (Raise e, l)
            | Ok d' =>
                repair_loop complete li mn (take (S n) (missing_keys data)) data log
                = (Ok d', l)
            end
        end).
  { intros data log n d_n log_n key Hn Hk.
    assert (Hreq : key ∈ REQUIRED_KEYS).
    { apply (missing_keys_iff data key). eapply list_elem_of_lookup_2. exact Hk. }
    destruct (repair_prompt_required li mn key Hreq) as [p Hp].
    exists p. split; [exact Hp|].
    pose proof (repair_loop_turn li mn _ data d_n log log_n n key p Hn Hk Hp) as Ht.
    rewrite (validate_and_repair_loop li mn data log Hmn).
    destruct (chat_json_log SYSTEM p 45 log_n) as [r Hr].
    fold (repair_request li p) in Hr. rewrite Hr in Ht |- *.
    destruct r as [[partial raw]|e]; [|now split].
    split; [reflexivity|]. exact Ht. }
  assert (Hmiss : forall s, str_strip s <> [] ->
            missing_keys {[ MLS := JStr s ]}
            = [py "social_caption"; py "instagram_hashtags"; py "video_script_60s"]).
  { intros s Hs.
    assert (Hp : present {[ MLS := JStr s ]} MLS = true).
    { apply present_iff. exists s. now rewrite lookup_singleton_eq. }
    unfold missing_keys, REQUIRED_KEYS.
    rewrite !filter_cons, filter_nil. rewrite Hp. reflexivity. }
  split; [exact missing_keys_iff|].
  split; [|split; [exact Hcalls|split; [|split; [|split; [exact Hturn|]]]]].
  - intros data log Hnone. now apply (validate_and_repair_complete li mn).
  - intros s log Hs.
    destruct (Hcalls {[ MLS := JStr s ]} log) as (r & n & Hrun & Hok & Hone).
    rewrite (Hmiss s Hs) in Hrun, Hok, Hone.
    exists r, n. split; [exact Hrun|]. split; [now apply Hone|exact Hok].
  - intros data log. now apply validate_and_repair_loop.
  - intros s log e Hs He.
    destruct (Hturn {[ MLS := JStr s ]} log 0%nat {[ MLS := JStr s ]} log
                (py "social_caption")) as (p & Hp & Hrun).
    + reflexivity.
    + now rewrite (Hmiss s Hs).
    + assert (p = SocialCaptionPrompt li) as -> by (vm_compute in Hp; congruence).
      destruct (chat_json complete SYSTEM (SocialCaptionPrompt li) 45 log)
        as [[[partial raw]|e'] l]; [discriminate|].
      simpl in He. injection He as ->. destruct Hrun as [-> Hrun]. exact Hrun.
Qed.

(** X1. A primary response that parses to all four fields, with a
    description within the bounds, is returned after that one request: no
    repair and no revision. *)
Lemma generate_no_extra_calls (li : ListingInput) (log : list request)
  (mn : Z) (c : option pystr) (d : gmap pystr json) (cur : pystr) :
  min_chars_of (mls_char_limit li) = Ok mn ->
  complete log {| system_prompt := SYSTEM; user_prompt := PrimaryPrompt li mn;
                  temperature := primary_temperature li |} = Content c ->
  safe_json_extract (Some (or_empty c)) = Ok (JObj d) ->
  missing_keys d = [] ->
  or_empty_strip (d !! MLS) = Ok cur ->
  mn <= len cur <= mls_char_limit li ->
  generate complete li log
  = (Ok d, log ++ [{| system_prompt := SYSTEM; user_prompt := PrimaryPrompt li mn;
                      temperature := primary_temperature li |}]).
Proof.
  intros Hmn Hc Hd Hnone Hcur Hin.
  unfold generate, build_primary_prompt. rewrite Hmn. simpl obind.
  unfold bind at 1. unfold lift at 1. unfold bind at 1.
  rewrite (chat_json_content _ _ _ _ _ Hc), Hd.
  unfold bind at 1.
  rewrite (validate_and_repair_complete li mn d _ Hmn Hnone).
  destruct (ensure_length_calls li d
              (log ++ [{| system_prompt := SYSTEM; user_prompt := PrimaryPrompt li mn;
                          temperature := primary_temperature li |}]) mn cur Hmn Hcur)
    as [Hl _].
  now apply Hl.
Qed.

End PipelineFacts.

(** ** Sample runs *)

(** The bound of a limit of 1000. *)
Lemma min_chars_floor_witness :
  exists m,
    10 * m <= 9 * 1000 < 10 * (m + 1) /\
    min_chars_of 1000 = Ok m /\
    build_primary_prompt (sample_listing 1000) = Ok (PrimaryPrompt (sample_listing 1000) m).
Proof.
  destruct (min_chars_floor (scripted []) (sample_listing 1000)) as (m & H1 & H2 & H3 & _);
    [simpl; lia|].
  exists m. auto.
Defined.

(** A description of 850 characters under a limit of 1000: one request. *)
Lemma ensure_length_one_revision_witness :
  exists r,
    ensure_length (scripted [revised_reply]) (sample_listing 1000)
      (description_of_length 850) []
    = (r, [] ++ [revision_request (sample_listing 1000) 900 (repeat 97%N 850)]).
Proof.
  destruct (ensure_length_one_revision (scripted [revised_reply]) (sample_listing 1000)
              (description_of_length 850) [] 900 (repeat 97%N 850))
    as (_ & _ & _ & H & _); [vm_compute; reflexivity | vm_compute; reflexivity |].
  apply H; vm_compute; reflexivity.
Defined.

(** A result with all four fields and a description of 850 characters
    under a limit of 1000: the revision is written over the description,
    and the caption, the hashtags and the script are what they were. *)
Lemma ensure_length_frame_witness :
  exists data',
    ensure_length (scripted [revised_reply]) (sample_listing 1000)
      (draft_of_length 850) []
    = (Ok data', [revision_request (sample_listing 1000) 900 (repeat 97%N 850)]) /\
    data' !! MLS = Some (JStr (py "Revised text.")) /\
    data' !! py "social_caption" = Some (JStr (py "Come and see.")) /\
    data' !! py "instagram_hashtags" = Some (JStr (py "#home #pool")) /\
    data' !! py "video_script_60s" = Some (JStr (py "Welcome in.")) /\
    (forall k, is_Some (draft_of_length 850 !! k) -> is_Some (data' !! k)).
Proof.
  exists (<[MLS := JStr (py "Revised text.")]> (draft_of_length 850)).
  assert (Hrun : ensure_length (scripted [revised_reply]) (sample_listing 1000)
                   (draft_of_length 850) []
                 = (Ok (<[MLS := JStr (py "Revised text.")]> (draft_of_length 850)),
                    [revision_request (sample_listing 1000) 900 (repeat 97%N 850)]))
    by (vm_compute; reflexivity).
  destruct (ensure_length_frame (scripted [revised_reply]) (sample_listing 1000)
              (draft_of_length 850) _ [] _ Hrun) as [Hother Hkeys].
  split; [exact Hrun|]. split; [apply lookup_insert_eq|].
  rewrite !Hother by (vm_compute; discriminate).
  repeat split; try (vm_compute; reflexivity). exact Hkeys.
Defined.

(** The revision of that run is trimmed and written over the description. *)
Lemma ensure_length_revision_witness :
  ensure_length (scripted [revised_reply]) (sample_listing 1000)
    (description_of_length 850) []
  = (Ok (<[MLS := JStr (py "Revised text.")]> (description_of_length 850)),
     [] ++ [revision_request (sample_listing 1000) 900 (repeat 97%N 850)]).
Proof.
  destruct (ensure_length_revision (scripted [revised_reply]) (sample_listing 1000)
              (description_of_length 850) [] 900 (repeat 97%N 850) (Some revised_reply))
    as [_ H]; [vm_compute; reflexivity | vm_compute; reflexivity
              | intros [H _]; vm_compute in H; now apply H
              | vm_compute; reflexivity |].
  destruct (H {[ MLS := JStr (py "  Revised text.  ") ]} (py "Revised text."))
    as [Hrun _]; [vm_compute; reflexivity | vm_compute; reflexivity |].
  exact Hrun.
Defined.

(** The repair requests of a result that holds a description only; the
    run in which the first reply is not JSON, and the run in which the
    second is not: the parse error is the outcome, after one request and
    after two. *)
Lemma validate_and_repair_calls_witness :
  (exists r n,
    validate_and_repair (scripted repair_replies) (sample_listing 1000)
      only_description []
    = (r, [] ++ take n
                  [repair_request (sample_listing 1000)
                     (SocialCaptionPrompt (sample_listing 1000));
                   repair_request (sample_listing 1000)
                     (HashtagsPrompt (sample_listing 1000));
                   repair_request (sample_listing 1000)
                     (VideoScriptPrompt (sample_listing 1000))]) /\
    (1 <= n)%nat /\
    (forall d, r = Ok d -> n = 3%nat)) /\
  validate_and_repair (scripted [py "oops"]) (sample_listing 1000) only_description []
  = (Raise JSONDecodeError,
     [] ++ [repair_request (sample_listing 1000)
              (SocialCaptionPrompt (sample_listing 1000))]) /\
  validate_and_repair (scripted caption_then_noise) (sample_listing 1000)
    only_description []
  = (Raise JSONDecodeError,
     [repair_request (sample_listing 1000) (SocialCaptionPrompt (sample_listing 1000))]
     ++ [repair_request (sample_listing 1000) (HashtagsPrompt (sample_listing 1000))]).
Proof.
  split; [|split].
  - destruct (validate_and_repair_calls (scripted repair_replies) (sample_listing 1000) 900)
      as (_ & _ & _ & H & _); [vm_compute; reflexivity|].
    apply (H (py "A bright home.") []). vm_compute. discriminate.
  - destruct (validate_and_repair_calls (scripted [py "oops"]) (sample_listing 1000) 900)
      as (_ & _ & _ & _ & _ & _ & H); [vm_compute; reflexivity|].
    apply (H (py "A bright home.") [] JSONDecodeError).
    + vm_compute. discriminate.
    + vm_compute. reflexivity.
  - destruct (validate_and_repair_calls (scripted caption_then_noise)
                (sample_listing 1000) 900)
      as (_ & _ & _ & _ & _ & H & _); [vm_compute; reflexivity|].
    destruct (H only_description [] 1%nat
                (<[py "social_caption" := JStr (py "Come and see.")]> only_description)
                [repair_request (sample_listing 1000)
                   (SocialCaptionPrompt (sample_listing 1000))]
                (py "instagram_hashtags")) as (p & Hp & Hrun).
    + vm_compute. reflexivity.
    + vm_compute. reflexivity.
    + assert (Hp' : repair_prompt (sample_listing 1000) 900 (py "instagram_hashtags")
                    = Some (HashtagsPrompt (sample_listing 1000)))
        by (vm_compute; reflexivity).
      rewrite Hp' in Hp. injection Hp as <-.
      assert (Hc : chat_json (scripted caption_then_noise) SYSTEM
                     (HashtagsPrompt (sample_listing 1000)) 45
                     [repair_request (sample_listing 1000)
                        (SocialCaptionPrompt (sample_listing 1000))]
                   = (Raise JSONDecodeError,
                      [repair_request (sample_listing 1000)
                         (SocialCaptionPrompt (sample_listing 1000))]
                      ++ [repair_request (sample_listing 1000)
                            (HashtagsPrompt (sample_listing 1000))]))
        by (vm_compute; reflexivity).
      rewrite Hc in Hrun. exact (proj2 Hrun).
Defined.

(** C1, counterexample. The primary result holds a valid description
    only and the endpoint answers the first repair request with text that
    is not JSON: the parse error ends the run after one request. *)
Lemma repair_stops_at_first_failure :
  validate_and_repair (scripted [py "oops"]) (sample_listing 1000) only_description []
  = (Raise JSONDecodeError,
     [repair_request (sample_listing 1000) (SocialCaptionPrompt (sample_listing 1000))]).
Proof. vm_compute. reflexivity. Qed.

(** The same result with an endpoint that answers every repair: three
    requests, three fields merged. *)
Lemma three_repairs :
  validate_and_repair (scripted repair_replies) (sample_listing 1000) only_description []
  = (Ok (<[py "video_script_60s" := JStr (py "Welcome in.")]>
          (<[py "instagram_hashtags" := JStr (py "#home #pool")]>
             (<[py "social_caption" := JStr (py "Come and see.")]> only_description))),
     [repair_request (sample_listing 1000) (SocialCaptionPrompt (sample_listing 1000));
      repair_request (sample_listing 1000) (HashtagsPrompt (sample_listing 1000));
      repair_request (sample_listing 1000) (VideoScriptPrompt (sample_listing 1000))]).
Proof. vm_compute. reflexivity. Qed.

(** C5, counterexample. The description is too short and the endpoint
    answers the revision request with text that is not JSON:
    [ensure_length] raises. *)
Lemma ensure_length_raises :
  ensure_length (scripted [py "not json"]) (sample_listing 1000)
    (description_of_length 850) []
  = (Raise JSONDecodeError,
     [revision_request (sample_listing 1000) 900 (repeat 97%N 850)]).
Proof. vm_compute. reflexivity. Qed.

(** A revision that parses: the trimmed text replaces the description.
    It is still shorter than the bound, and no second request is made. *)
Lemma revision_run :
   ensure_length (scripted [revised_reply]) (sample_listing 1000)
    (description_of_length 850) []
  = (Ok (<[MLS := JStr (py "Revised text.")]> (description_of_length 850)),
     [revision_request (sample_listing 1000) 900 (repeat 97%N 850)]).
Proof. vm_compute. reflexivity. Qed.

(** ** Keywords: tokens, extras, normal forms *)

(** Membership in what the cleaning loop returns. *)
Lemma clean_tokens_elem (tokens : list pystr) :
  forall (seen : gset pystr) (cleaned : list pystr) (x : pystr),
    (x ∈ clean_tokens tokens seen cleaned) <->
    (x ∈ cleaned) \/
    ((x ∉ seen) /\ x <> [] /\ exists t, t ∈ tokens /\ x = normalize_token t).
Proof.
  induction tokens as [|t ts IH]; intros seen cleaned x; simpl.
  - split; [now left|]. intros [H | (_ & _ & t & Ht & _)]; [exact H|]. inversion Ht.
  - destruct (nonempty (normalize_token t)
              && negb (bool_decide (normalize_token t ∈ seen))) eqn:E.
    + apply andb_true_iff in E as [Hne Hns].
      apply negb_true_iff, bool_decide_eq_false in Hns.
      rewrite IH, elem_of_app, list_elem_of_singleton. split.
      * intros [[H | ->] | (Hx & Hn & t' & Ht' & ->)].
        -- now left.
        -- right. split; [exact Hns|]. split.
           ++ intros E0. rewrite E0 in Hne. discriminate.
           ++ exists t. split; [left|reflexivity].
        -- right. split; [|split; [exact Hn|]].
           ++ intros Hs. apply Hx. now apply elem_of_union_r.
           ++ exists t'. split; [now right|reflexivity].
      * intros [H | (Hx & Hn & t' & Ht' & ->)]; [now left; left|].
        destruct (decide (normalize_token t' = normalize_token t)) as [Heq|Hneq].
        -- left. right. exact Heq.
        -- apply elem_of_cons in Ht' as [-> | Ht']; [congruence|].
           right. split; [|split; [exact Hn|eauto]].
           intros [Hs%elem_of_singleton | Hs]%elem_of_union; contradiction.
    + rewrite IH. split.
      * intros [H | (Hx & Hn & t' & Ht' & ->)]; [now left|].
        right. split; [exact Hx|]. split; [exact Hn|].
        exists t'. split; [now right|reflexivity].
      * intros [H | (Hx & Hn & t' & Ht' & ->)]; [now left|].
        apply elem_of_cons in Ht' as [-> | Ht'].
        -- exfalso. apply andb_false_iff in E as [E | E].
           ++ apply Hn. now destruct (normalize_token t).
           ++ apply negb_false_iff, bool_decide_eq_true in E. contradiction.
        -- right. split; [exact Hx|]. split; [exact Hn|]. eauto.
Qed.

(** The loop appends to [cleaned], in the order of the tokens. *)
Lemma clean_tokens_order (tokens : list pystr) :
  forall (seen : gset pystr) (cleaned : list pystr),
  exists added,
    clean_tokens tokens seen cleaned = cleaned ++ added /\
    added `sublist_of` map normalize_token tokens.
Proof.
  induction tokens as [|t ts IH]; intros seen cleaned; simpl.
  - exists []. split; [now rewrite app_nil_r|constructor].
  - destruct (nonempty (normalize_token t)
              && negb (bool_decide (normalize_token t ∈ seen))).
    + destruct (IH ({[normalize_token t]} ∪ seen) (cleaned ++ [normalize_token t]))
        as (added & -> & Hsub).
      exists (normalize_token t :: added). split; [now rewrite <- app_assoc|].
      now constructor.
    + destruct (IH seen cleaned) as (added & -> & Hsub).
      exists added. split; [reflexivity|]. now constructor.
Qed.

(** With fewer than sixty keywords nothing was cut: every token's
    non-empty normal form is a keyword. *)
Lemma build_keywords_complete sel beds baths sqft lot yb pt extra
  (tokens kws : list pystr) (t : pystr) :
  keyword_tokens sel beds baths sqft lot yb pt extra = Ok tokens ->
  build_keywords_from_selections sel beds baths sqft lot yb pt extra = Ok kws ->
  (length kws < 60)%nat ->
  t ∈ tokens -> normalize_token t <> [] -> normalize_token t ∈ kws.
Proof.
  intros Ht. unfold build_keywords_from_selections. rewrite Ht. simpl.
  intros [= <-] Hlen Hin Hne.
  rewrite take_ge by (rewrite length_take in Hlen; lia).
  apply clean_tokens_elem. right.
  split; [apply not_elem_of_empty|]. split; [exact Hne|]. eauto.
Qed.

(** X2. What the builder returns, in terms of the tokens it collected:
    every keyword is the non-empty normal form of a token; the keywords
    come in the order of the tokens; and when fewer than sixty keywords
    are returned nothing was cut, so that the normal form of every token
    is a keyword unless it is empty. *)
Theorem build_keywords_from_tokens sel beds baths sqft lot yb pt extra
  (tokens kws : list pystr) :
  keyword_tokens sel beds baths sqft lot yb pt extra = Ok tokens ->
  build_keywords_from_selections sel beds baths sqft lot yb pt extra = Ok kws ->
  (forall x, x ∈ kws -> x <> [] /\ exists t, t ∈ tokens /\ x = normalize_token t) /\
  kws `sublist_of` map normalize_token tokens /\
  ((length kws < 60)%nat ->
   forall t, t ∈ tokens -> normalize_token t <> [] -> normalize_token t ∈ kws).
Proof.
  intros Ht Hb. split; [|split].
  - revert Hb. unfold build_keywords_from_selections. rewrite Ht. simpl.
    intros [= <-] x Hx. apply (subseteq_take 60) in Hx.
    apply clean_tokens_elem in Hx as [Hx | (_ & Hn & Hx)]; [inversion Hx|]. auto.
  - revert Hb. unfold build_keywords_from_selections. rewrite Ht. simpl.
    intros [= <-].
    destruct (clean_tokens_order tokens ∅ []) as (added & Hadd & Hsub).
    simpl in Hadd. etransitivity; [apply sublist_take|]. now rewrite Hadd.
  - intros Hlen t Hin Hne.
    exact (build_keywords_complete _ _ _ _ _ _ _ _ tokens kws t Ht Hb Hlen Hin Hne).
Qed.

Lemma re_split_pieces (P : N -> Prop) (s : pystr) :
  forall (cur : pystr) (in_sep : bool),
    Forall P cur -> Forall P s ->
    Forall (Forall P) (re_split_from cur in_sep s).
Proof.
  induction s as [|c s IH]; intros cur in_sep Hcur Hs; simpl.
  - constructor; [now apply Forall_rev|constructor].
  - inversion Hs as [|? ? Hc Hs']; subst.
    destruct (is_sep c).
    + destruct in_sep; [apply IH; auto|].
      constructor; [now apply Forall_rev|apply IH; auto].
    + apply IH; auto.
Qed.

Lemma re_split_no_sep (s : pystr) :
  forall (cur : pystr) (in_sep : bool),
    Forall not_sep cur ->
    Forall (Forall not_sep) (re_split_from cur in_sep s).
Proof.
  induction s as [|c s IH]; intros cur in_sep Hcur; simpl.
  - constructor; [now apply Forall_rev|constructor].
  - destruct (is_sep c) eqn:Hc.
    + destruct in_sep; [apply IH; auto|].
      constructor; [now apply Forall_rev|apply IH; auto].
    + apply IH. now constructor.
Qed.

Lemma strip_by_Forall (P : N -> Prop) (p : N -> bool) (s : pystr) :
  Forall P s -> Forall P (strip_by p s).
Proof.
  intros H. unfold strip_by.
  apply Forall_rev, drop_while_Forall, Forall_rev, drop_while_Forall, H.
Qed.

Lemma drop_while_all (p : N -> bool) (s : pystr) :
  Forall (fun c => p c = true) s -> drop_while p s = [].
Proof. induction 1 as [|c s Hc _ IH]; simpl; [reflexivity|]. now rewrite Hc. Qed.

Lemma elem_of_map_strip (k : pystr) (l : list pystr) :
  k ∈ map str_strip l -> exists piece, piece ∈ l /\ k = str_strip piece.
Proof.
  intros H. apply list_elem_of_In, in_map_iff in H as (piece & <- & Hin).
  exists piece. split; [now apply list_elem_of_In|reflexivity].
Qed.

(** X3. Every keyword read from the extras box is not empty, is
    trimmed, holds none of the separators (comma, semicolon, newline),
    and is made of characters of the text of the box. *)
Theorem extra_keywords_wellformed (extra_kw_raw k : pystr) :
  k ∈ extra_keywords_of extra_kw_raw ->
  k <> [] /\ str_strip k = k /\ Forall not_sep k /\
  Forall (fun c => c ∈ extra_kw_raw) k.
Proof.
  unfold extra_keywords_of. intros [Hne Hin]%list_elem_of_filter.
  apply elem_of_map_strip in Hin as (piece & Hp & ->).
  split; [|split; [|split]].
  - intros E. rewrite E in Hne. exact Hne.
  - apply strip_by_idem.
  - apply strip_by_Forall.
    pose proof (re_split_no_sep extra_kw_raw [] false ltac:(constructor)) as Hall.
    rewrite Forall_forall in Hall. now apply Hall.
  - apply strip_by_Forall.
    assert (Hall : Forall (Forall (fun c => c ∈ extra_kw_raw))
                     (re_split_from [] false extra_kw_raw)).
    { apply re_split_pieces; [constructor|]. now apply Forall_forall. }
    rewrite Forall_forall in Hall. now apply Hall.
Qed.

Lemma extra_keywords_blank (extra_kw_raw : pystr) :
  Forall (fun c => is_sep c = true \/ is_space c = true) extra_kw_raw ->
  extra_keywords_of extra_kw_raw = [].
Proof.
  intros Hb. unfold extra_keywords_of.
  pose proof (re_split_pieces _ extra_kw_raw [] false ltac:(constructor) Hb) as Hp.
  pose proof (re_split_no_sep extra_kw_raw [] false ltac:(constructor)) as Hn.
  unfold re_split_seps.
  induction (re_split_from [] false extra_kw_raw) as [|piece l IH]; [reflexivity|].
  inversion Hp as [|? ? Hp1 Hp2]; inversion Hn as [|? ? Hn1 Hn2]; subst.
  simpl map. rewrite filter_cons.
  assert (Hs : str_strip piece = []).
  { assert (Hd : drop_while is_space piece = []).
    { apply drop_while_all. rewrite Forall_forall in *. intros c Hc.
      destruct (Hp1 c Hc) as [Hsep | Hsp]; [|exact Hsp].
      specialize (Hn1 c Hc). unfold not_sep in Hn1. congruence. }
    unfold str_strip, strip_by. now rewrite Hd. }
  rewrite Hs. simpl. now apply IH.
Qed.

(** X4. When the extras box holds separators and whitespace only, the
    keyword list of a generation request is what the builder returns: no
    two entries equal after normalization, at most sixty entries. *)
Theorem auto_keywords_without_extras sel beds baths sqft lot yb pt
  (extra_kw_raw : pystr) (kws : list pystr) :
  Forall (fun c => is_sep c = true \/ is_space c = true) extra_kw_raw ->
  auto_keywords sel beds baths sqft lot yb pt extra_kw_raw = Ok kws ->
  build_keywords_from_selections sel (Some beds) (Some baths) (none_if_zero sqft)
    (none_if_zero lot) (none_if_zero yb) pt [] = Ok kws /\
  NoDup (map normalize_token kws) /\ (length kws <= 60)%nat.
Proof.
  intros Hb. unfold auto_keywords. rewrite (extra_keywords_blank _ Hb).
  destruct (build_keywords_from_selections _ _ _ _ _ _ _ _) as [built|] eqn:E;
    simpl; [|discriminate].
  rewrite app_nil_r. intros [= <-]. split; [reflexivity|].
  destruct (build_keywords_clean _ _ _ _ _ _ _ _ _ E) as (_ & Hl & Hn). auto.
Qed.

Lemma re_split_word (w : pystr) :
  forall (cur rest : pystr) (in_sep : bool),
    Forall not_sep w ->
    re_split_from cur in_sep (w ++ rest)
    = re_split_from (rev w ++ cur) (match w with [] => in_sep | _ => false end) rest.
Proof.
  induction w as [|c w IH]; intros cur rest in_sep Hw; [reflexivity|].
  inversion Hw as [|? ? Hc Hw']; subst. simpl. rewrite Hc, IH by assumption.
  rewrite <- app_assoc. simpl. now destruct w.
Qed.

Lemma re_split_join (ks : list pystr) :
  forall (k cur : pystr),
    Forall plain_keyword (k :: ks) ->
    re_split_from cur false (str_join (py ", ") (k :: ks))
    = (rev cur ++ k) :: map (cons 32%N) ks.
Proof.
  change (py ", ") with [44%N; 32%N].
  induction ks as [|k' ks IH]; intros k cur Hall;
    inversion Hall as [|? ? (Hne & _ & Hns) Hrest]; subst.
  - simpl str_join. rewrite <- (app_nil_r k) at 1.
    rewrite re_split_word by assumption. simpl.
    now rewrite rev_app_distr, rev_involutive.
  - change (str_join [44%N; 32%N] (k :: k' :: ks))
      with (k ++ 44%N :: 32%N :: str_join [44%N; 32%N] (k' :: ks)).
    remember (str_join [44%N; 32%N] (k' :: ks)) as J eqn:EJ.
    rewrite re_split_word by assumption.
    destruct k as [|c k]; [congruence|].
    remember (rev (c :: k) ++ cur) as acc eqn:Eacc.
    simpl. subst J acc.
    rewrite (IH k' [32%N] Hrest).
    rewrite rev_app_distr, rev_involutive. reflexivity.
Qed.

(** X5. Keywords that are not empty, trimmed and free of separators,
    written into the extras box with a comma and a space between them,
    are read back as they are, in order. *)
Theorem extra_keywords_roundtrip (ks : list pystr) :
  Forall plain_keyword ks ->
  extra_keywords_of (str_join (py ", ") ks) = ks.
Proof.
  intros Hall. destruct ks as [|k ks]; [reflexivity|].
  unfold extra_keywords_of, re_split_seps. rewrite re_split_join by assumption.
  simpl rev. simpl app.
  inversion Hall as [|? ? (Hne & Hs & _) Hl]; subst.
  simpl map. rewrite filter_cons, Hs.
  destruct k as [|c k]; [congruence|]. simpl. f_equal.
  clear Hall Hne Hs.
  induction Hl as [|x l (Hne & Hs & _) Hl IH]; [reflexivity|].
  simpl map. rewrite filter_cons.
  change (str_strip (32%N :: x)) with (str_strip x). rewrite Hs.
  destruct x as [|d x]; [congruence|]. simpl. now f_equal.
Qed.

(** *** Normal forms *)

Lemma spaced_headed (s : pystr) : spaced s -> headed is_space s.
Proof.
  intros (W & HW & ->). change (py " ") with [32%N].
  destruct HW as [|w W [Hne Hws] HW]; [exact I|].
  destruct w as [|c w]; [congruence|].
  inversion Hws; subst. now destruct W.
Qed.

Lemma spaced_trimmed (s : pystr) : spaced s -> str_strip s = s.
Proof.
  intros Hs. apply strip_by_fixed; apply spaced_headed; [|apply spaced_rev]; exact Hs.
Qed.

Lemma normalize_token_spaced (t : pystr) : spaced (normalize_token t).
Proof.
  unfold normalize_token. apply spaced_lower, spaced_strip; [reflexivity|].
  apply spaced_split.
Qed.

Lemma normal_trimmed (k : pystr) : normalize_token k = k -> str_strip k = k.
Proof. intros <-. apply spaced_trimmed, normalize_token_spaced. Qed.

(** On a list of distinct non-empty normal forms that are not in [seen],
    the cleaning loop appends the list as it is. *)
Lemma clean_tokens_fixed (l : list pystr) :
  forall (seen : gset pystr) (cleaned : list pystr),
    NoDup l ->
    Forall (fun k => k <> [] /\ normalize_token k = k) l ->
    (forall x, x ∈ l -> x ∉ seen) ->
    clean_tokens l seen cleaned = cleaned ++ l.
Proof.
  induction l as [|k l IH]; intros seen cleaned Hnd Hall Hseen; simpl.
  - now rewrite app_nil_r.
  - inversion Hall as [|? ? [Hne Hk] Hall']; subst.
    apply NoDup_cons in Hnd as [Hkl Hnd].
    rewrite Hk.
    assert (Hs : k ∉ seen) by (apply Hseen; left).
    destruct k as [|c k]; [congruence|]. simpl nonempty.
    rewrite bool_decide_eq_false_2 by exact Hs. simpl.
    rewrite IH; [now rewrite <- app_assoc|assumption..|].
    intros x Hx [Hin%elem_of_singleton | Hin]%elem_of_union.
    + subst x. contradiction.
    + apply (Hseen x); [now right|exact Hin].
Qed.

Lemma build_keywords_normal sel beds baths sqft lot yb pt extra (kws : list pystr) :
  build_keywords_from_selections sel beds baths sqft lot yb pt extra = Ok kws ->
  Forall (fun k => k <> [] /\ normalize_token k = k) kws.
Proof.
  unfold build_keywords_from_selections.
  destruct (keyword_tokens _ _ _ _ _ _ _ _) as [tokens|]; simpl; [|discriminate].
  intros [= <-]. apply Forall_forall. intros x Hx.
  apply (subseteq_take 60) in Hx.
  apply clean_tokens_elem in Hx as [Hx | (_ & Hne & t & _ & ->)]; [inversion Hx|].
  split; [exact Hne|apply normalize_token_idem].
Qed.

(** X6. What the builder returns has no two equal entries and at most
    sixty; every entry is non-empty, is its own normal form, and has no
    whitespace at either end. *)
Theorem build_keywords_invariant sel beds baths sqft lot yb pt extra (kws : list pystr) :
  build_keywords_from_selections sel beds baths sqft lot yb pt extra = Ok kws ->
  NoDup kws /\ (length kws <= 60)%nat /\
  Forall (fun k => k <> [] /\ normalize_token k = k /\ str_strip k = k) kws.
Proof.
  intros H. destruct (build_keywords_clean _ _ _ _ _ _ _ _ _ H) as (Hnd & Hlen & _).
  split; [exact Hnd|]. split; [exact Hlen|].
  eapply Forall_impl; [exact (build_keywords_normal _ _ _ _ _ _ _ _ _ H)|].
  intros k [Hne Hk]. split; [exact Hne|]. split; [exact Hk|now apply normal_trimmed].
Qed.

(** X7. The builder's result, handed back to the builder as extra
    keywords with nothing selected and no number given, comes back as it
    is. *)
Theorem build_keywords_roundtrip sel beds baths sqft lot yb pt extra (kws : list pystr) :
  build_keywords_from_selections sel beds baths sqft lot yb pt extra = Ok kws ->
  build_keywords_from_selections [] None None None None None [] kws = Ok kws.
Proof.
  intros H. destruct (build_keywords_clean _ _ _ _ _ _ _ _ _ H) as (Hnd & Hlen & _).
  pose proof (build_keywords_normal _ _ _ _ _ _ _ _ _ H) as Hall.
  unfold build_keywords_from_selections, keyword_tokens. simpl.
  assert (Hmap : map str_strip kws = kws).
  { rewrite <- (map_id kws) at 2. apply map_ext_in. intros k Hk.
    rewrite Forall_forall in Hall. apply list_elem_of_In in Hk.
    apply normal_trimmed. now apply Hall. }
  assert (Hfil : filter (fun k => nonempty k) kws = kws).
  { clear -Hall. induction Hall as [|k l [Hne _] _ IH]; [reflexivity|].
    rewrite filter_cons. destruct k as [|c k]; [congruence|]. simpl. now f_equal. }
  rewrite Hmap, Hfil.
  rewrite clean_tokens_fixed; [|assumption..|intros x _; apply not_elem_of_empty].
  simpl. now rewrite take_ge.
Qed.


(** *** Taxonomy *)

Lemma taxonomy_checked :
  forallb item_resolves (concat (map snd feature_taxonomy)) = true.
Proof. vm_compute. reflexivity. Qed.

(** Every item of the taxonomy is found under its own label, and its
    variants are non-empty normal forms. *)
Lemma taxonomy_item (group label : pystr) (items : list (pystr * list pystr))
  (variants : list pystr) :
  (group, items) ∈ feature_taxonomy -> (label, variants) ∈ items ->
  label_tokens label = variants /\
  Forall (fun v => v <> [] /\ normalize_token v = v) variants.
Proof.
  intros Hg Hi.
  pose proof taxonomy_checked as Hall. rewrite forallb_forall in Hall.
  assert (Hin : In (label, variants) (concat (map snd feature_taxonomy))).
  { apply in_concat. exists items. split; [|now apply list_elem_of_In].
    apply in_map_iff. exists (group, items). split; [reflexivity|].
    now apply list_elem_of_In. }
  specialize (Hall _ Hin). unfold item_resolves in Hall. cbn [fst snd] in Hall.
  apply andb_true_iff in Hall as [Hl Hv]. apply bool_decide_eq_true in Hl.
  split; [exact Hl|]. apply Forall_forall. intros v Hv'.
  rewrite forallb_forall in Hv. apply list_elem_of_In in Hv'.
  specialize (Hv v Hv'). apply andb_true_iff in Hv as [Hne Hn].
  apply bool_decide_eq_true in Hn. split; [|exact Hn].
  intros ->. discriminate.
Qed.

Lemma selection_tokens_elem (sel : list (pystr * list pystr)) (grp label t : pystr)
  (labels : list pystr) :
  (grp, labels) ∈ sel -> label ∈ labels -> t ∈ label_tokens label ->
  t ∈ selection_tokens sel.
Proof.
  intros Hs Hl Ht. unfold selection_tokens.
  apply list_elem_of_In, in_concat.
  exists (concat (map label_tokens labels)). split.
  - apply in_map_iff. exists (grp, labels). split; [reflexivity|].
    now apply list_elem_of_In.
  - apply in_concat. exists (label_tokens label). split.
    + apply in_map_iff. exists label. split; [reflexivity|now apply list_elem_of_In].
    + now apply list_elem_of_In.
Qed.

Lemma keyword_tokens_selection sel beds baths sqft lot yb pt extra
  (tokens : list pystr) (t : pystr) :
  keyword_tokens sel beds baths sqft lot yb pt extra = Ok tokens ->
  t ∈ selection_tokens sel -> t ∈ tokens.
Proof.
  unfold keyword_tokens. destruct (beds_tokens beds) as [bt|]; simpl; [|discriminate].
  intros [= <-] Ht. rewrite !elem_of_app. tauto.
Qed.

(** X9. A selected label of the taxonomy contributes its variants, not
    itself: when the label is selected in some group and fewer than
    sixty keywords are returned, every variant the taxonomy lists for it
    is among the keywords, as the taxonomy writes it. *)
Theorem selected_label_keywords sel beds baths sqft lot yb pt extra
  (kws : list pystr) (group label grp v : pystr)
  (items : list (pystr * list pystr)) (variants labels : list pystr) :
  (group, items) ∈ feature_taxonomy -> (label, variants) ∈ items ->
  (grp, labels) ∈ sel -> label ∈ labels ->
  build_keywords_from_selections sel beds baths sqft lot yb pt extra = Ok kws ->
  (length kws < 60)%nat ->
  v ∈ variants -> v ∈ kws.
Proof.
  intros Hg Hi Hs Hl Hb Hlen Hv.
  destruct (taxonomy_item _ _ _ _ Hg Hi) as [Htok Hnorm].
  rewrite Forall_forall in Hnorm. destruct (Hnorm v Hv) as [Hne Hn].
  destruct (keyword_tokens sel beds baths sqft lot yb pt extra) as [tokens|e] eqn:Ht.
  2:{ unfold build_keywords_from_selections in Hb. rewrite Ht in Hb.
      simpl in Hb. discriminate Hb. }
  rewrite <- Hn.
  apply (build_keywords_complete _ _ _ _ _ _ _ _ tokens kws v Ht Hb Hlen).
  - apply (keyword_tokens_selection _ _ _ _ _ _ _ _ _ _ Ht).
    apply (selection_tokens_elem sel grp label v labels Hs Hl). now rewrite Htok.
  - now rewrite Hn.
Qed.

(** ** Feature bullets *)

Lemma newlines_app (a b : pystr) : newlines (a ++ b) = (newlines a + newlines b)%nat.
Proof. unfold newlines. now rewrite filter_app, length_app. Qed.

Lemma newlines_none (s : pystr) :
  Forall (fun c => c <> 10%N) s -> newlines s = 0%nat.
Proof.
  unfold newlines. induction 1 as [|c s Hc _ IH]; [reflexivity|].
  rewrite filter_cons. now destruct (decide (c = 10%N)).
Qed.

(** Lines without a newline, joined by newlines: one newline less than
    there are lines. *)
Lemma newlines_join (L : list pystr) :
  Forall (Forall (fun c => c <> 10%N)) L ->
  newlines (str_join [10%N] L) = (length L - 1)%nat.
Proof.
  induction 1 as [|l L Hl HL IH]; [reflexivity|].
  destruct L as [|l' L'].
  - simpl. now apply newlines_none.
  - change (str_join [10%N] (l :: l' :: L'))
      with (l ++ [10%N] ++ str_join [10%N] (l' :: L')).
    rewrite !newlines_app, IH, (newlines_none l Hl). simpl. lia.
Qed.

Lemma join_plain (sep : pystr) (L : list pystr) (P : N -> Prop) :
  Forall P sep -> Forall (Forall P) L -> Forall P (str_join sep L).
Proof.
  intros Hsep. induction 1 as [|l L Hl HL IH]; [constructor|].
  destruct L as [|l' L']; [exact Hl|].
  change (str_join sep (l :: l' :: L')) with (l ++ sep ++ str_join sep (l' :: L')).
  rewrite !Forall_app. auto.
Qed.

Lemma spaced_chars (s : pystr) :
  spaced s -> Forall (fun c => c = 32%N \/ is_space c = false) s.
Proof.
  intros (W & HW & ->). apply join_plain.
  - constructor; [now left|constructor].
  - eapply Forall_impl; [exact HW|]. intros w [_ Hw].
    eapply Forall_impl; [exact Hw|]. intros c Hc. now right.
Qed.

(** The cleaned text of a custom line: words joined by single spaces. *)
Lemma custom_text_spaced (raw : pystr) :
  spaced (str_strip (str_join (py " ") (str_split raw))).
Proof. apply spaced_strip; [reflexivity|apply spaced_split]. Qed.

Lemma custom_line_plain (raw : pystr) :
  Forall (Forall (fun c => c <> 10%N)) (custom_line raw).
Proof.
  unfold custom_line. destruct (nonempty _); [|constructor].
  constructor; [|constructor]. apply Forall_app. split.
  - repeat constructor; discriminate.
  - eapply Forall_impl; [exact (spaced_chars _ (custom_text_spaced raw))|].
    intros c [-> | Hc]; [discriminate|]. intros ->. discriminate.
Qed.

Lemma group_line_plain (gl : pystr * list pystr) :
  Forall (fun c => c <> 10%N) (fst gl) ->
  Forall (Forall (fun c => c <> 10%N)) (snd gl) ->
  Forall (Forall (fun c => c <> 10%N)) (group_line gl).
Proof.
  intros Hg Hl. unfold group_line. destruct (snd gl) as [|l ls] eqn:E; [constructor|].
  constructor; [|constructor]. rewrite !Forall_app. split; [|split; [exact Hg|split]].
  - repeat constructor; discriminate.
  - repeat constructor; discriminate.
  - apply join_plain; [|exact Hl]. repeat constructor; discriminate.
Qed.

Lemma concat_plain (P : pystr -> Prop) (LL : list (list pystr)) :
  Forall (Forall P) LL -> Forall P (concat LL).
Proof.
  induction 1 as [|l LL Hl _ IH]; simpl; [constructor|].
  apply Forall_app. now split.
Qed.

(** X10. When no group name and no label holds a newline, the bullets
    text has at most thirty lines: its number of newlines is one less
    than the number of lines collected, and at most twenty-nine. *)
Theorem bullets_at_most_thirty_lines (selected : list (pystr * list pystr))
  (custom_lines : list pystr) :
  Forall (fun gl => Forall (fun c => c <> 10%N) (fst gl) /\
                    Forall (Forall (fun c => c <> 10%N)) (snd gl)) selected ->
  (newlines (build_upgrades_bullets selected custom_lines) <= 29)%nat /\
  newlines (build_upgrades_bullets selected custom_lines)
  = (Nat.min 30 (length (bullet_lines selected custom_lines)) - 1)%nat.
Proof.
  intros Hsel.
  assert (Hlines : Forall (Forall (fun c => c <> 10%N))
                     (bullet_lines selected custom_lines)).
  { unfold bullet_lines. apply Forall_app. split; apply concat_plain.
    - rewrite Forall_map. eapply Forall_impl; [exact Hsel|].
      intros gl [Hg Hl]. now apply group_line_plain.
    - rewrite Forall_map. apply Forall_forall. intros raw _. apply custom_line_plain. }
  unfold build_upgrades_bullets.
  rewrite newlines_join by (now apply Forall_take).
  rewrite length_take. split; lia.
Qed.

(** *** The empty result *)

Lemma split_from_nil (s cur : pystr) :
  split_from cur s = [] <-> cur = [] /\ Forall (fun c => is_space c = true) s.
Proof.
  revert cur. induction s as [|c s IH]; intros cur; simpl.
  - destruct cur; split; try discriminate; auto.
    + intros [H _]. discriminate.
  - destruct (is_space c) eqn:Hc.
    + destruct cur as [|d cur].
      * rewrite IH. split; intros [_ H]; (split; [reflexivity|]).
        -- now constructor.
        -- now inversion H.
      * split; [discriminate|]. intros [H _]. discriminate.
    + rewrite IH. split; [intros [H _]; discriminate|].
      intros [_ H]. inversion H; subst. congruence.
Qed.

Lemma custom_line_nil (raw : pystr) :
  custom_line raw = [] <-> Forall (fun c => is_space c = true) raw.
Proof.
  unfold custom_line.
  rewrite (spaced_trimmed _ (spaced_split raw)).
  pose proof (split_from_nil raw []) as Hnil. fold (str_split raw) in Hnil.
  pose proof (split_from_words raw [] ltac:(constructor)) as HW.
  fold (str_split raw) in HW.
  destruct (str_split raw) as [|w W].
  - simpl. split; [intros _; exact (proj2 (proj1 Hnil eq_refl))|reflexivity].
  - inversion HW as [|? ? [Hne _] _]; subst.
    assert (Hj : nonempty (str_join (py " ") (w :: W)) = true).
    { destruct w as [|c w]; [congruence|]. now destruct W. }
    rewrite Hj. split; [discriminate|].
    intros H. assert (E : w :: W = []) by (apply Hnil; now split). discriminate.
Qed.

Lemma group_line_nil (gl : pystr * list pystr) :
  group_line gl = [] <-> snd gl = [].
Proof. unfold group_line. destruct (snd gl); split; auto; discriminate. Qed.

Lemma concat_map_nil {A B} (f : A -> list B) (l : list A) :
  concat (map f l) = [] <-> Forall (fun a => f a = []) l.
Proof.
  induction l as [|a l IH]; simpl.
  - split; [constructor|reflexivity].
  - split.
    + intros [Ha Hl]%app_eq_nil. constructor; [exact Ha|now apply IH].
    + intros H. inversion H as [|? ? Ha Hl]; subst.
      rewrite Ha. now apply IH.
Qed.

(** Every line starts with a dash. *)
Lemma bullet_lines_dash (selected : list (pystr * list pystr))
  (custom_lines : list pystr) :
  Forall (fun l => exists t, l = 45%N :: 32%N :: t)
         (bullet_lines selected custom_lines).
Proof.
  unfold bullet_lines. apply Forall_app. split; apply concat_plain; rewrite Forall_map;
    apply Forall_forall; intros x _.
  - unfold group_line. destruct (snd x); repeat constructor. eauto.
  - unfold custom_line. destruct (nonempty _); repeat constructor. eauto.
Qed.

Lemma join_nil (sep : pystr) (L : list pystr) :
  str_join sep L = [] -> Forall (fun l => l = []) L.
Proof.
  induction L as [|l L IH]; [constructor|].
  destruct L as [|l' L'].
  - simpl. intros ->. repeat constructor.
  - change (str_join sep (l :: l' :: L')) with (l ++ sep ++ str_join sep (l' :: L')).
    intros [Hl [_ H]%app_eq_nil]%app_eq_nil. constructor; [exact Hl|now apply IH].
Qed.

(** X11. The bullets text is empty exactly when no group has a selected
    label and every custom line is whitespace only. *)
Theorem bullets_empty_iff (selected : list (pystr * list pystr))
  (custom_lines : list pystr) :
  build_upgrades_bullets selected custom_lines = [] <->
  Forall (fun gl => snd gl = []) selected /\
  Forall (Forall (fun c => is_space c = true)) custom_lines.
Proof.
  assert (Hlines : bullet_lines selected custom_lines = [] <->
            Forall (fun gl => snd gl = []) selected /\
            Forall (Forall (fun c => is_space c = true)) custom_lines).
  { unfold bullet_lines. split.
    - intros [H1 H2]%app_eq_nil.
      apply concat_map_nil in H1. apply concat_map_nil in H2. split.
      + eapply Forall_impl; [exact H1|]. intros gl. apply group_line_nil.
      + eapply Forall_impl; [exact H2|]. intros raw. apply custom_line_nil.
    - intros [H1 H2].
      assert (E1 : concat (map group_line selected) = []).
      { apply concat_map_nil. eapply Forall_impl; [exact H1|].
        intros gl. apply group_line_nil. }
      assert (E2 : concat (map custom_line custom_lines) = []).
      { apply concat_map_nil. eapply Forall_impl; [exact H2|].
        intros raw. apply custom_line_nil. }
      now rewrite E1, E2. }
  rewrite <- Hlines. unfold build_upgrades_bullets. split.
  - intros H. apply join_nil in H.
    pose proof (bullet_lines_dash selected custom_lines) as Hd.
    destruct (bullet_lines selected custom_lines) as [|l L]; [reflexivity|].
    simpl in H. inversion H as [|? ? Hl _]; subst.
    inversion Hd as [|? ? [t Ht] _]; subst. discriminate.
  - now intros ->.
Qed.

(** ** Merging, once more *)

(** X12. Merging dicts: the empty dict of updates changes nothing,
    and merging into the empty dict gives the updates; merging [u1] and
    then [u2] is merging, once, what [u2] merged into [u1] gives; merging
    the same updates a second time changes nothing; the keys of the
    result are those of both. *)
Theorem merge_preserving_algebra (original u1 u2 : gmap pystr json) :
  merge_preserving original (JObj ∅) = Ok original /\
  merge_preserving ∅ (JObj u1) = Ok u1 /\
  exists d1 d12 u12,
    merge_preserving original (JObj u1) = Ok d1 /\
    merge_preserving d1 (JObj u2) = Ok d12 /\
    merge_preserving u1 (JObj u2) = Ok u12 /\
    merge_preserving original (JObj u12) = Ok d12 /\
    merge_preserving d1 (JObj u1) = Ok d1 /\
    dom d1 = dom original ∪ dom u1.
Proof.
  unfold merge_preserving. rewrite !merge_fold_union.
  split; [now rewrite (left_id_L ∅ (∪))|].
  split; [now rewrite (right_id_L ∅ (∪))|].
  exists (u1 ∪ original), (u2 ∪ (u1 ∪ original)), (u2 ∪ u1).
  rewrite !merge_fold_union.
  split; [reflexivity|]. split; [reflexivity|]. split; [reflexivity|].
  split; [now rewrite (assoc_L (∪))|].
  split; [now rewrite (assoc_L (∪)), (idemp_L (∪))|].
  rewrite dom_union_L. apply (comm_L (∪)).
Qed.

Section PipelineMore.

Variable complete : list request -> request -> reply.

(** ** What the repair stage keeps *)

Lemma merge_preserving_keys (original d : gmap pystr json) (updates : json) (k : pystr) :
  merge_preserving original updates = Ok d ->
  is_Some (original !! k) -> is_Some (d !! k).
Proof.
  unfold merge_preserving. destruct updates as [| | | | | |u];
    try (destruct (truthy _); [discriminate|]; now intros [= <-]).
  rewrite merge_fold_union. intros [= <-] [v Hv].
  destruct (u !! k) as [w|] eqn:Hu.
  - exists w. now apply lookup_union_Some_l.
  - exists v. now rewrite lookup_union_r.
Qed.

Lemma repair_loop_keys (li : ListingInput) (mn : Z) (missing : list pystr) :
  forall (data data' : gmap pystr json) (log log' : list request) (k : pystr),
    repair_loop complete li mn missing data log = (Ok data', log') ->
    is_Some (data !! k) -> is_Some (data' !! k).
Proof.
  induction missing as [|key rest IH]; intros data data' log log' k; simpl.
  - unfold ret. now intros [= <- _].
  - destruct (repair_prompt li mn key) as [p|]; [|apply IH].
    unfold bind, lift.
    destruct (chat_json complete SYSTEM p 45 log) as [[[partial raw]|e] l];
      [|discriminate].
    destruct (merge_preserving data partial) as [d|e] eqn:Hm; [|discriminate].
    intros Hrun Hk. apply (IH d data' l log' k Hrun).
    now apply (merge_preserving_keys data d partial).
Qed.

Lemma validate_and_repair_keys (li : ListingInput) (data data' : gmap pystr json)
  (log log' : list request) (k : pystr) :
  validate_and_repair complete li data log = (Ok data', log') ->
  is_Some (data !! k) -> is_Some (data' !! k).
Proof.
  unfold validate_and_repair, bind, lift.
  destruct (min_chars_of (mls_char_limit li)) as [mn|]; [|discriminate].
  destruct (missing_keys data) as [|key rest] eqn:Hm.
  - unfold ret. now intros [= <- _].
  - apply repair_loop_keys.
Qed.

(** X13. Whenever [validate_and_repair] returns, every key of the data
    it was given is a key of the data it returns. *)
Theorem validate_and_repair_keeps_keys (li : ListingInput)
  (data data' : gmap pystr json) (log log' : list request) :
  validate_and_repair complete li data log = (Ok data', log') ->
  dom data ⊆ dom data'.
Proof.
  intros H k Hk. apply elem_of_dom. apply elem_of_dom in Hk.
  exact (validate_and_repair_keys li data data' log log' k H Hk).
Qed.

(** ** Replies that repair nothing *)

Lemma repair_loop_empty_replies (li : ListingInput) (mn : Z) (missing : list pystr) :
  (forall log rq, exists c,
      complete log rq = Content c /\
      safe_json_extract (Some (or_empty c)) = Ok (JObj ∅)) ->
  forall (data : gmap pystr json) (log : list request),
    repair_loop complete li mn missing data log
    = (Ok data, log ++ repair_requests li mn missing).
Proof.
  intros Hc. induction missing as [|key rest IH]; intros data log.
  - simpl. unfold ret. now rewrite app_nil_r.
  - unfold repair_requests. simpl. fold (repair_requests li mn rest).
    destruct (repair_prompt li mn key) as [p|]; simpl; [|apply IH].
    unfold bind at 1.
    destruct (Hc log {| system_prompt := SYSTEM; user_prompt := p; temperature := 45 |})
      as (c & Hrep & Hpar).
    rewrite (chat_json_content complete SYSTEM p 45 log c Hrep), Hpar.
    unfold bind, lift. simpl merge_preserving. rewrite merge_fold_union.
    rewrite (left_id_L ∅ (∪)). rewrite IH. now rewrite <- app_assoc.
Qed.

(** X14. The repaired data is not validated again. With an endpoint
    whose every reply parses to the empty object, [validate_and_repair]
    issues one request per missing key and returns the data as it was
    given, the same keys missing. *)
Theorem validate_and_repair_no_recheck (li : ListingInput) (mn : Z)
  (data : gmap pystr json) (log : list request) :
  min_chars_of (mls_char_limit li) = Ok mn ->
  (forall log rq, exists c,
      complete log rq = Content c /\
      safe_json_extract (Some (or_empty c)) = Ok (JObj ∅)) ->
  validate_and_repair complete li data log
  = (Ok data, log ++ repair_requests li mn (missing_keys data)) /\
  length (repair_requests li mn (missing_keys data)) = length (missing_keys data).
Proof.
  intros Hmn Hc. split; [|apply repair_requests_length].
  rewrite (validate_and_repair_loop complete li mn data log Hmn).
  now apply repair_loop_empty_replies.
Qed.

(** ** The description after the length pass *)

Lemma ensure_length_description (li : ListingInput) (data data' : gmap pystr json)
  (log log' : list request) :
  ensure_length complete li data log = (Ok data', log') ->
  exists mn s,
    min_chars_of (mls_char_limit li) = Ok mn /\
    or_empty_strip (data' !! MLS) = Ok s /\
    str_strip s = s /\
    (log' = log -> mn <= len s <= mls_char_limit li).
Proof.
  unfold ensure_length, bind, lift, ret.
  destruct (min_chars_of (mls_char_limit li)) as [mn|]; [|discriminate].
  destruct (or_empty_strip (data !! MLS)) as [cur|] eqn:Hcur; [|discriminate].
  destruct ((mn <=? len cur) && (len cur <=? mls_char_limit li)) eqn:Hin.
  { intros [= <- _]. exists mn, cur. split; [reflexivity|]. split; [exact Hcur|].
    split; [exact (or_empty_strip_stripped _ _ Hcur)|].
    intros _. apply andb_true_iff in Hin as [H1%Z.leb_le H2%Z.leb_le]. lia. }
  destruct (chat_json_log complete SYSTEM
              (RevisionPrompt mn (mls_char_limit li) (len cur) cur)
              (revision_temperature li) log) as [r Hr].
  rewrite Hr. destruct r as [[rj raw]|e]; [|discriminate].
  destruct (json_get rj MLS) as [v|]; [|discriminate].
  destruct (or_empty_strip v) as [rev|] eqn:Hrev; [|discriminate].
  assert (Hlog : forall l : list request, forall rq, l ++ [rq] <> l).
  { intros l rq E. apply (f_equal (@length request)) in E.
    rewrite length_app in E. simpl in E. lia. }
  destruct (nonempty rev) eqn:Hne; intros [= <- <-].
  - exists mn, rev. split; [reflexivity|]. rewrite lookup_insert_eq. simpl.
    pose proof (or_empty_strip_stripped _ _ Hrev) as Hs.
    split; [now rewrite Hs|]. split; [exact Hs|]. intros E. now apply Hlog in E.
  - exists mn, cur. split; [reflexivity|]. split; [exact Hcur|].
    split; [exact (or_empty_strip_stripped _ _ Hcur)|]. intros E. now apply Hlog in E.
Qed.

(** X15. Whenever [ensure_length] returns, the description of the
    returned data is absent, falsy or a string, so that the page can
    trim it without an error, and the trimmed text is a fixed point of
    trimming; when no request was issued, its length is within the
    bounds. *)
Theorem ensure_length_renderable (li : ListingInput) (data data' : gmap pystr json)
  (log log' : list request) :
  ensure_length complete li data log = (Ok data', log') ->
  exists mn s,
    min_chars_of (mls_char_limit li) = Ok mn /\
    or_empty_strip (data' !! MLS) = Ok s /\
    str_strip s = s /\
    (log' = log -> mn <= len s <= mls_char_limit li).
Proof. apply ensure_length_description. Qed.

(** ** The requests of a generation *)

Lemma pipeline_request_repair (li : ListingInput) (mn : Z) (keys : list pystr) :
  Forall pipeline_request (repair_requests li mn keys).
Proof.
  unfold repair_requests. induction keys as [|k keys IH]; simpl; [constructor|].
  destruct (repair_prompt li mn k); simpl; [|exact IH].
  constructor; [|exact IH]. split; [reflexivity|]. simpl. lia.
Qed.

Lemma missing_keys_length (data : gmap pystr json) : (length (missing_keys data) <= 4)%nat.
Proof.
  unfold missing_keys, REQUIRED_KEYS.
  rewrite !filter_cons, filter_nil.
  repeat (destruct (negb _)); simpl; lia.
Qed.

Lemma revision_temperature_range (li : ListingInput) :
  35 <= revision_temperature li <= 65.
Proof. unfold revision_temperature. destruct (negb _); lia. Qed.

Lemma primary_temperature_range (li : ListingInput) :
  35 <= primary_temperature li <= 65.
Proof.
  unfold primary_temperature.
  destruct (str_eqb _ _); [lia|]. destruct (str_eqb _ _); lia.
Qed.

Lemma validate_and_repair_log (li : ListingInput) (data : gmap pystr json)
  (log : list request) :
  exists r added,
    validate_and_repair complete li data log = (r, log ++ added) /\
    (length added <= 4)%nat /\ Forall pipeline_request added.
Proof.
  unfold validate_and_repair, bind, lift.
  destruct (min_chars_of (mls_char_limit li)) as [mn|e].
  2:{ exists (Raise e), []. rewrite app_nil_r. repeat split; [simpl; lia|constructor]. }
  destruct (repair_loop_requests complete li mn (missing_keys data) data log)
    as (r & n & Hrun & _ & _).
  exists (match missing_keys data with [] => Ok data | _ => r end),
         (take n (repair_requests li mn (missing_keys data))).
  split; [|split].
  - destruct (missing_keys data) eqn:E; [|exact Hrun].
    unfold ret. simpl. rewrite take_nil. now rewrite app_nil_r.
  - rewrite length_take, repair_requests_length.
    pose proof (missing_keys_length data). lia.
  - apply Forall_take, pipeline_request_repair.
Qed.

Lemma ensure_length_log (li : ListingInput) (data : gmap pystr json)
  (log : list request) :
  exists r added,
    ensure_length complete li data log = (r, log ++ added) /\
    (length added <= 1)%nat /\ Forall pipeline_request added.
Proof.
  unfold ensure_length, bind, lift, ret.
  destruct (min_chars_of (mls_char_limit li)) as [mn|e].
  2:{ exists (Raise e), []. rewrite app_nil_r. repeat split; [simpl; lia|constructor]. }
  destruct (or_empty_strip (data !! MLS)) as [cur|e].
  2:{ exists (Raise e), []. rewrite app_nil_r. repeat split; [simpl; lia|constructor]. }
  destruct ((mn <=? len cur) && (len cur <=? mls_char_limit li)).
  { exists (Ok data), []. rewrite app_nil_r. repeat split; [simpl; lia|constructor]. }
  destruct (chat_json_log complete SYSTEM
              (RevisionPrompt mn (mls_char_limit li) (len cur) cur)
              (revision_temperature li) log) as [r Hr].
  rewrite Hr.
  assert (Hrq : Forall pipeline_request
                  [{| system_prompt := SYSTEM;
                      user_prompt := RevisionPrompt mn (mls_char_limit li) (len cur) cur;
                      temperature := revision_temperature li |}]).
  { constructor; [|constructor]. split; [reflexivity|].
    apply revision_temperature_range. }
  destruct r as [[rj raw]|e]; [|eexists _, _; split; [reflexivity|]; split; [simpl; lia|exact Hrq]].
  destruct (json_get rj MLS) as [v|e];
    [|eexists _, _; split; [reflexivity|]; split; [simpl; lia|exact Hrq]].
  destruct (or_empty_strip v) as [rev|e];
    [|eexists _, _; split; [reflexivity|]; split; [simpl; lia|exact Hrq]].
  destruct (nonempty rev);
    eexists _, _; (split; [reflexivity|]); (split; [simpl; lia|exact Hrq]).
Qed.

(** Whatever the endpoint replies, [generate] issues at most six
    requests, all with the one system prompt and a temperature of the
    pipeline. *)
Lemma generate_log (li : ListingInput) (log : list request) :
  exists r added,
    generate complete li log = (r, log ++ added) /\
    (length added <= 6)%nat /\ Forall pipeline_request added /\
    (forall d, r = Ok d -> (1 <= length added)%nat).
Proof.
  unfold generate, build_primary_prompt.
  destruct (min_chars_of (mls_char_limit li)) as [mn|e]; simpl obind.
  2:{ exists (Raise e), []. rewrite app_nil_r.
      repeat split; [simpl; lia|constructor|discriminate]. }
  unfold bind at 1. unfold lift at 1. unfold bind at 1.
  destruct (chat_json_log complete SYSTEM (PrimaryPrompt li mn)
              (primary_temperature li) log) as [r0 Hr0].
  rewrite Hr0.
  set (rq0 := {| system_prompt := SYSTEM; user_prompt := PrimaryPrompt li mn;
                 temperature := primary_temperature li |}).
  assert (Hrq0 : pipeline_request rq0).
  { split; [reflexivity|]. apply primary_temperature_range. }
  destruct r0 as [[v raw]|e].
  2:{ exists (Raise e), [rq0]. repeat split; [simpl; lia|now constructor|discriminate]. }
  assert (Hbad : exists r added,
             (Raise AttributeError : outcome (gmap pystr json), log ++ [rq0])
             = (r, log ++ added) /\
             (length added <= 6)%nat /\ Forall pipeline_request added /\
             (forall d, r = Ok d -> (1 <= length added)%nat)).
  { exists (Raise AttributeError), [rq0].
    repeat split; [simpl; lia|now constructor|discriminate]. }
  destruct v as [| | | | | |d]; try exact Hbad. clear Hbad.
  unfold bind.
  destruct (validate_and_repair_log li d (log ++ [rq0])) as (r1 & a1 & Hr1 & Hl1 & Hp1).
  rewrite Hr1. destruct r1 as [d'|e].
  2:{ exists (Raise e), (rq0 :: a1). rewrite <- app_assoc.
      repeat split; [simpl; lia|now constructor|discriminate]. }
  destruct (ensure_length_log li d' ((log ++ [rq0]) ++ a1)) as (r2 & a2 & Hr2 & Hl2 & Hp2).
  rewrite Hr2. exists r2, (rq0 :: a1 ++ a2).
  rewrite <- !app_assoc. split; [reflexivity|]. split; [|split].
  - simpl. rewrite length_app. lia.
  - constructor; [exact Hrq0|]. apply Forall_app. now split.
  - intros _ _. simpl. lia.
Qed.

(** X16. Whatever the endpoint replies, a generation issues at most
    six requests, each with the one system prompt and a temperature from
    0.35 to 0.65, and at least one when it returns. *)
Theorem generate_request_budget (li : ListingInput) (log : list request) :
  exists r added,
    generate complete li log = (r, log ++ added) /\
    (length added <= 6)%nat /\ Forall pipeline_request added /\
    (forall d, r = Ok d -> (1 <= length added)%nat).
Proof. apply generate_log. Qed.

(** ** A primary call that fails *)

(** X17. A primary call that fails ends the generation after that one
    request, with no repair and no revision: the transport error when
    the endpoint fails, the error of the parser when the reply does not
    parse, and [AttributeError] when it parses to a value that is not an
    object. *)
Theorem generate_primary_failure (li : ListingInput) (log : list request) (mn : Z) :
  min_chars_of (mls_char_limit li) = Ok mn ->
  let rq0 := {| system_prompt := SYSTEM; user_prompt := PrimaryPrompt li mn;
                temperature := primary_temperature li |} in
  (complete log rq0 = Failure ->
   generate complete li log = (Raise TransportError, log ++ [rq0])) /\
  (forall c e,
     complete log rq0 = Content c ->
     safe_json_extract (Some (or_empty c)) = Raise e ->
     generate complete li log = (Raise e, log ++ [rq0])) /\
  (forall c v,
     complete log rq0 = Content c ->
     safe_json_extract (Some (or_empty c)) = Ok v ->
     (forall d, v <> JObj d) ->
     generate complete li log = (Raise AttributeError, log ++ [rq0])).
Proof.
  intros Hmn rq0.
  assert (Hgen : generate complete li log
                 = match chat_json complete SYSTEM (PrimaryPrompt li mn)
                           (primary_temperature li) log with
                   | (Ok (JObj d, _), l) =>
                       bind (validate_and_repair complete li d)
                            (fun d' => ensure_length complete li d') l
                   | (Ok (_, _), l) => (Raise AttributeError, l)
                   | (Raise e, l) => (Raise e, l)
                   end).
  { unfold generate, build_primary_prompt. rewrite Hmn. simpl obind.
    unfold bind at 1. unfold lift at 1. unfold bind at 1.
    destruct (chat_json complete SYSTEM (PrimaryPrompt li mn)
                (primary_temperature li) log) as [[[v raw]|e] l]; [|reflexivity].
    now destruct v. }
  rewrite Hgen. split; [|split].
  - intros Hf. unfold chat_json, bind, chat_raw. fold rq0. now rewrite Hf.
  - intros c e Hc He. rewrite (chat_json_content complete _ _ _ _ _ Hc), He.
    reflexivity.
  - intros c v Hc Hv Hno. rewrite (chat_json_content complete _ _ _ _ _ Hc), Hv.
    destruct v as [| | | | | |d]; try reflexivity. now destruct (Hno d).
Qed.

(** ** What a generation returns *)

(** X18. Whenever a generation returns, the primary reply parsed to an
    object, every key of that object is a key of the data returned, and
    the description of the data returned gives a trimmed text. *)
Theorem generate_result (li : ListingInput) (log log' : list request)
  (data' : gmap pystr json) :
  generate complete li log = (Ok data', log') ->
  exists mn c d s,
    min_chars_of (mls_char_limit li) = Ok mn /\
    complete log {| system_prompt := SYSTEM; user_prompt := PrimaryPrompt li mn;
                    temperature := primary_temperature li |} = Content c /\
    safe_json_extract (Some (or_empty c)) = Ok (JObj d) /\
    dom d ⊆ dom data' /\
    or_empty_strip (data' !! MLS) = Ok s /\
    str_strip s = s.
Proof.
  unfold generate, build_primary_prompt.
  destruct (min_chars_of (mls_char_limit li)) as [mn|e] eqn:Hmn; simpl obind;
    [|discriminate].
  unfold bind at 1. unfold lift at 1. unfold bind at 1.
  unfold chat_json at 1. unfold bind at 1. unfold chat_raw at 1.
  destruct (complete log _) as [c|] eqn:Hc; [|discriminate].
  unfold bind at 1. unfold lift at 1.
  destruct (safe_json_extract (Some (or_empty c))) as [v|e] eqn:Hv; [|discriminate].
  unfold ret. destruct v as [| | | | | |d]; try discriminate.
  unfold bind.
  destruct (validate_and_repair complete li d _) as [[d'|e] l] eqn:Hrep; [|discriminate].
  intros Hlen.
  destruct (ensure_length_description li d' data' l log' Hlen) as (mn' & s & _ & Hs & Ht & _).
  exists mn, c, d, s. split; [reflexivity|]. split; [exact Hc|]. split; [exact Hv|].
  split; [|split; [exact Hs|exact Ht]].
  intros k Hk. apply elem_of_dom. apply elem_of_dom in Hk.
  destruct (ensure_length_result complete li d' data' l log' Hlen)
    as [-> | (s' & _ & _ & ->)].
  - exact (validate_and_repair_keys li d d' _ l k Hrep Hk).
  - destruct (decide (k = MLS)) as [->|Hne].
    + rewrite lookup_insert_eq. eauto.
    + rewrite lookup_insert_ne by congruence.
      exact (validate_and_repair_keys li d d' _ l k Hrep Hk).
Qed.

End PipelineMore.

(** ** Access gate *)

(** A run that starts without the flag does not get past the gate, and
    sets the flag only when the password is entered. *)
Lemma script_head_locked (api_key app_password : option pystr)
  (authed a : option bool) (inp : gate_input) (c : control) :
  authed <> Some true ->
  script_head api_key app_password authed inp = (c, a) ->
  c <> GoOn /\
  (a = authed \/
   (a = Some true /\ enter_clicked inp = true /\
    app_password = Some (password_typed inp) /\ password_typed inp <> [])).
Proof.
  intros Hna. unfold script_head.
  destruct api_key as [[|k ks]|]; try (intros [= <- <-]; split; [discriminate|now left]).
  unfold check_password.
  destruct authed as [[|]|]; [congruence| |];
    (destruct (enter_clicked inp) eqn:He;
       [|intros [= <- <-]; split; [discriminate|now left]];
     destruct app_password as [[|p ps]|];
       try (intros [= <- <-]; split; [discriminate|now left]);
     unfold str_eqb; destruct (bool_decide_reflect (password_typed inp = p :: ps)) as [E|_];
       intros [= <- <-]; (split; [discriminate|]); [right|now left];
     rewrite E; repeat split; discriminate).
Qed.

(** A run gets past the gate only when it starts with the flag set, the
    API key is there and "Log out" is not pressed; the flag stays set. *)
Lemma script_head_pass (api_key app_password : option pystr)
  (authed a : option bool) (inp : gate_input) :
  script_head api_key app_password authed inp = (GoOn, a) ->
  authed = Some true /\ a = Some true /\ logout_clicked inp = false /\
  exists k ks, api_key = Some (k :: ks).
Proof.
  intros H.
  destruct (decide (authed = Some true)) as [->|Hna].
  - revert H. unfold script_head, check_password.
    destruct api_key as [[|k ks]|]; try discriminate.
    destruct (logout_clicked inp); [discriminate|].
    intros [= <-]. eauto 6.
  - destruct (script_head_locked _ _ _ _ _ _ Hna H) as [Hc _]. congruence.
Qed.

Lemma session_pass_inv (api_key app_password : option pystr) (runs : list gate_input) :
  forall (authed final : option bool) (passed : list bool) (i : nat),
    session api_key app_password authed runs = (final, passed) ->
    authed <> Some true ->
    passed !! i = Some true ->
    (exists k ks, api_key = Some (k :: ks)) /\
    exists j inp,
      (j < i)%nat /\ runs !! j = Some inp /\ enter_clicked inp = true /\
      app_password = Some (password_typed inp) /\ password_typed inp <> [].
Proof.
  assert (Hkey : forall runs authed final passed i,
            session api_key app_password authed runs = (final, passed) ->
            passed !! i = Some true -> exists k ks, api_key = Some (k :: ks)).
  { clear runs. induction runs as [|inp rest IH]; intros authed final passed i; simpl.
    - intros [= _ <-] Hi. discriminate.
    - destruct (script_head api_key app_password authed inp) as [c a] eqn:Hh.
      destruct (session api_key app_password a rest) as [final' passed'] eqn:Hs.
      intros [= _ <-] Hi. destruct i as [|i]; [|exact (IH _ _ _ i Hs Hi)].
      simpl in Hi. destruct c; try discriminate.
      now destruct (script_head_pass _ _ _ _ _ Hh) as (_ & _ & _ & H). }
  induction runs as [|inp rest IH]; intros authed final passed i; simpl.
  - intros [= _ <-] _ Hi. discriminate.
  - destruct (script_head api_key app_password authed inp) as [c a] eqn:Hh.
    destruct (session api_key app_password a rest) as [final' passed'] eqn:Hs.
    intros [= _ <-] Hna Hi.
    destruct (script_head_locked _ _ _ _ _ _ Hna Hh) as [Hc Ha].
    destruct i as [|i].
    { simpl in Hi. destruct c; try discriminate. congruence. }
    simpl in Hi. split; [exact (Hkey rest a final' passed' i Hs Hi)|].
    destruct Ha as [-> | (_ & He & Hp & Hne)].
    + destruct (IH authed final' passed' i Hs Hna Hi) as (_ & j & inp' & Hj & Hr & H).
      exists (S j), inp'. split; [lia|]. split; [exact Hr|exact H].
    + exists 0%nat, inp. split; [lia|]. split; [reflexivity|]. auto.
Qed.

(** X19. In a session that starts without the flag, a run gets past the
    gate only if the API key is configured and, in an earlier run, the
    visitor pressed "Enter" with the configured password typed, that
    password not being empty. *)
Theorem session_pass_needs_password (api_key app_password : option pystr)
  (runs : list gate_input) (authed final : option bool) (passed : list bool) (i : nat) :
  session api_key app_password authed runs = (final, passed) ->
  authed <> Some true ->
  passed !! i = Some true ->
  (exists k ks, api_key = Some (k :: ks)) /\
  exists j inp,
    (j < i)%nat /\ runs !! j = Some inp /\ enter_clicked inp = true /\
    app_password = Some (password_typed inp) /\ password_typed inp <> [].
Proof. apply session_pass_inv. Qed.

(** X20. With no password configured, or an empty one, a session that
    starts without the flag never gets past the gate, whatever is typed,
    and the flag stays as it was. *)
Theorem session_locked_without_password (api_key app_password : option pystr)
  (runs : list gate_input) (authed final : option bool) (passed : list bool) :
  app_password = None \/ app_password = Some [] ->
  authed <> Some true ->
  session api_key app_password authed runs = (final, passed) ->
  final = authed /\ passed = repeat false (length runs).
Proof.
  intros Hpw Hna. revert authed final passed Hna.
  induction runs as [|inp rest IH]; intros authed final passed Hna; simpl.
  - now intros [= <- <-].
  - destruct (script_head api_key app_password authed inp) as [c a] eqn:Hh.
    destruct (session api_key app_password a rest) as [final' passed'] eqn:Hs.
    intros [= <- <-].
    destruct (script_head_locked _ _ _ _ _ _ Hna Hh) as [Hc Ha].
    assert (a = authed) as ->.
    { destruct Ha as [Ha | (_ & _ & Hp & Hne)]; [exact Ha|].
      destruct Hpw as [-> | ->]; [discriminate|]. injection Hp as Hp. congruence. }
    destruct (IH authed final' passed' Hna Hs) as [-> ->].
    split; [reflexivity|]. f_equal. now destruct c.
Qed.

(** X21. With the API key and a password configured: the run in which
    the password is entered does not get past the gate but sets the
    flag; the next run gets past it; the run in which "Log out" is
    pressed does not, and clears the flag. *)
Theorem login_logout_cycle (api_key app_password : option pystr) (authed : option bool)
  (inp1 inp2 inp3 : gate_input) :
  (exists k ks, api_key = Some (k :: ks)) ->
  app_password = Some (password_typed inp1) ->
  password_typed inp1 <> [] ->
  authed <> Some true ->
  enter_clicked inp1 = true ->
  logout_clicked inp2 = false ->
  logout_clicked inp3 = true ->
  session api_key app_password authed [inp1; inp2; inp3]
  = (Some false, [false; true; false]).
Proof.
  intros (k & ks & ->) -> Hne Hna He H2 H3.
  destruct (password_typed inp1) as [|p ps] eqn:Hp; [congruence|].
  simpl. unfold check_password at 1.
  assert (Hfirst : match authed with
                   | Some true =>
                       if logout_clicked inp1 then (Rerun, Some false, false)
                       else (GoOn, authed, false)
                   | _ =>
                       if enter_clicked inp1
                       then if str_eqb (password_typed inp1) (p :: ps)
                            then (Rerun, Some true, false)
                            else (Stopped, authed, true)
                       else (Stopped, authed, false)
                   end = (Rerun, Some true, false)).
  { rewrite He, Hp. unfold str_eqb. rewrite bool_decide_eq_true_2 by reflexivity.
    destruct authed as [[|]|]; [congruence|reflexivity|reflexivity]. }
  rewrite Hp in Hfirst |- *. rewrite Hfirst.
  unfold check_password. now rewrite H2, H3.
Qed.

(** ** The page *)




Section Page.

Variable complete : list request -> request -> reply.


End Page.

(** ** Sample runs of the builders, the pipeline and the gate *)

Lemma build_keywords_invariant_witness :
  NoDup sample_keywords /\ (length sample_keywords <= 60)%nat /\
  Forall (fun k => k <> [] /\ normalize_token k = k /\ str_strip k = k) sample_keywords.
Proof.
  apply (build_keywords_invariant sample_selections (Some float_3) (Some float_2)
           (Some 1600) (Some 5000) (Some 1995) (py "Single Family")
           [py " Big yard "; py "corner  LOT"]).
  vm_compute. reflexivity.
Defined.

Lemma build_keywords_roundtrip_witness :
  build_keywords_from_selections [] None None None None None [] sample_keywords
  = Ok sample_keywords.
Proof.
  apply (build_keywords_roundtrip sample_selections (Some float_3) (Some float_2)
           (Some 1600) (Some 5000) (Some 1995) (py "Single Family") []).
  vm_compute. reflexivity.
Defined.

Lemma build_keywords_from_tokens_witness :
  (forall x, x ∈ [py "corner lot"; py "2.0 bathrooms"; py "condo"; py "pool"] ->
     x <> [] /\
     exists t, t ∈ [py "corner lot"; py "2.0 bathrooms"; py "condo"; py "Pool";
                    py "pool"; py "Corner  Lot,"] /\
               x = normalize_token t) /\
  [py "corner lot"; py "2.0 bathrooms"; py "condo"; py "pool"]
    `sublist_of` map normalize_token
                   [py "corner lot"; py "2.0 bathrooms"; py "condo"; py "Pool";
                    py "pool"; py "Corner  Lot,"] /\
  ((length [py "corner lot"; py "2.0 bathrooms"; py "condo"; py "pool"] < 60)%nat ->
   forall t, t ∈ [py "corner lot"; py "2.0 bathrooms"; py "condo"; py "Pool";
                  py "pool"; py "Corner  Lot,"] ->
     normalize_token t <> [] ->
     normalize_token t ∈ [py "corner lot"; py "2.0 bathrooms"; py "condo"; py "pool"]).
Proof.
  apply (build_keywords_from_tokens
           [(py "Exterior & Lot", [py "Corner lot"])] None (Some float_2) None None None
           (py "Condo") [py " Pool "; py "pool"; py ""; py "Corner  Lot,"]);
    vm_compute; reflexivity.
Defined.

Lemma selected_label_keywords_witness : py "spacious yard" ∈ sample_keywords.
Proof.
  eapply (selected_label_keywords sample_selections (Some float_3) (Some float_2)
            (Some 1600) (Some 5000) (Some 1995) (py "Single Family") []
            sample_keywords _ (py "Large backyard") (py "Exterior & Lot")
            (py "spacious yard") _ _ [py "Large backyard"; py "Corner lot"]).
  - apply (list_elem_of_lookup_2 _ 0%nat). vm_compute. reflexivity.
  - apply (list_elem_of_lookup_2 _ 2%nat). vm_compute. reflexivity.
  - apply (list_elem_of_lookup_2 _ 0%nat). reflexivity.
  - apply (list_elem_of_lookup_2 _ 0%nat). reflexivity.
  - vm_compute. reflexivity.
  - vm_compute. lia.
  - apply (list_elem_of_lookup_2 _ 1%nat). vm_compute. reflexivity.
Defined.

Lemma extra_keywords_wellformed_witness :
  py "Spa" <> [] /\ str_strip (py "Spa") = py "Spa" /\ Forall not_sep (py "Spa") /\
  Forall (fun c => c ∈ jtext "pool;; Spa ,  ocean view") (py "Spa").
Proof.
  apply (extra_keywords_wellformed (jtext "pool;; Spa ,  ocean view") (py "Spa")).
  apply (list_elem_of_lookup_2 _ 1%nat). vm_compute. reflexivity.
Defined.

Lemma extra_keywords_roundtrip_witness :
  extra_keywords_of (str_join (py ", ") [py "pool"; py "ocean view"; py "Spa"])
  = [py "pool"; py "ocean view"; py "Spa"].
Proof.
  apply (extra_keywords_roundtrip [py "pool"; py "ocean view"; py "Spa"]).
  repeat (constructor;
          [split; [discriminate|split; [vm_compute; reflexivity|]];
           repeat (constructor; [vm_compute; reflexivity|]); constructor|]).
  constructor.
Defined.

Lemma auto_keywords_without_extras_witness :
  build_keywords_from_selections sample_selections (Some float_3) (Some float_2)
    (none_if_zero 1600) (none_if_zero 5000) (none_if_zero 1995) (py "Single Family") []
  = Ok sample_keywords /\
  NoDup (map normalize_token sample_keywords) /\ (length sample_keywords <= 60)%nat.
Proof.
  apply (auto_keywords_without_extras sample_selections float_3 float_2 1600 5000 1995
           (py "Single Family") (py " ; , ") sample_keywords).
  - repeat (constructor; [vm_compute; auto|]). constructor.
  - vm_compute. reflexivity.
Defined.

Lemma bullets_at_most_thirty_lines_witness :
  (newlines (build_upgrades_bullets sample_selections [py " hot  tub "; py "  "])
   <= 29)%nat /\
  newlines (build_upgrades_bullets sample_selections [py " hot  tub "; py "  "])
  = (Nat.min 30 (length (bullet_lines sample_selections [py " hot  tub "; py "  "]))
     - 1)%nat.
Proof.
  apply (bullets_at_most_thirty_lines sample_selections [py " hot  tub "; py "  "]).
  constructor; [|constructor]. split.
  - apply (bool_decide_unpack _). vm_compute. exact I.
  - apply (bool_decide_unpack _). vm_compute. exact I.
Defined.

Lemma validate_and_repair_no_recheck_witness :
  validate_and_repair empty_replies (sample_listing 1000) only_description []
  = (Ok only_description,
     [] ++ repair_requests (sample_listing 1000) 900 (missing_keys only_description)) /\
  length (repair_requests (sample_listing 1000) 900 (missing_keys only_description))
  = length (missing_keys only_description).
Proof.
  apply (validate_and_repair_no_recheck empty_replies (sample_listing 1000) 900
           only_description []).
  - vm_compute. reflexivity.
  - intros log rq. exists (Some (py "{}")). split; [reflexivity|].
    vm_compute. reflexivity.
Defined.

Lemma validate_and_repair_keeps_keys_witness :
  dom only_description
  ⊆ dom (<[py "video_script_60s" := JStr (py "Welcome in.")]>
          (<[py "instagram_hashtags" := JStr (py "#home #pool")]>
             (<[py "social_caption" := JStr (py "Come and see.")]> only_description))).
Proof.
  apply (validate_and_repair_keeps_keys (scripted repair_replies) (sample_listing 1000)
           only_description _ []
           [repair_request (sample_listing 1000) (SocialCaptionPrompt (sample_listing 1000));
            repair_request (sample_listing 1000) (HashtagsPrompt (sample_listing 1000));
            repair_request (sample_listing 1000) (VideoScriptPrompt (sample_listing 1000))]).
  vm_compute. reflexivity.
Defined.

Lemma generate_primary_failure_witness :
  generate (scripted [py "oops"]) (sample_listing 1000) []
  = (Raise JSONDecodeError,
     [] ++ [{| system_prompt := SYSTEM;
               user_prompt := PrimaryPrompt (sample_listing 1000) 900;
               temperature := primary_temperature (sample_listing 1000) |}]) /\
  generate (scripted [py "[1, 2]"]) (sample_listing 1000) []
  = (Raise AttributeError,
     [] ++ [{| system_prompt := SYSTEM;
               user_prompt := PrimaryPrompt (sample_listing 1000) 900;
               temperature := primary_temperature (sample_listing 1000) |}]).
Proof.
  split.
  - destruct (generate_primary_failure (scripted [py "oops"]) (sample_listing 1000) [] 900)
      as (_ & H & _); [vm_compute; reflexivity|].
    apply (H (Some (py "oops")) JSONDecodeError); vm_compute; reflexivity.
  - destruct (generate_primary_failure (scripted [py "[1, 2]"]) (sample_listing 1000) [] 900)
      as (_ & _ & H); [vm_compute; reflexivity|].
    apply (H (Some (py "[1, 2]")) (JArr [JInt 1; JInt 2]));
      [vm_compute; reflexivity|vm_compute; reflexivity|discriminate].
Defined.

Lemma generate_no_extra_calls_witness :
  generate (scripted [full_reply 950]) (sample_listing 1000) []
  = (Ok (draft_of_length 950),
     [] ++ [{| system_prompt := SYSTEM;
               user_prompt := PrimaryPrompt (sample_listing 1000) 900;
               temperature := primary_temperature (sample_listing 1000) |}]).
Proof.
  apply (generate_no_extra_calls (scripted [full_reply 950]) (sample_listing 1000) [] 900
           (Some (full_reply 950)) (draft_of_length 950) (repeat 97%N 950)).
  - vm_compute. reflexivity.
  - vm_compute. reflexivity.
  - vm_compute. reflexivity.
  - vm_compute. reflexivity.
  - vm_compute. reflexivity.
  - vm_compute. split; discriminate.
Defined.

Lemma ensure_length_renderable_witness :
  exists mn s,
    min_chars_of (mls_char_limit (sample_listing 1000)) = Ok mn /\
    or_empty_strip (draft_of_length 950 !! MLS) = Ok s /\
    str_strip s = s /\
    (@nil request = [] -> mn <= len s <= mls_char_limit (sample_listing 1000)).
Proof.
  apply (ensure_length_renderable (scripted []) (sample_listing 1000)
           (draft_of_length 950) (draft_of_length 950) [] []).
  vm_compute. reflexivity.
Defined.

Lemma generate_result_witness :
  exists mn c d s,
    min_chars_of (mls_char_limit (sample_listing 1000)) = Ok mn /\
    scripted [full_reply 950] []
      {| system_prompt := SYSTEM; user_prompt := PrimaryPrompt (sample_listing 1000) mn;
         temperature := primary_temperature (sample_listing 1000) |} = Content c /\
    safe_json_extract (Some (or_empty c)) = Ok (JObj d) /\
    dom d ⊆ dom (draft_of_length 950) /\
    or_empty_strip (draft_of_length 950 !! MLS) = Ok s /\
    str_strip s = s.
Proof.
  apply (generate_result (scripted [full_reply 950]) (sample_listing 1000) []
           [{| system_prompt := SYSTEM;
               user_prompt := PrimaryPrompt (sample_listing 1000) 900;
               temperature := primary_temperature (sample_listing 1000) |}]).
  vm_compute. reflexivity.
Defined.

Lemma session_pass_needs_password_witness :
  (exists k ks, Some (py "sk-key") = Some (k :: ks)) /\
  exists j inp,
    (j < 2)%nat /\
    [visitor false "guess" true; visitor false "beta" true; visitor false "" false] !! j
    = Some inp /\
    enter_clicked inp = true /\
    Some (py "beta") = Some (password_typed inp) /\ password_typed inp <> [].
Proof.
  apply (session_pass_needs_password (Some (py "sk-key")) (Some (py "beta"))
           [visitor false "guess" true; visitor false "beta" true; visitor false "" false]
           None (Some true) [false; false; true] 2%nat).
  - vm_compute. reflexivity.
  - discriminate.
  - reflexivity.
Defined.

Lemma session_locked_without_password_witness :
  Some false = Some false /\
  [false; false] = repeat false (length [visitor false "" true; visitor true "x" true]).
Proof.
  apply (session_locked_without_password (Some (py "sk-key")) (Some [])
           [visitor false "" true; visitor true "x" true] (Some false)).
  - now right.
  - discriminate.
  - vm_compute. reflexivity.
Defined.

Lemma login_logout_cycle_witness :
  session (Some (py "sk-key")) (Some (py "beta")) None
    [visitor false "beta" true; visitor false "" false; visitor true "" false]
  = (Some false, [false; true; false]).
Proof.
  apply (login_logout_cycle (Some (py "sk-key")) (Some (py "beta")) None
           (visitor false "beta" true) (visitor false "" false) (visitor true "" false)).
  - eexists _, _. vm_compute. reflexivity.
  - reflexivity.
  - vm_compute. discriminate.
  - discriminate.
  - reflexivity.
  - reflexivity.
  - reflexivity.
Defined.

(** The generation step of the page on the sample form: a reply with
    all four fields is shown after one request; an empty address field
    stops the run before any request. *)
Lemma on_submit_sample :
  on_submit (scripted [full_reply 950]) (sample_form "pool, pool") []
  = (Generated (draft_of_length 950),
     [{| system_prompt := SYSTEM;
         user_prompt :=
           PrimaryPrompt
             (listing_of_form (sample_form "pool, pool")
                (sample_keywords ++ [py "pool"; py "pool"])) 900;
         temperature := 65 |}]).
Proof. vm_compute. reflexivity. Qed.
